(** * The alert evaluator of consumers/kafka_consumer_kabore.py

    A shallow embedding of [_try_parse_json] and [process_message], together
    with the parts of the Python runtime they call: [str.strip],
    [str.startswith], [str.endswith], the [in] operator on strings,
    [json.loads] with the two limits of the interpreter that make it raise,
    [isinstance], [float()], comparison, the formatting of values inside
    f-strings, and [print].

    A Python [str] is a sequence of Unicode code points; a code point is a
    natural number.  The output of the program (what [print] writes and what
    the logger records) is a trace of events threaded through a small
    state-and-exception monad. *)

From Stdlib Require Import ZArith NArith List Bool Ascii String Lia SpecFloat.
Import ListNotations.

Set Implicit Arguments.

(** ** Text *)

Definition char := N.
Definition str := list char.

(** [u "abc"] is the Python string whose characters are those of the
    literal. *)
Definition u (s : string) : str :=
  List.map N_of_ascii (list_ascii_of_string s).

Definition char_eqb (a b : char) : bool := N.eqb a b.

Fixpoint str_eqb (a b : str) : bool :=
  match a, b with
  | [], [] => true
  | x :: a', y :: b' => char_eqb x y && str_eqb a' b'
  | _, _ => false
  end.

(** Code points used by the scanner. *)
Definition c_tab : char := 9%N.
Definition c_lf : char := 10%N.
Definition c_cr : char := 13%N.
Definition c_space : char := 32%N.
Definition c_dquote : char := 34%N.
Definition c_squote : char := 39%N.
Definition c_plus : char := 43%N.
Definition c_comma : char := 44%N.
Definition c_minus : char := 45%N.
Definition c_dot : char := 46%N.
Definition c_slash : char := 47%N.
Definition c_zero : char := 48%N.
Definition c_colon : char := 58%N.
Definition c_lbracket : char := 91%N.
Definition c_backslash : char := 92%N.
Definition c_rbracket : char := 93%N.
Definition c_lbrace : char := 123%N.
Definition c_rbrace : char := 125%N.

Definition in_range (lo hi c : N) : bool := N.leb lo c && N.leb c hi.

(** [str.isspace] for one character: the ASCII separators 0x09-0x0D,
    0x1C-0x1F and the space, and the Unicode characters of bidirectional
    type WS, B or S (the table of [Py_UNICODE_ISSPACE]). *)
Definition isspace (c : char) : bool :=
  in_range 9 13 c || in_range 28 32 c
  || N.eqb c 133 || N.eqb c 160 || N.eqb c 5760
  || in_range 8192 8202 c || N.eqb c 8232 || N.eqb c 8233
  || N.eqb c 8239 || N.eqb c 8287 || N.eqb c 12288.

Fixpoint lstrip (s : str) : str :=
  match s with
  | c :: r => if isspace c then lstrip r else s
  | [] => []
  end.

Definition rstrip (s : str) : str := rev (lstrip (rev s)).

(** [s.strip()] *)
Definition strip (s : str) : str := rstrip (lstrip s).

(** [s.startswith(p)] *)
Fixpoint startswith (s p : str) : bool :=
  match p, s with
  | [], _ => true
  | x :: p', y :: s' => char_eqb x y && startswith s' p'
  | _ :: _, [] => false
  end.

(** [s.endswith(p)] *)
Definition endswith (s p : str) : bool := startswith (rev s) (rev p).

(** [needle in hay] for strings *)
Fixpoint contains (needle hay : str) : bool :=
  startswith hay needle
  || match hay with
     | [] => false
     | _ :: hay' => contains needle hay'
     end.

(** [a or b] on strings: the empty string is falsy. *)
Definition str_or (a b : str) : str :=
  match a with [] => b | _ => a end.

(** ** Floats

    A Python [float] is an IEEE 754 binary64 number. *)

Definition prec : Z := 53.
Definition emax : Z := 1024.

Definition pyfloat := spec_float.

(** The correctly rounded (to nearest, ties to even) float of the
    rational [n / d], for [0 <= n] and [0 < d]. *)
Definition float_of_ratio (neg : bool) (n d : Z) : pyfloat :=
  match n with
  | Z0 => S754_zero neg
  | _ =>
    let '(q, e, l) := SFdiv_core_binary prec emax n 0 d 0 in
    binary_round_aux prec emax neg q e l
  end.

(** The float nearest to [m * 10^e]: what [float("...")] and the compiler
    give for a decimal literal with digits [m] and decimal exponent [e]. *)
Definition float_of_decimal (neg : bool) (m e : Z) : pyfloat :=
  float_of_ratio neg (m * 10 ^ Z.max e 0) (10 ^ Z.max (- e) 0).

Definition float_lt (a b : pyfloat) : bool := SFltb a b.
Definition float_eqb (a b : pyfloat) : bool := SFeqb a b.

(** The literal [0.40] of the source. *)
Definition lit_0_40 : pyfloat := float_of_decimal false 40 (-2).

(** ** Python values

    The values [json.loads] can return.  A [dict] keeps its keys in
    insertion order, so it is an association list without duplicate keys. *)

#[warnings="-register-all"]
Inductive PyValue : Type :=
| PyNone
| PyBool (b : bool)
| PyInt (n : Z)
| PyFloat (f : pyfloat)
| PyStr (s : str)
| PyList (l : list PyValue)
| PyDict (d : list (str * PyValue)).

Definition pydict := list (str * PyValue).

Fixpoint dict_lookup (d : pydict) (k : str) : option PyValue :=
  match d with
  | [] => None
  | (k', v) :: d' => if str_eqb k' k then Some v else dict_lookup d' k
  end.

(** [d[k] = v]: an existing key keeps its place and gets the new value, a
    new key goes last. *)
Fixpoint dict_set (d : pydict) (k : str) (v : PyValue) : pydict :=
  match d with
  | [] => [(k, v)]
  | (k', v') :: d' =>
    if str_eqb k' k then (k', v) :: d' else (k', v') :: dict_set d' k v
  end.

(** ** json.loads

    The scanner of the [json] module ([scan_once], [scanstring],
    [_match_number], [_parse_object], [_parse_array]) working on the list
    of remaining characters.  A text that is not JSON ends the scan with
    [json.JSONDecodeError] (its message is not modelled).  Two limits of
    the interpreter end it with other exceptions: an integer literal of
    more than [int_max_str_digits] digits with [ValueError], and containers
    nested deeper than the recursion limit allows with [RecursionError]. *)

Inductive scan_result (A : Type) : Type :=
| Decoded (a : A)
| JSONDecodeError
| IntTooLong (digits : Z)
| TooDeep (in_object : bool)
| OutOfFuel.
Arguments JSONDecodeError {A}.
Arguments IntTooLong {A}.
Arguments TooDeep {A}.
Arguments OutOfFuel {A}.

(** [sys.get_int_max_str_digits()]: the longest integer literal, in
    digits, that [int()] converts; the interpreter's default, which the
    script does not change. *)
Definition int_max_str_digits : Z := 4300.

(** The number of decimal digits of an integer, its sign apart. *)
Definition decimal_length (n : Z) : Z :=
  match Z.to_int n with
  | Decimal.Pos d | Decimal.Neg d => Z.of_nat (Decimal.nb_digits d)
  end.

Definition is_json_ws (c : char) : bool :=
  N.eqb c c_space || N.eqb c c_tab || N.eqb c c_lf || N.eqb c c_cr.

Fixpoint skip_ws (s : str) : str :=
  match s with
  | c :: r => if is_json_ws c then skip_ws r else s
  | [] => []
  end.

Definition is_digit (c : char) : bool := in_range 48 57 c.

Definition hex_value (c : char) : option N :=
  if in_range 48 57 c then Some (c - 48)%N
  else if in_range 97 102 c then Some (c - 87)%N
  else if in_range 65 70 c then Some (c - 55)%N
  else None.

Definition hex4 (a b c d : char) : option N :=
  match hex_value a, hex_value b, hex_value c, hex_value d with
  | Some x, Some y, Some z, Some w =>
    Some (((x * 16 + y) * 16 + z) * 16 + w)%N
  | _, _, _, _ => None
  end.

Definition is_high_surrogate (c : N) : bool := in_range 55296 56319 c.
Definition is_low_surrogate (c : N) : bool := in_range 56320 57343 c.
Definition join_surrogates (hi lo : N) : N :=
  (65536 + ((hi - 55296) * 1024 + (lo - 56320)))%N.

(** The character of a one-letter escape. *)
Definition simple_escape (c : char) : option char :=
  if N.eqb c c_dquote then Some c_dquote
  else if N.eqb c c_backslash then Some c_backslash
  else if N.eqb c c_slash then Some c_slash
  else if N.eqb c 98 then Some 8%N
  else if N.eqb c 102 then Some 12%N
  else if N.eqb c 110 then Some c_lf
  else if N.eqb c 114 then Some c_cr
  else if N.eqb c 116 then Some c_tab
  else None.

(** [scanstring] in strict mode, started after the opening quote: the
    decoded string and what follows the closing quote.  [acc] holds the
    characters decoded so far, last first. *)
Fixpoint scanstring (s : str) (acc : str) {struct s} : option (str * str) :=
  match s with
  | [] => None
  | c :: r =>
    if N.eqb c c_dquote then Some (rev acc, r)
    else if N.leb c 31 then None
    else if N.eqb c c_backslash then
      match r with
      | [] => None
      | e :: r1 =>
        if N.eqb e 117 then
          match r1 with
          | h1 :: h2 :: h3 :: h4 :: r2 =>
            match hex4 h1 h2 h3 h4 with
            | None => None
            | Some cp =>
              if is_high_surrogate cp then
                match r2 with
                | b :: v :: g1 :: g2 :: g3 :: g4 :: r3 =>
                  if N.eqb b c_backslash && N.eqb v 117 then
                    match hex4 g1 g2 g3 g4 with
                    | None => None
                    | Some cp2 =>
                      if is_low_surrogate cp2
                      then scanstring r3 (join_surrogates cp cp2 :: acc)
                      else scanstring r2 (cp :: acc)
                    end
                  else scanstring r2 (cp :: acc)
                | _ => scanstring r2 (cp :: acc)
                end
              else scanstring r2 (cp :: acc)
            end
          | _ => None
          end
        else
          match simple_escape e with
          | Some x => scanstring r1 (x :: acc)
          | None => None
          end
      end
    else scanstring r (c :: acc)
  end.

(** The longest prefix of decimal digits, as its value and its length,
    and what follows it. *)
Fixpoint span_digits (s : str) (val : Z) (len : Z) : Z * Z * str :=
  match s with
  | c :: r =>
    if is_digit c then span_digits r (val * 10 + Z.of_N (c - 48)) (len + 1)
    else (val, len, s)
  | [] => (val, len, [])
  end.

(** The integer part of a number: [0] or a digit [1-9] followed by
    digits. *)
Definition match_int_part (s : str) : option (Z * str) :=
  match s with
  | c :: r =>
    if in_range 49 57 c then
      let '(v, _, r') := span_digits r (Z.of_N (c - 48)) 1 in Some (v, r')
    else if N.eqb c c_zero then Some (0%Z, r)
    else None
  | [] => None
  end.

(** The fraction: a dot followed by at least one digit.  Gives the digits
    read so far with the fraction's appended, and the number of fraction
    digits. *)
Definition match_frac (v : Z) (s : str) : option (Z * Z * str) :=
  match s with
  | c :: d :: r =>
    if N.eqb c c_dot && is_digit d
    then Some (span_digits (d :: r) v 0)
    else None
  | _ => None
  end.

(** The exponent: [e] or [E], an optional sign, at least one digit. *)
Definition match_exp (s : str) : option (Z * str) :=
  match s with
  | c :: r =>
    if N.eqb c 101 || N.eqb c 69 then
      let '(neg, r1) :=
        match r with
        | sg :: r' =>
          if N.eqb sg c_minus then (true, r')
          else if N.eqb sg c_plus then (false, r')
          else (false, r)
        | [] => (false, r)
        end in
      match r1 with
      | d :: _ =>
        if is_digit d then
          let '(v, _, r2) := span_digits r1 0 0 in
          Some (if neg then (- v)%Z else v, r2)
        else None
      | [] => None
      end
    else None
  | [] => None
  end.

(** [_match_number]: an [int] when the text has neither fraction nor
    exponent, a [float] otherwise. *)
Definition match_number (s : str) : option (PyValue * str) :=
  let '(neg, s1) :=
    match s with
    | c :: r => if N.eqb c c_minus then (true, r) else (false, s)
    | [] => (false, s)
    end in
  match match_int_part s1 with
  | None => None
  | Some (iv, s2) =>
    let '(is_frac, m, flen, s3) :=
      match match_frac iv s2 with
      | Some (m, flen, s3) => (true, m, flen, s3)
      | None => (false, iv, 0%Z, s2)
      end in
    match match_exp s3 with
    | Some (ex, s4) =>
      Some (PyFloat (float_of_decimal neg m (ex - flen)), s4)
    | None =>
      if is_frac
      then Some (PyFloat (float_of_decimal neg m (- flen)), s3)
      else Some (PyInt (if neg then (- iv)%Z else iv), s3)
    end
  end.

(** [strip_prefix p s]: what follows [p] in [s], when [s] starts with
    [p]. *)
Fixpoint strip_prefix (p s : str) : option str :=
  match p, s with
  | [], _ => Some s
  | x :: p', y :: s' => if char_eqb x y then strip_prefix p' s' else None
  | _ :: _, [] => None
  end.

(** The named constants [null], [true], [false], [NaN], [Infinity] and
    [-Infinity]. *)
Definition match_constant (s : str) : option (PyValue * str) :=
  match strip_prefix (u "null") s with
  | Some r => Some (PyNone, r)
  | None =>
  match strip_prefix (u "true") s with
  | Some r => Some (PyBool true, r)
  | None =>
  match strip_prefix (u "false") s with
  | Some r => Some (PyBool false, r)
  | None =>
  match strip_prefix (u "NaN") s with
  | Some r => Some (PyFloat S754_nan, r)
  | None =>
  match strip_prefix (u "Infinity") s with
  | Some r => Some (PyFloat (S754_infinity false), r)
  | None =>
  match strip_prefix (u "-Infinity") s with
  | Some r => Some (PyFloat (S754_infinity true), r)
  | None => None
  end end end end end end.

(** The number the scanner gives: an integer literal is converted by
    [int()], which refuses one of more than [int_max_str_digits] digits (a
    literal has no leading zero, so its digits are those of its value). *)
Definition check_number (o : option (PyValue * str))
  : scan_result (PyValue * str) :=
  match o with
  | Some (PyInt n, r) =>
    if (int_max_str_digits <? decimal_length n)%Z
    then IntTooLong (decimal_length n)
    else Decoded (PyInt n, r)
  | Some res => Decoded res
  | None => JSONDecodeError
  end.

(** [scan_once] with the loops of [_parse_object] ([parse_members], run
    at a key) and [_parse_array] ([parse_elems], run at an element).
    [depth] is the number of containers that may still be entered, one
    inside the other, before the recursion limit is reached.  [fuel]
    bounds the chain of calls; [json_loads] gives more than any text needs,
    so [OutOfFuel] is never its result. *)
Fixpoint scan_once (fuel : nat) (depth : nat) (s : str)
  : scan_result (PyValue * str) :=
  match fuel with
  | O => OutOfFuel
  | S fuel' =>
    match s with
    | [] => JSONDecodeError
    | c :: r =>
      if N.eqb c c_dquote then
        match scanstring r [] with
        | Some (k, r') => Decoded (PyStr k, r')
        | None => JSONDecodeError
        end
      else if N.eqb c c_lbrace then
        match depth with
        | O => TooDeep true
        | S depth' =>
          match skip_ws r with
          | c' :: r' =>
            if N.eqb c' c_rbrace then Decoded (PyDict [], r')
            else parse_members fuel' depth' [] (c' :: r')
          | [] => JSONDecodeError
          end
        end
      else if N.eqb c c_lbracket then
        match depth with
        | O => TooDeep false
        | S depth' =>
          match skip_ws r with
          | c' :: r' =>
            if N.eqb c' c_rbracket then Decoded (PyList [], r')
            else parse_elems fuel' depth' [] (c' :: r')
          | [] => JSONDecodeError
          end
        end
      else
        match match_constant s with
        | Some res => Decoded res
        | None => check_number (match_number s)
        end
    end
  end

with parse_members (fuel : nat) (depth : nat) (acc : pydict) (s : str)
  : scan_result (PyValue * str) :=
  match fuel with
  | O => OutOfFuel
  | S fuel' =>
    match s with
    | c :: r =>
      if N.eqb c c_dquote then
        match scanstring r [] with
        | None => JSONDecodeError
        | Some (key, r1) =>
          match skip_ws r1 with
          | c1 :: r2 =>
            if N.eqb c1 c_colon then
              match scan_once fuel' depth (skip_ws r2) with
              | Decoded (v, r3) =>
                let acc' := dict_set acc key v in
                match skip_ws r3 with
                | c2 :: r4 =>
                  if N.eqb c2 c_rbrace then Decoded (PyDict acc', r4)
                  else if N.eqb c2 c_comma
                  then parse_members fuel' depth acc' (skip_ws r4)
                  else JSONDecodeError
                | [] => JSONDecodeError
                end
              | JSONDecodeError => JSONDecodeError
              | IntTooLong n => IntTooLong n
              | TooDeep b => TooDeep b
              | OutOfFuel => OutOfFuel
              end
            else JSONDecodeError
          | [] => JSONDecodeError
          end
        end
      else JSONDecodeError
    | [] => JSONDecodeError
    end
  end

with parse_elems (fuel : nat) (depth : nat) (acc : list PyValue) (s : str)
  : scan_result (PyValue * str) :=
  match fuel with
  | O => OutOfFuel
  | S fuel' =>
    match scan_once fuel' depth s with
    | Decoded (v, r1) =>
      match skip_ws r1 with
      | c :: r2 =>
        if N.eqb c c_rbracket then Decoded (PyList (acc ++ [v]), r2)
        else if N.eqb c c_comma
        then parse_elems fuel' depth (acc ++ [v]) (skip_ws r2)
        else JSONDecodeError
      | [] => JSONDecodeError
      end
    | JSONDecodeError => JSONDecodeError
    | IntTooLong n => IntTooLong n
    | TooDeep b => TooDeep b
    | OutOfFuel => OutOfFuel
    end
  end.

(** ** Conversions and tests of the evaluator *)

(** [isinstance(v, int)]: [bool] is a subclass of [int]. *)
Definition isinstance_int (v : PyValue) : bool :=
  match v with
  | PyInt _ | PyBool _ => true
  | _ => false
  end.

(** [isinstance(v, (int, float))] *)
Definition isinstance_int_float (v : PyValue) : bool :=
  match v with
  | PyInt _ | PyBool _ | PyFloat _ => true
  | _ => false
  end.

(** The integer an [int] (or [bool]) stands for in a comparison. *)
Definition int_value (v : PyValue) : Z :=
  match v with
  | PyInt n => n
  | PyBool true => 1
  | _ => 0
  end.

(** [float(n)] for an [int]: the nearest float, [None] when that is
    beyond the largest finite float ([OverflowError]). *)
Definition float_of_int (n : Z) : option pyfloat :=
  match binary_normalize prec emax n 0 false with
  | S754_infinity _ => None
  | f => Some f
  end.

(** ** Formatting: [str()] and [repr()] *)

Fixpoint uint_to_str (d : Decimal.uint) : str :=
  match d with
  | Decimal.Nil => []
  | Decimal.D0 r => 48%N :: uint_to_str r
  | Decimal.D1 r => 49%N :: uint_to_str r
  | Decimal.D2 r => 50%N :: uint_to_str r
  | Decimal.D3 r => 51%N :: uint_to_str r
  | Decimal.D4 r => 52%N :: uint_to_str r
  | Decimal.D5 r => 53%N :: uint_to_str r
  | Decimal.D6 r => 54%N :: uint_to_str r
  | Decimal.D7 r => 55%N :: uint_to_str r
  | Decimal.D8 r => 56%N :: uint_to_str r
  | Decimal.D9 r => 57%N :: uint_to_str r
  end.

(** [str(n)] for an [int] *)
Definition int_to_str (n : Z) : str :=
  match Z.to_int n with
  | Decimal.Pos d => uint_to_str d
  | Decimal.Neg d => c_minus :: uint_to_str d
  end.

(** *** [repr] of a float: the shortest decimal that reads back as the
    same float, the nearest to it among the shortest. *)

(** [num / den < 10 ^ d] *)
Definition below_pow10 (num den d : Z) : bool :=
  (num * 10 ^ Z.max (- d) 0 <? den * 10 ^ Z.max d 0)%Z.

(** The position of the decimal point: the least [d] with
    [num/den < 10^d], searched upwards from [d]. *)
Fixpoint find_decpt (fuel : nat) (d num den : Z) : Z :=
  match fuel with
  | O => d
  | S fuel' =>
    if below_pow10 num den d then d else find_decpt fuel' (d + 1) num den
  end.

(** A position not above the decimal point of [num/den], from the
    binary lengths: [num/den] is above [2^(b-1)] for
    [b = log2 num - log2 den], and [log10 2] is about 0.30103. *)
Definition decpt_below (num den : Z) : Z :=
  (((Z.log2 num - Z.log2 den - 1) * 30103) / 100000 - 1)%Z.

(** The digits of [num/den] kept at [p] significant digits: an integer
    [D] and an exponent [k], standing for [D * 10^k].  The value is cut
    to [p] digits; the candidate below and the candidate above are
    tried, and one that reads back as [x] is taken (the nearer when both
    do, the even one on a tie). *)
Definition digits_at (x : pyfloat) (num den decpt : Z) (p : Z)
  : option (Z * Z) :=
  let k := (decpt - p)%Z in
  let n := (num * 10 ^ Z.max (- k) 0)%Z in
  let d := (den * 10 ^ Z.max k 0)%Z in
  let lo := (n / d)%Z in
  let r := (n mod d)%Z in
  let back D := float_eqb (float_of_decimal false D k) x in
  if (r =? 0)%Z then (if back lo then Some (lo, k) else None)
  else
    match back lo, back (lo + 1)%Z with
    | true, true =>
      match (2 * r ?= d)%Z with
      | Lt => Some (lo, k)
      | Gt => Some ((lo + 1)%Z, k)
      | Eq => Some (if Z.even lo then lo else (lo + 1)%Z, k)
      end
    | true, false => Some (lo, k)
    | false, true => Some ((lo + 1)%Z, k)
    | false, false => None
    end.

(** Seventeen digits identify a float; [nearest17] is the value rounded
    to that many. *)
Definition nearest17 (num den decpt : Z) : Z * Z :=
  let k := (decpt - 17)%Z in
  let n := (num * 10 ^ Z.max (- k) 0)%Z in
  let d := (den * 10 ^ Z.max k 0)%Z in
  let lo := (n / d)%Z in
  let r := (n mod d)%Z in
  match (2 * r ?= d)%Z with
  | Lt => (lo, k)
  | Gt => ((lo + 1)%Z, k)
  | Eq => (if Z.even lo then lo else (lo + 1)%Z, k)
  end.

Fixpoint shortest_digits (fuel : nat) (x : pyfloat) (num den decpt p : Z)
  : Z * Z :=
  match fuel with
  | O => nearest17 num den decpt
  | S fuel' =>
    match digits_at x num den decpt p with
    | Some r => r
    | None => shortest_digits fuel' x num den decpt (p + 1)
    end
  end.

(** Trailing zeros move into the exponent. *)
Fixpoint strip_zeros (fuel : nat) (D k : Z) : Z * Z :=
  match fuel with
  | O => (D, k)
  | S fuel' =>
    if ((D mod 10 =? 0) && negb (D =? 0))%Z
    then strip_zeros fuel' (D / 10) (k + 1)
    else (D, k)
  end.

Definition zeros (n : Z) : str := repeat c_zero (Z.to_nat n).

(** The text for digits [ds] with the decimal point after [decpt] of
    them: scientific notation when [decpt <= -4] or [decpt > 16], with an
    exponent of at least two digits; otherwise positional, with [.0]
    after a whole number. *)
Definition format_digits (ds : str) (decpt : Z) : str :=
  let nd := Z.of_nat (List.length ds) in
  if ((decpt <=? -4) || (16 <? decpt))%Z then
    let ex := (decpt - 1)%Z in
    let mant :=
      match ds with
      | [] => []
      | [d] => [d]
      | d :: rest => d :: c_dot :: rest
      end in
    let exd := int_to_str (Z.abs ex) in
    let exd := if (Z.abs ex <? 10)%Z then c_zero :: exd else exd in
    mant ++ [101%N] ++ [if (ex <? 0)%Z then c_minus else c_plus] ++ exd
  else if (decpt <=? 0)%Z then
    u "0." ++ zeros (- decpt) ++ ds
  else if (nd <=? decpt)%Z then
    ds ++ zeros (decpt - nd) ++ u ".0"
  else
    firstn (Z.to_nat decpt) ds ++ [c_dot] ++ skipn (Z.to_nat decpt) ds.

(** [repr(x)] for a float *)
Definition float_repr (x : pyfloat) : str :=
  match x with
  | S754_nan => u "nan"
  | S754_infinity false => u "inf"
  | S754_infinity true => u "-inf"
  | S754_zero false => u "0.0"
  | S754_zero true => u "-0.0"
  | S754_finite s m e =>
    let num := (Zpos m * 2 ^ Z.max e 0)%Z in
    let den := (2 ^ Z.max (- e) 0)%Z in
    let decpt := find_decpt 8 (decpt_below num den) num den in
    let '(D, k) :=
      shortest_digits 17 (S754_finite false m e) num den decpt 1 in
    let '(D, k) := strip_zeros 20 D k in
    let ds := int_to_str D in
    (if s then [c_minus] else [])
    ++ format_digits ds (Z.of_nat (List.length ds) + k)
  end.

Definition hex_digit (n : N) : char :=
  if N.ltb n 10 then (48 + n)%N else (87 + n)%N.

(** The [n] low hexadecimal digits of [c], most significant first. *)
Fixpoint hex_digits (n : nat) (c : N) : str :=
  match n with
  | O => []
  | S n' => hex_digits n' (c / 16)%N ++ [hex_digit (c mod 16)%N]
  end.

Definition join (sep : str) (parts : list str) : str :=
  match parts with
  | [] => []
  | p :: ps => p ++ flat_map (fun q => sep ++ q) ps
  end.

Section Formatting.

(** The Unicode database's table of printable characters
    ([str.isprintable]); [repr] consults it for characters beyond
    ASCII only. *)
Variable unicode_isprintable : char -> bool.

(** One character inside [repr] of a string delimited by [quote]. *)
Definition repr_char (quote c : char) : str :=
  if N.eqb c quote || N.eqb c c_backslash then [c_backslash; c]
  else if N.eqb c c_tab then u "\t"
  else if N.eqb c c_lf then u "\n"
  else if N.eqb c c_cr then u "\r"
  else if N.ltb c c_space || N.eqb c 127 then u "\x" ++ hex_digits 2 c
  else if N.ltb c 127 then [c]
  else if unicode_isprintable c then [c]
  else if N.leb c 255 then u "\x" ++ hex_digits 2 c
  else if N.leb c 65535 then u "\u" ++ hex_digits 4 c
  else u "\U" ++ hex_digits 8 c.

(** [repr(s)] for a string: single quotes, unless the string has a
    single quote and no double quote. *)
Definition str_repr (s : str) : str :=
  let quote :=
    if existsb (N.eqb c_squote) s && negb (existsb (N.eqb c_dquote) s)
    then c_dquote else c_squote in
  [quote] ++ flat_map (repr_char quote) s ++ [quote].

(** [repr(v)] *)
Fixpoint py_repr (v : PyValue) : str :=
  match v with
  | PyNone => u "None"
  | PyBool true => u "True"
  | PyBool false => u "False"
  | PyInt n => int_to_str n
  | PyFloat f => float_repr f
  | PyStr s => str_repr s
  | PyList l => u "[" ++ join (u ", ") (List.map py_repr l) ++ u "]"
  | PyDict d =>
    u "{"
    ++ join (u ", ")
         (List.map (fun kv => str_repr (fst kv) ++ u ": " ++ py_repr (snd kv)) d)
    ++ u "}"
  end.

(** What [{v}] gives inside an f-string: [str(v)]. *)
Definition py_str (v : PyValue) : str :=
  match v with
  | PyStr s => s
  | _ => py_repr v
  end.

End Formatting.

(** ** Effects

    [print] and the logger append to a trace; an exception ends the run
    and keeps what was emitted before it. *)

Inductive Level : Type := DEBUG | INFO | WARNING | ERROR.

Inductive Event : Type :=
| Printed (text : str)
| Logged (lvl : Level) (text : str).

(** The exceptions: [UnicodeEncodeError] with the text that could not be
    encoded, [ValueError] with the number of digits of the integer literal
    that [int()] refused, [RecursionError] with the kind of container the
    decoder was entering (an object or an array).  [Unfinished] stands for
    a decoder that ran out of fuel. *)
Inductive PyExn : Type :=
| OverflowError
| AttributeError
| TypeError
| UnicodeEncodeError (text : str)
| ValueError (digits : Z)
| RecursionError (in_object : bool)
| Unfinished.

(** A surrogate code point, U+D800 to U+DFFF: the characters that UTF-8
    cannot encode. *)
Definition is_surrogate (c : char) : bool := in_range 55296 57343 c.

Definition has_surrogate (text : str) : bool := existsb is_surrogate text.

Inductive Outcome (A : Type) : Type :=
| Return (a : A)
| Raise (e : PyExn).
Arguments Raise {A}.

Definition World := list Event.

Definition Py (A : Type) : Type := World -> Outcome A * World.

Definition ret {A} (a : A) : Py A := fun w => (Return a, w).

Definition bind {A B} (c : Py A) (k : A -> Py B) : Py B :=
  fun w =>
    match c w with
    | (Return a, w') => k a w'
    | (Raise e, w') => (Raise e, w')
    end.

Definition raise {A} (e : PyExn) : Py A := fun w => (Raise e, w).

Definition emit (ev : Event) : Py unit := fun w => (Return tt, w ++ [ev]).

Declare Scope py_scope.
Delimit Scope py_scope with py.
Notation "x <- c ;; k" := (bind c (fun x => k))
  (at level 61, c at next level, right associativity) : py_scope.
Notation "c ;; k" := (bind c (fun _ => k))
  (at level 61, right associativity) : py_scope.
Local Open Scope py_scope.

(** [print(text)]: one line on standard output.  Standard output is taken
    to encode in UTF-8 with the strict error handler, as the interpreter
    sets it up on a terminal or a pipe in a UTF-8 locale: a text that holds
    a surrogate raises [UnicodeEncodeError], and nothing of it is
    written. *)
Definition print (text : str) : Py unit :=
  if has_surrogate text then raise (UnicodeEncodeError text)
  else emit (Printed text).

(** Modelled from the spec: [logger] comes from utils/utils_logger.py,
    which is not among the sources.  The spec has every message "logged at
    informational level" and every alert written "to a logging sink at
    warning severity", with no failure of its own: a call records its text
    at its level. *)
Definition logger_info (text : str) : Py unit := emit (Logged INFO text).

(** Modelled from the spec: [logger.warning] of utils/utils_logger.py,
    as [logger_info] above. *)
Definition logger_warning (text : str) : Py unit := emit (Logged WARNING text).

(** [if c: body] *)
Definition when (c : bool) (body : Py unit) : Py unit :=
  if c then body else ret tt.

(** [v.get(k)]: a method of [dict]; [None] for a missing key. *)
Definition py_get (v : PyValue) (k : str) : Py PyValue :=
  match v with
  | PyDict d =>
    match dict_lookup d k with
    | Some x => ret x
    | None => ret PyNone
    end
  | _ => raise AttributeError
  end.

(** [float(v)] for a number; the conversion of other values (strings
    among them) is not modelled and stands as [TypeError]. *)
Definition py_float (v : PyValue) : Py pyfloat :=
  match v with
  | PyFloat f => ret f
  | PyInt n =>
    match float_of_int n with
    | Some f => ret f
    | None => raise OverflowError
    end
  | PyBool b =>
    ret (if b then float_of_decimal false 1 0 else S754_zero false)
  | _ => raise TypeError
  end.

(** ** The source *)

(** A budget for the examples: the nesting that the default recursion
    limit of 1000 leaves to the decoder when the script runs as the main
    program (the frames of the module, [main], [process_message],
    [_try_parse_json], [json.loads], [decode] and [raw_decode] are in use,
    and a call that would reach the limit is refused). *)
Definition script_depth_budget : nat := 992.

Section Interpreter.

(** The nesting of containers that the recursion limit leaves to the
    decoder when [_try_parse_json] calls it: the limit of the interpreter
    less the frames in use at the call, which depends on how the script is
    started. *)
Variable depth_budget : nat.

(** [json.loads(s)]: leading whitespace, one value, trailing whitespace,
    nothing else. *)
Definition json_loads (s : str) : scan_result PyValue :=
  match scan_once (2 * List.length s + 1) depth_budget (skip_ws s) with
  | Decoded (v, r) =>
    match skip_ws r with
    | [] => Decoded v
    | _ :: _ => JSONDecodeError
    end
  | JSONDecodeError => JSONDecodeError
  | IntTooLong n => IntTooLong n
  | TooDeep b => TooDeep b
  | OutOfFuel => OutOfFuel
  end.

(** [_try_parse_json(s)]: the decoded value if [s] is JSON, else
    [None].  Only [json.JSONDecodeError] is caught: the [ValueError] and
    the [RecursionError] of the decoder go on to the caller. *)
Definition _try_parse_json (s : str) : Py PyValue :=
  let s := strip (str_or s (u "")) in
  if negb (startswith s (u "{") && endswith s (u "}")) then ret PyNone
  else
    match json_loads s with
    | Decoded v => ret v
    | JSONDecodeError => ret PyNone
    | IntTooLong n => raise (ValueError n)
    | TooDeep b => raise (RecursionError b)
    | OutOfFuel => raise Unfinished
    end.

Definition is_not_None (v : PyValue) : bool :=
  match v with
  | PyNone => false
  | _ => true
  end.

Definition special : str := u "I just loved a movie! It was funny.".

Section Evaluator.

Variable unicode_isprintable : char -> bool.

(** [{v}] in an f-string *)
Definition fmt (v : PyValue) : str := py_str unicode_isprintable v.

Definition tachycardia_alert (pid hr ts : PyValue) : str :=
  u "ALERT Tachycardia: patient=" ++ fmt pid
  ++ u " hr=" ++ fmt hr ++ u " ts=" ++ fmt ts.

Definition low_gait_alert (pid gait ts : PyValue) : str :=
  u "ALERT Low gait_score: patient=" ++ fmt pid
  ++ u " gait_score=" ++ fmt gait ++ u " ts=" ++ fmt ts.

Definition step_surge_alert (pid steps ts : PyValue) : str :=
  u "ALERT Step surge: patient=" ++ fmt pid
  ++ u " steps=" ++ fmt steps ++ u " ts=" ++ fmt ts.

Definition special_alert (message : str) : str :=
  u "ALERT: The special message was found!" ++ [c_lf] ++ message.

(** [process_message(message)] *)
Definition process_message (message : str) : Py unit :=
  logger_info (u "Processing message: " ++ message) ;;
  evt <- _try_parse_json message ;;
  if is_not_None evt then
    hr <- py_get evt (u "hr") ;;
    gait <- py_get evt (u "gait_score") ;;
    steps <- py_get evt (u "steps") ;;
    pid <- py_get evt (u "patient_id") ;;
    ts <- py_get evt (u "ts") ;;
    when (isinstance_int hr && (120 <? int_value hr)%Z)
      (let alert := tachycardia_alert pid hr ts in
       print alert ;; logger_warning alert) ;;
    low <- (if isinstance_int_float gait
            then f <- py_float gait ;; ret (float_lt f lit_0_40)
            else ret false) ;;
    when low
      (let alert := low_gait_alert pid gait ts in
       print alert ;; logger_warning alert) ;;
    when (isinstance_int steps && (12 <? int_value steps)%Z)
      (let alert := step_surge_alert pid steps ts in
       print alert ;; logger_warning alert) ;;
    ret tt
  else
    when (contains special message)
      (let alert := special_alert message in
       print alert ;; logger_warning alert).

End Evaluator.

(** ** Observations on a run *)

(** The run of the evaluator on one message from an empty trace. *)
Definition run_message (pr : char -> bool) (message : str)
  : Outcome unit * World :=
  process_message pr message [].

(** What [print] wrote, in order. *)
Fixpoint printed (w : World) : list str :=
  match w with
  | [] => []
  | Printed t :: w' => t :: printed w'
  | Logged _ _ :: w' => printed w'
  end.

(** What the logger recorded at warning level, in order. *)
Fixpoint warned (w : World) : list str :=
  match w with
  | [] => []
  | Logged WARNING t :: w' => t :: warned w'
  | _ :: w' => warned w'
  end.

(** The alerts of a message: what the evaluator prints for it. *)
Definition alerts (pr : char -> bool) (message : str) : list str :=
  printed (snd (run_message pr message)).

(** A JSON text written with single quotes in place of double quotes,
    for the examples. *)
Definition json_text (s : string) : str :=
  List.map (fun c => if N.eqb c c_squote then c_dquote else c) (u s).

(** A table for the examples: nothing beyond ASCII is printable. *)
Definition ascii_only : char -> bool := fun _ => false.

(** ** Notions used in the statements *)

(** What [evt.get(k)] gives for the dict [d]. *)
Definition field (d : pydict) (k : string) : PyValue :=
  match dict_lookup d (u k) with
  | Some x => x
  | None => PyNone
  end.

(** The message decodes as a JSON object [d]: [_try_parse_json] returns
    that dict. *)
Definition decodes_to (message : str) (d : pydict) : Prop :=
  _try_parse_json message [] = (Return (PyDict d), []).

(** The message takes the plain-text path: [_try_parse_json] returns
    [None]. *)
Definition plain_text (message : str) : Prop :=
  _try_parse_json message [] = (Return PyNone, []).

(** [_try_parse_json] raises [e]: an exception of the decoder that it
    does not catch. *)
Definition decoder_raises (message : str) (e : PyExn) : Prop :=
  _try_parse_json message [] = (Raise e, []).

(** The heuristic of [_try_parse_json] on the trimmed text. *)
Definition bracketed (s : str) : bool :=
  startswith s (u "{") && endswith s (u "}").

(** The two events of one alert: [print(alert); logger.warning(alert)]. *)
Definition alert_events (a : str) : World := [Printed a; Logged WARNING a].

(** The first event of every run. *)
Definition processing_event (message : str) : Event :=
  Logged INFO (u "Processing message: " ++ message).

(** The condition of the heart-rate rule. *)
Definition hr_test (hr : PyValue) : bool :=
  isinstance_int hr && (120 <? int_value hr)%Z.

(** The condition of the step rule. *)
Definition steps_test (steps : PyValue) : bool :=
  isinstance_int steps && (12 <? int_value steps)%Z.

(** The condition of the gait rule: [Some b] when it evaluates to [b],
    [None] when [float(gait)] raises. *)
Definition gait_test (gait : PyValue) : option bool :=
  match gait with
  | PyFloat f => Some (float_lt f lit_0_40)
  | PyInt n =>
    match float_of_int n with
    | Some f => Some (float_lt f lit_0_40)
    | None => None
    end
  | PyBool b => Some (negb b)
  | _ => Some false
  end.

(** A run seen from its alerts: how it ends and what it has printed.
    [say holds alert rest] is one rule followed by the rest of the run:
    when the rule holds the alert is printed, unless it cannot be encoded,
    which ends the run. *)
Definition say (holds : bool) (alert : str) (rest : Outcome unit * list str)
  : Outcome unit * list str :=
  if holds then
    if has_surrogate alert then (Raise (UnicodeEncodeError alert), [])
    else (fst rest, alert :: snd rest)
  else rest.

(** The structured path on the dict [d], rule by rule. *)
Definition structured_run (pr : char -> bool) (d : pydict)
  : Outcome unit * list str :=
  let hr := field d "hr" in
  let gait := field d "gait_score" in
  let steps := field d "steps" in
  let pid := field d "patient_id" in
  let ts := field d "ts" in
  say (hr_test hr) (tachycardia_alert pr pid hr ts)
    match gait_test gait with
    | None => (Raise OverflowError, [])
    | Some low =>
      say low (low_gait_alert pr pid gait ts)
        (say (steps_test steps) (step_surge_alert pr pid steps ts)
           (Return tt, []))
    end.

(** The plain-text path on a message. *)
Definition plain_run (message : str) : Outcome unit * list str :=
  say (contains special message) (special_alert message) (Return tt, []).

(** The kinds of alert, told apart by their fixed beginning. *)
Definition is_tachycardia (a : str) : bool :=
  startswith a (u "ALERT Tachycardia:").
Definition is_low_gait (a : str) : bool :=
  startswith a (u "ALERT Low gait_score:").
Definition is_step_surge (a : str) : bool :=
  startswith a (u "ALERT Step surge:").
Definition is_special (a : str) : bool :=
  startswith a (u "ALERT: The special message was found!").

(** A rule triggers on a message when an alert of its kind is printed. *)
Definition triggered (kind : str -> bool) (pr : char -> bool) (message : str)
  : bool :=
  existsb kind (alerts pr message).

(** Two runs in a row: [process_message(m); process_message(m)]. *)
Definition process_twice (pr : char -> bool) (message : str) : Py unit :=
  process_message pr message ;; process_message pr message.

(** An integer literal too large for a float: 1 followed by 400 zeros. *)
Definition huge_digits : str := u "1" ++ zeros 400.

Definition huge_gait_message : str :=
  json_text "{'hr': 150, 'gait_score': " ++ huge_digits ++ u "}".

Definition huge_negative_gait_message : str :=
  json_text "{'gait_score': -" ++ huge_digits
  ++ json_text ", 'patient_id': 'p2', 'ts': 't2'}".

Definition huge_gait_with_steps_message : str :=
  json_text "{'steps': 20, 'gait_score': " ++ huge_digits
  ++ json_text ", 'patient_id': 'p3', 'ts': 't3'}".

(** An integer literal longer than [int()] converts: 1 followed by 4300
    zeros, 4301 digits. *)
Definition long_digits : str := u "1" ++ zeros 4300.

Definition long_int_message : str :=
  json_text "{'hr': " ++ long_digits ++ u "}".

Definition long_int_special_message : str :=
  json_text "{'hr': " ++ long_digits
  ++ u ", I just loved a movie! It was funny.}".

(** The first surrogate, U+D800; in a JSON text it is written as the
    escape \ud800, which the decoder turns into the lone character. *)
Definition c_surrogate : char := 55296%N.

Definition surrogate_patient_message : str :=
  json_text "{'hr': 150, 'patient_id': '\ud800'}".

Definition surrogate_ts_message : str :=
  json_text "{'hr': 150, 'ts': '\ud800'}".

Definition surrogate_special_message : str := c_surrogate :: special.

(** An object that holds [n] arrays, one inside the other, each empty but
    for the next: [{"a": [[...]]}]. *)
Definition nested_arrays_message (n : nat) : str :=
  json_text "{'a': " ++ repeat c_lbracket n ++ repeat c_rbracket n ++ u "}".

(** ** The rest of the script: the environment getters and [main] *)

(** The process environment, as [load_dotenv()] leaves it: the variables
    with their values. *)
Definition Env := list (str * str).

(** [os.getenv(key, default)]: the value of a variable that is set, the
    default otherwise. *)
Fixpoint getenv (env : Env) (key default : str) : str :=
  match env with
  | [] => default
  | (k, v) :: env' => if str_eqb k key then v else getenv env' key default
  end.

(** [get_kafka_topic()] *)
Definition get_kafka_topic (env : Env) : Py str :=
  let topic := getenv env (u "KAFKA_TOPIC") (u "unknown_topic") in
  logger_info (u "Kafka topic: " ++ topic) ;;
  ret topic.

(** [get_kafka_consumer_group_id()] *)
Definition get_kafka_consumer_group_id (env : Env) : Py str :=
  let group_id :=
    getenv env (u "KAFKA_CONSUMER_GROUP_ID_JSON") (u "kabore-group") in
  logger_info (u "Kafka consumer group id: " ++ group_id) ;;
  ret group_id.

(** Modelled from the spec: [logger.debug] of utils/utils_logger.py, as
    [logger_info] above ("routine processing logged at
    informational/debug severity"). *)
Definition logger_debug (text : str) : Py unit := emit (Logged DEBUG text).

(** Modelled from the spec: [logger.error] of utils/utils_logger.py, as
    [logger_info] above. *)
Definition logger_error (text : str) : Py unit := emit (Logged ERROR text).

(** One delivery of the stream: [message.offset] and [message.value]. *)
Record ConsumerRecord : Type := { offset : Z; value : str }.

(** How an iteration over the consumer, or the loop over it, ends: the
    stream is exhausted, the user interrupts ([KeyboardInterrupt]), or an
    exception with the text [str(e)] is raised. *)
Inductive LoopExit : Type :=
| Exhausted
| KeyboardInterrupt
| ExceptionRaised (text : str).

(** Modelled from the spec: the consumer that [create_kafka_consumer] of
    utils/utils_consumer.py returns; that file is not among the sources.
    The spec has "an external consumer" that "iterates over a message
    stream and hands each message body (a string)" to the evaluator: the
    records it delivers in order, how the iteration ends after them, and
    the number of calls of [close()] it has received. *)
Record Consumer : Type := {
  records : list ConsumerRecord;
  stream_end : LoopExit;
  close_calls : nat
}.

(** [consumer.close()] *)
Definition close (c : Consumer) : Consumer :=
  {| records := records c;
     stream_end := stream_end c;
     close_calls := S (close_calls c) |}.

(** The first surrogate of a text and the run of surrogates that starts
    there: its position, the character, the length of the run. *)
Fixpoint surrogate_run (s : str) : Z :=
  match s with
  | c :: r => if is_surrogate c then (1 + surrogate_run r)%Z else 0%Z
  | [] => 0%Z
  end.

Fixpoint first_surrogate (s : str) (pos : Z) : option (Z * char * Z) :=
  match s with
  | [] => None
  | c :: r =>
    if is_surrogate c then Some (pos, c, (1 + surrogate_run r)%Z)
    else first_surrogate r (pos + 1)
  end.

(** [str(e)]: the texts of the exceptions the evaluator raises.  The
    other exceptions are never raised by [process_message] and their texts
    are not modelled. *)
Definition exn_text (e : PyExn) : str :=
  match e with
  | OverflowError => u "int too large to convert to float"
  | UnicodeEncodeError text =>
    match first_surrogate text 0 with
    | Some (pos, c, n) =>
      if (n =? 1)%Z then
        u "'utf-8' codec can't encode character '\u" ++ hex_digits 4 c
          ++ u "' in position " ++ int_to_str pos
          ++ u ": surrogates not allowed"
      else
        u "'utf-8' codec can't encode characters in position "
          ++ int_to_str pos ++ u "-" ++ int_to_str (pos + n - 1)
          ++ u ": surrogates not allowed"
    | None => []
    end
  | ValueError digits =>
    u "Exceeds the limit (" ++ int_to_str int_max_str_digits
      ++ u " digits) for integer string conversion: value has "
      ++ int_to_str digits
      ++ u " digits; use sys.set_int_max_str_digits() to increase the limit"
  | RecursionError in_object =>
    u "maximum recursion depth exceeded while decoding a JSON "
      ++ (if in_object then u "object" else u "array")
      ++ u " from a unicode string"
  | _ => []
  end.

Section Main.

Variable unicode_isprintable : char -> bool.

(** Modelled from the spec: [create_kafka_consumer(topic, group_id)] of
    utils/utils_consumer.py, which is not among the sources: the consumer
    for a topic and a group.  A failure to create it is not modelled. *)
Variable create_kafka_consumer : str -> str -> Consumer.

(** The body of the [for] loop on one record. *)
Definition handle_record (message : ConsumerRecord) : Py unit :=
  let message_str := value message in
  logger_debug (u "Received offset " ++ int_to_str (offset message)
                  ++ u ": " ++ message_str) ;;
  process_message unicode_isprintable message_str.

(** The [for] loop inside the [try]: the records in order, until one
    raises or the iteration over the consumer ends. *)
Fixpoint poll (rs : list ConsumerRecord) (last : LoopExit) : Py LoopExit :=
  match rs with
  | [] => ret last
  | message :: rs' =>
    fun w =>
      match handle_record message w with
      | (Return _, w') => poll rs' last w'
      | (Raise e, w') => (Return (ExceptionRaised (exn_text e)), w')
      end
  end.

(** [main()]: the consumer it leaves behind. *)
Definition main (env : Env) : Py Consumer :=
  logger_info (u "START consumer.") ;;
  topic <- get_kafka_topic env ;;
  group_id <- get_kafka_consumer_group_id env ;;
  logger_info (u "Consumer: topic='" ++ topic ++ u "', group='"
                 ++ group_id ++ u "'") ;;
  let consumer := create_kafka_consumer topic group_id in
  logger_info (u "Polling messages from topic '" ++ topic ++ u "'...") ;;
  exit <- poll (records consumer) (stream_end consumer) ;;
  match exit with
  | Exhausted => ret tt
  | KeyboardInterrupt => logger_warning (u "Consumer interrupted by user.")
  | ExceptionRaised text =>
    logger_error (u "Error while consuming messages: " ++ text)
  end ;;
  let consumer := close consumer in
  logger_info (u "Kafka consumer for topic '" ++ topic ++ u "' closed.") ;;
  logger_info (u "END consumer for topic '" ++ topic ++ u "' and group '"
                 ++ group_id ++ u "'.") ;;
  ret consumer.

End Main.

(** ** Further notions used in the statements *)

(** What the logger recorded at a given level, in order. *)
Fixpoint logged_at (lvl : Level) (w : World) : list str :=
  match w with
  | [] => []
  | Logged l t :: w' =>
    match lvl, l with
    | DEBUG, DEBUG | INFO, INFO | WARNING, WARNING | ERROR, ERROR =>
      t :: logged_at lvl w'
    | _, _ => logged_at lvl w'
    end
  | Printed _ :: w' => logged_at lvl w'
  end.

(** A consumer of given records and ending, not closed yet. *)
Definition consumer_of (rs : list ConsumerRecord) (last : LoopExit)
  : Consumer :=
  {| records := rs; stream_end := last; close_calls := 0 |}.

(** The records of the messages [ms], numbered from [start]. *)
Fixpoint records_from (start : Z) (ms : list str) : list ConsumerRecord :=
  match ms with
  | [] => []
  | m :: ms' => {| offset := start; value := m |} :: records_from (start + 1) ms'
  end.

(** The record of a delivery in the log. *)
Definition received_event (r : ConsumerRecord) : Event :=
  Logged DEBUG (u "Received offset " ++ int_to_str (offset r)
                  ++ u ": " ++ value r).

(** What the loop emits for one record: the delivery, then the run of the
    evaluator on its value. *)
Definition record_events (pr : char -> bool) (r : ConsumerRecord) : World :=
  received_event r :: snd (run_message pr (value r)).

(** The evaluator returns normally on the value of the record. *)
Definition healthy (pr : char -> bool) (r : ConsumerRecord) : Prop :=
  fst (run_message pr (value r)) = Return tt.

(** The topic and the group that [main] reads from the environment. *)
Definition topic_of (env : Env) : str :=
  getenv env (u "KAFKA_TOPIC") (u "unknown_topic").
Definition group_of (env : Env) : str :=
  getenv env (u "KAFKA_CONSUMER_GROUP_ID_JSON") (u "kabore-group").

(** * Properties *)
(** ** The decoder terminates and makes progress *)

Lemma skip_ws_length (s : str) : List.length (skip_ws s) <= List.length s.
Proof.
  induction s as [|c r IH]; simpl; [lia|].
  destruct (is_json_ws c); simpl; lia.
Qed.

Ltac split_match :=
  match goal with
  | H : context [match ?x with _ => _ end] |- _ =>
    let E := fresh "E" in destruct x eqn:E
  | H : context [if ?x then _ else _] |- _ =>
    let E := fresh "E" in destruct x eqn:E
  end.

Lemma scanstring_length_aux (n : nat) :
  forall s acc k r,
    List.length s <= n ->
    scanstring s acc = Some (k, r) ->
    List.length r < List.length s.
Proof.
  induction n as [|n IH]; intros s acc k r Hn H.
  - destruct s; simpl in *; [discriminate | lia].
  - destruct s as [|c s]; [discriminate|].
    cbn [scanstring] in H.
    repeat (split_match; try discriminate);
      try (injection H as <- <-);
      try (apply IH in H; [|simpl in *; lia]);
      simpl in *; lia.
Qed.

Lemma scanstring_length s acc k r :
  scanstring s acc = Some (k, r) -> List.length r < List.length s.
Proof. apply scanstring_length_aux with (n := List.length s). lia. Qed.

Lemma span_digits_length s : forall v l v' l' r,
  span_digits s v l = (v', l', r) -> List.length r <= List.length s.
Proof.
  induction s as [|c s IH]; intros v l v' l' r H; simpl in H.
  - injection H as <- <- <-. simpl; lia.
  - destruct (is_digit c).
    + apply IH in H. simpl; lia.
    + injection H as <- <- <-. simpl; lia.
Qed.

Lemma match_int_part_length s v r :
  match_int_part s = Some (v, r) -> List.length r < List.length s.
Proof.
  unfold match_int_part. destruct s as [|c s]; [discriminate|].
  destruct (in_range 49 57 c).
  - destruct (span_digits s (Z.of_N (c - 48)) 1) as [[v0 l0] r0] eqn:E.
    intros H; injection H as <- <-.
    apply span_digits_length in E. simpl; lia.
  - destruct (N.eqb c c_zero); [|discriminate].
    intros H; injection H as <- <-. simpl; lia.
Qed.

Lemma match_frac_length v s m l r :
  match_frac v s = Some (m, l, r) -> List.length r <= List.length s.
Proof.
  unfold match_frac. destruct s as [|c [|d s]]; try discriminate.
  destruct (N.eqb c c_dot && is_digit d); [|discriminate].
  intros H; injection H as H.
  pose proof (span_digits_length (d :: s) v 0 H) as L. simpl in L; simpl; lia.
Qed.

Lemma match_exp_length s v r :
  match_exp s = Some (v, r) -> List.length r <= List.length s.
Proof.
  unfold match_exp. destruct s as [|c s]; [discriminate|].
  destruct (N.eqb c 101 || N.eqb c 69); [|discriminate].
  destruct (match s with
            | [] => (false, s)
            | sg :: r' =>
              if N.eqb sg c_minus then (true, r')
              else if N.eqb sg c_plus then (false, r') else (false, s)
            end) as [neg r1] eqn:E1.
  assert (L1 : List.length r1 <= List.length s).
  { destruct s as [|sg s]; [injection E1 as <- <-; simpl; lia|].
    destruct (N.eqb sg c_minus); [injection E1 as <- <-; simpl; lia|].
    destruct (N.eqb sg c_plus); injection E1 as <- <-; simpl; lia. }
  destruct r1 as [|d r1]; [discriminate|].
  destruct (is_digit d) eqn:Ed; [|discriminate].
  destruct (span_digits (d :: r1) 0 0) as [[v0 l0] r2] eqn:E2.
  intros H; injection H as <- <-.
  apply span_digits_length in E2. simpl in *; lia.
Qed.

Lemma match_number_length s v r :
  match_number s = Some (v, r) -> List.length r < List.length s.
Proof.
  unfold match_number.
  destruct (match s with
            | [] => (false, s)
            | c :: r0 => if N.eqb c c_minus then (true, r0) else (false, s)
            end) as [neg s1] eqn:E1.
  assert (L1 : List.length s1 <= List.length s).
  { destruct s as [|c s]; [injection E1 as <- <-; simpl; lia|].
    destruct (N.eqb c c_minus); injection E1 as <- <-; simpl; lia. }
  destruct (match_int_part s1) as [[iv s2]|] eqn:E2; [|discriminate].
  apply match_int_part_length in E2.
  destruct (match_frac iv s2) as [[[m flen] s3]|] eqn:E3.
  - apply match_frac_length in E3.
    destruct (match_exp s3) as [[ex s4]|] eqn:E4.
    + apply match_exp_length in E4. intros H; injection H as <- <-. lia.
    + intros H; injection H as <- <-. lia.
  - destruct (match_exp s2) as [[ex s4]|] eqn:E4.
    + apply match_exp_length in E4. intros H; injection H as <- <-. lia.
    + intros H; injection H as <- <-. lia.
Qed.

Lemma strip_prefix_length p : forall s r,
  strip_prefix p s = Some r -> List.length s = List.length p + List.length r.
Proof.
  induction p as [|x p IH]; intros s r H; simpl in H.
  - injection H as <-. reflexivity.
  - destruct s as [|y s]; [discriminate|].
    destruct (char_eqb x y); [|discriminate].
    apply IH in H. simpl; lia.
Qed.

Lemma match_constant_length s v r :
  match_constant s = Some (v, r) -> List.length r < List.length s.
Proof.
  unfold match_constant. intros H.
  repeat (split_match; try discriminate);
    injection H as <- <-;
    match goal with
    | E : strip_prefix _ _ = Some _ |- _ =>
      apply strip_prefix_length in E; simpl in E; lia
    end.
Qed.

Lemma check_number_length (s : str) (v : PyValue) (r : str) :
  check_number (match_number s) = Decoded (v, r) ->
  List.length r < List.length s.
Proof.
  destruct (match_number s) as [[v0 r0]|] eqn:E; [|discriminate].
  apply match_number_length in E. unfold check_number.
  destruct v0 as [|b|m|f|t|l|dd];
    try (intros H; injection H as <- <-; exact E).
  destruct (int_max_str_digits <? decimal_length m)%Z; [discriminate|].
  intros H; injection H as <- <-. exact E.
Qed.

Lemma check_number_fuel (s : str) : check_number (match_number s) <> OutOfFuel.
Proof.
  destruct (match_number s) as [[v0 r0]|]; [|discriminate].
  unfold check_number. destruct v0 as [|b|m|f|t|l|dd]; try discriminate.
  destruct (int_max_str_digits <? decimal_length m)%Z; discriminate.
Qed.

(** The decoder refuses an integer literal only when it has more than
    [int_max_str_digits] digits. *)
Lemma check_number_too_long (o : option (PyValue * str)) (n : Z) :
  check_number o = IntTooLong n -> (int_max_str_digits < n)%Z.
Proof.
  destruct o as [[v r]|]; [|discriminate]. unfold check_number.
  destruct v as [|b|m|f|t|l|dd]; try discriminate.
  destruct (Z.ltb_spec int_max_str_digits (decimal_length m)) as [L|L];
    [|discriminate].
  intros E; injection E as <-. exact L.
Qed.

(** A successful scan consumes at least one character. *)
Lemma scan_progress (fuel : nat) :
  (forall depth s v r, scan_once fuel depth s = Decoded (v, r) ->
                       List.length r < List.length s)
  /\ (forall depth acc s v r,
         parse_members fuel depth acc s = Decoded (v, r) ->
         List.length r < List.length s)
  /\ (forall depth acc s v r,
         parse_elems fuel depth acc s = Decoded (v, r) ->
         List.length r < List.length s).
Proof.
  induction fuel as [|fuel [IHs [IHm IHe]]].
  - repeat split; intros; discriminate.
  - repeat split.
    + intros depth s v r H. cbn [scan_once] in H.
      destruct s as [|c s]; [discriminate|].
      destruct (N.eqb c c_dquote).
      { destruct (scanstring s []) as [[k r']|] eqn:E; [|discriminate].
        injection H as <- <-. apply scanstring_length in E. simpl; lia. }
      destruct (N.eqb c c_lbrace).
      { destruct depth as [|depth]; [discriminate|].
        pose proof (skip_ws_length s) as L.
        destruct (skip_ws s) as [|c' r'] eqn:E; [discriminate|].
        destruct (N.eqb c' c_rbrace).
        - injection H as <- <-. simpl in *; lia.
        - apply IHm in H. simpl in *; lia. }
      destruct (N.eqb c c_lbracket).
      { destruct depth as [|depth]; [discriminate|].
        pose proof (skip_ws_length s) as L.
        destruct (skip_ws s) as [|c' r'] eqn:E; [discriminate|].
        destruct (N.eqb c' c_rbracket).
        - injection H as <- <-. simpl in *; lia.
        - apply IHe in H. simpl in *; lia. }
      destruct (match_constant (c :: s)) as [[v0 r0]|] eqn:E.
      { injection H as <- <-. apply match_constant_length in E. exact E. }
      apply check_number_length in H. exact H.
    + intros depth acc s v r H. cbn [parse_members] in H.
      destruct s as [|c s]; [discriminate|].
      destruct (N.eqb c c_dquote); [|discriminate].
      destruct (scanstring s []) as [[key r1]|] eqn:E; [|discriminate].
      apply scanstring_length in E.
      pose proof (skip_ws_length r1) as L1.
      destruct (skip_ws r1) as [|c1 r2]; [discriminate|].
      destruct (N.eqb c1 c_colon); [|discriminate].
      pose proof (skip_ws_length r2) as L2.
      destruct (scan_once fuel depth (skip_ws r2)) as [[v3 r3]| | | |] eqn:E3;
        try discriminate.
      apply IHs in E3.
      pose proof (skip_ws_length r3) as L3.
      destruct (skip_ws r3) as [|c2 r4]; [discriminate|].
      destruct (N.eqb c2 c_rbrace).
      { injection H as <- <-. simpl in *; lia. }
      destruct (N.eqb c2 c_comma); [|discriminate].
      apply IHm in H. pose proof (skip_ws_length r4) as L4. simpl in *; lia.
    + intros depth acc s v r H. cbn [parse_elems] in H.
      destruct (scan_once fuel depth s) as [[v1 r1]| | | |] eqn:E1;
        try discriminate.
      apply IHs in E1.
      pose proof (skip_ws_length r1) as L1.
      destruct (skip_ws r1) as [|c r2]; [discriminate|].
      destruct (N.eqb c c_rbracket).
      { injection H as <- <-. simpl in *; lia. }
      destruct (N.eqb c c_comma); [|discriminate].
      apply IHe in H. pose proof (skip_ws_length r2) as L2. simpl in *; lia.
Qed.

(** With fuel above twice the length of the input the scanner never runs
    out of it. *)
Lemma scan_fuel (fuel : nat) :
  (forall depth s, 2 * List.length s + 1 <= fuel ->
                   scan_once fuel depth s <> OutOfFuel)
  /\ (forall depth acc s, 2 * List.length s + 1 <= fuel ->
                          parse_members fuel depth acc s <> OutOfFuel)
  /\ (forall depth acc s, 2 * List.length s + 2 <= fuel ->
                          parse_elems fuel depth acc s <> OutOfFuel).
Proof.
  induction fuel as [|fuel [IHs [IHm IHe]]].
  - repeat split; intros; lia.
  - repeat split.
    + intros depth s Hf. cbn [scan_once].
      destruct s as [|c s]; [discriminate|].
      destruct (N.eqb c c_dquote).
      { destruct (scanstring s []) as [[k r']|]; discriminate. }
      destruct (N.eqb c c_lbrace).
      { destruct depth as [|depth]; [discriminate|].
        pose proof (skip_ws_length s) as L.
        destruct (skip_ws s) as [|c' r'] eqn:E; [discriminate|].
        destruct (N.eqb c' c_rbrace); [discriminate|].
        apply IHm. simpl in *; lia. }
      destruct (N.eqb c c_lbracket).
      { destruct depth as [|depth]; [discriminate|].
        pose proof (skip_ws_length s) as L.
        destruct (skip_ws s) as [|c' r'] eqn:E; [discriminate|].
        destruct (N.eqb c' c_rbracket); [discriminate|].
        apply IHe. simpl in *; lia. }
      destruct (match_constant (c :: s)) as [[v0 r0]|]; [discriminate|].
      apply check_number_fuel.
    + intros depth acc s Hf. cbn [parse_members].
      destruct s as [|c s]; [discriminate|].
      destruct (N.eqb c c_dquote); [|discriminate].
      destruct (scanstring s []) as [[key r1]|] eqn:E; [|discriminate].
      apply scanstring_length in E.
      pose proof (skip_ws_length r1) as L1.
      destruct (skip_ws r1) as [|c1 r2]; [discriminate|].
      destruct (N.eqb c1 c_colon); [|discriminate].
      pose proof (skip_ws_length r2) as L2.
      destruct (scan_once fuel depth (skip_ws r2)) as [[v3 r3]| | | |] eqn:E3;
        try discriminate.
      * apply (proj1 (scan_progress fuel)) in E3.
        pose proof (skip_ws_length r3) as L3.
        destruct (skip_ws r3) as [|c2 r4]; [discriminate|].
        destruct (N.eqb c2 c_rbrace); [discriminate|].
        destruct (N.eqb c2 c_comma); [|discriminate].
        apply IHm. pose proof (skip_ws_length r4) as L4. simpl in *; lia.
      * exfalso. revert E3. apply IHs. simpl in *; lia.
    + intros depth acc s Hf. cbn [parse_elems].
      destruct (scan_once fuel depth s) as [[v1 r1]| | | |] eqn:E1;
        try discriminate.
      * apply (proj1 (scan_progress fuel)) in E1.
        pose proof (skip_ws_length r1) as L1.
        destruct (skip_ws r1) as [|c r2]; [discriminate|].
        destruct (N.eqb c c_rbracket); [discriminate|].
        destruct (N.eqb c c_comma); [|discriminate].
        apply IHe. pose proof (skip_ws_length r2) as L2. simpl in *; lia.
      * exfalso. revert E1. apply IHs. lia.
Qed.

(** A [ValueError] of the scanner reports more than [int_max_str_digits]
    digits. *)
Lemma scan_too_long (fuel : nat) :
  (forall depth s n, scan_once fuel depth s = IntTooLong n ->
                     (int_max_str_digits < n)%Z)
  /\ (forall depth acc s n, parse_members fuel depth acc s = IntTooLong n ->
                            (int_max_str_digits < n)%Z)
  /\ (forall depth acc s n, parse_elems fuel depth acc s = IntTooLong n ->
                            (int_max_str_digits < n)%Z).
Proof.
  induction fuel as [|fuel [IHs [IHm IHe]]].
  - repeat split; intros; discriminate.
  - repeat split.
    + intros depth s n H. cbn [scan_once] in H.
      destruct s as [|c s]; [discriminate|].
      destruct (N.eqb c c_dquote).
      { destruct (scanstring s []) as [[k r']|]; discriminate. }
      destruct (N.eqb c c_lbrace).
      { destruct depth as [|depth]; [discriminate|].
        destruct (skip_ws s) as [|c' r']; [discriminate|].
        destruct (N.eqb c' c_rbrace); [discriminate|].
        eapply IHm; eassumption. }
      destruct (N.eqb c c_lbracket).
      { destruct depth as [|depth]; [discriminate|].
        destruct (skip_ws s) as [|c' r']; [discriminate|].
        destruct (N.eqb c' c_rbracket); [discriminate|].
        eapply IHe; eassumption. }
      destruct (match_constant (c :: s)) as [[v0 r0]|]; [discriminate|].
      eapply check_number_too_long; eassumption.
    + intros depth acc s n H. cbn [parse_members] in H.
      destruct s as [|c s]; [discriminate|].
      destruct (N.eqb c c_dquote); [|discriminate].
      destruct (scanstring s []) as [[key r1]|]; [|discriminate].
      destruct (skip_ws r1) as [|c1 r2]; [discriminate|].
      destruct (N.eqb c1 c_colon); [|discriminate].
      destruct (scan_once fuel depth (skip_ws r2)) as [[v3 r3]| | | |] eqn:E3;
        try discriminate.
      * destruct (skip_ws r3) as [|c2 r4]; [discriminate|].
        destruct (N.eqb c2 c_rbrace); [discriminate|].
        destruct (N.eqb c2 c_comma); [|discriminate].
        eapply IHm; eassumption.
      * injection H as <-. eapply IHs; eassumption.
    + intros depth acc s n H. cbn [parse_elems] in H.
      destruct (scan_once fuel depth s) as [[v1 r1]| | | |] eqn:E1;
        try discriminate.
      * destruct (skip_ws r1) as [|c r2]; [discriminate|].
        destruct (N.eqb c c_rbracket); [discriminate|].
        destruct (N.eqb c c_comma); [|discriminate].
        eapply IHe; eassumption.
      * injection H as <-. eapply IHs; eassumption.
Qed.

(** [json.loads] always returns or raises: the model does not run out of
    fuel. *)
Lemma json_loads_total (s : str) : json_loads s <> OutOfFuel.
Proof.
  unfold json_loads.
  destruct (scan_once (2 * List.length s + 1) depth_budget (skip_ws s))
    as [[v r]| | | |] eqn:E; try discriminate.
  - destruct (skip_ws r); discriminate.
  - exfalso. revert E. apply (proj1 (scan_fuel _)).
    pose proof (skip_ws_length s). lia.
Qed.

Lemma json_loads_too_long (s : str) (n : Z) :
  json_loads s = IntTooLong n -> (int_max_str_digits < n)%Z.
Proof.
  unfold json_loads.
  destruct (scan_once (2 * List.length s + 1) depth_budget (skip_ws s))
    as [[v r]| | | |] eqn:E; try discriminate.
  - destruct (skip_ws r); discriminate.
  - intros H; injection H as <-.
    eapply (proj1 (scan_too_long _)); eassumption.
Qed.

(** The members loop only ever builds a dict. *)
Lemma parse_members_dict (fuel : nat) : forall depth acc s v r,
  parse_members fuel depth acc s = Decoded (v, r) -> exists d, v = PyDict d.
Proof.
  induction fuel as [|fuel IH]; intros depth acc s v r H; [discriminate|].
  cbn [parse_members] in H.
  destruct s as [|c s]; [discriminate|].
  destruct (N.eqb c c_dquote); [|discriminate].
  destruct (scanstring s []) as [[key r1]|]; [|discriminate].
  destruct (skip_ws r1) as [|c1 r2]; [discriminate|].
  destruct (N.eqb c1 c_colon); [|discriminate].
  destruct (scan_once fuel depth (skip_ws r2)) as [[v3 r3]| | | |];
    try discriminate.
  destruct (skip_ws r3) as [|c2 r4]; [discriminate|].
  destruct (N.eqb c2 c_rbrace).
  { injection H as <- <-. eauto. }
  destruct (N.eqb c2 c_comma); [|discriminate].
  eapply IH; eassumption.
Qed.

(** A text that starts with an opening brace decodes to a dict, if it
    decodes. *)
Lemma json_loads_object (s : str) (v : PyValue) :
  startswith s (u "{") = true ->
  json_loads s = Decoded v ->
  exists d, v = PyDict d.
Proof.
  intros Hs H. destruct s as [|c s]; [discriminate|].
  assert (Hc : c = c_lbrace).
  { change (u "{") with [c_lbrace] in Hs. cbn [startswith] in Hs.
    destruct (char_eqb c_lbrace c) eqn:E; [|discriminate].
    symmetry. apply N.eqb_eq. exact E. }
  subst c. unfold json_loads in H.
  change (skip_ws (c_lbrace :: s)) with (c_lbrace :: s) in H.
  destruct (scan_once (2 * List.length (c_lbrace :: s) + 1) depth_budget
              (c_lbrace :: s))
    as [[v0 r]| | | |] eqn:E; try discriminate.
  destruct (skip_ws r); [|discriminate].
  injection H as <-.
  replace (2 * List.length (c_lbrace :: s) + 1)
    with (S (2 * List.length (c_lbrace :: s))) in E by lia.
  cbn [scan_once] in E.
  change (N.eqb c_lbrace c_dquote) with false in E.
  change (N.eqb c_lbrace c_lbrace) with true in E.
  cbv iota in E.
  destruct depth_budget as [|depth]; [discriminate|].
  destruct (skip_ws s) as [|c' r']; [discriminate|].
  destruct (N.eqb c' c_rbrace).
  - injection E as <- <-. eauto.
  - eapply parse_members_dict; eassumption.
Qed.

(** ** Integers as floats

    [float(n)] keeps the sign of [n], and a positive [n] gives a float
    of at least 1: an integer is below 0.40 as a float exactly when it
    is at most 0. *)

Lemma Zdigits2_shr_1 (s : shr_record) :
  Zdigits2 (shr_m (shr_1 s)) = Z.max 0 (Zdigits2 (shr_m s) - 1).
Proof.
  destruct s as [m r t]. cbn [shr_1 shr_m].
  destruct m as [|[p|p|]|[p|p|]]; cbn [shr_m Zdigits2 digits2_pos]; lia.
Qed.

Lemma Zdigits2_iter_shr_1 (p : positive) : forall s,
  Zdigits2 (shr_m (iter_pos shr_1 p s))
  = Z.max 0 (Zdigits2 (shr_m s) - Zpos p).
Proof.
  induction p as [p IH|p IH|]; intros s; cbn [iter_pos].
  - rewrite !IH, Zdigits2_shr_1. lia.
  - rewrite !IH. lia.
  - apply Zdigits2_shr_1.
Qed.

Lemma shr_1_nonneg (s : shr_record) :
  (0 <= shr_m s -> 0 <= shr_m (shr_1 s))%Z.
Proof.
  destruct s as [m r t]. cbn [shr_1 shr_m].
  destruct m as [|[p|p|]|[p|p|]]; cbn [shr_m]; lia.
Qed.

Lemma iter_shr_1_nonneg (p : positive) : forall s,
  (0 <= shr_m s -> 0 <= shr_m (iter_pos shr_1 p s))%Z.
Proof.
  induction p as [p IH|p IH|]; intros s H; cbn [iter_pos].
  - apply IH, IH, shr_1_nonneg, H.
  - apply IH, IH, H.
  - apply shr_1_nonneg, H.
Qed.

Lemma Zdigits2_pos (m : Z) : (0 <= m -> 0 < Zdigits2 m -> 0 < m)%Z.
Proof. destruct m; cbn [Zdigits2]; lia. Qed.

Lemma Zdigits2_of_pos (m : Z) : (0 < m -> 0 < Zdigits2 m)%Z.
Proof. destruct m; cbn [Zdigits2]; lia. Qed.

Lemma shr_m_of_loc (m : Z) (l : location) :
  shr_m (shr_record_of_loc m l) = m.
Proof. destruct l as [|[| |]]; reflexivity. Qed.

(** Shifting to the format's exponent keeps a positive mantissa
    positive and does not lower the exponent. *)
Lemma shr_fexp_positive (m e : Z) (l : location) :
  (0 < m)%Z -> (-1000 <= e)%Z ->
  (0 < shr_m (fst (shr_fexp prec emax m e l)))%Z
  /\ (e <= snd (shr_fexp prec emax m e l))%Z.
Proof.
  intros Hm He. unfold shr_fexp, shr.
  pose proof (Zdigits2_of_pos Hm) as HD.
  assert (F : fexp prec emax (Zdigits2 m + e) = (Zdigits2 m + e - 53)%Z).
  { unfold fexp, emin, prec, emax. lia. }
  rewrite F.
  destruct (Zdigits2 m + e - 53 - e)%Z as [|p|p] eqn:K; cbn [fst snd].
  - rewrite shr_m_of_loc. lia.
  - split; [|lia].
    apply Zdigits2_pos.
    + apply iter_shr_1_nonneg. rewrite shr_m_of_loc. lia.
    + rewrite Zdigits2_iter_shr_1, shr_m_of_loc. lia.
  - rewrite shr_m_of_loc. lia.
Qed.

Lemma round_nearest_even_positive (m : Z) (l : location) :
  (0 < m -> 0 < round_nearest_even m l)%Z.
Proof.
  intros H. unfold round_nearest_even.
  destruct l as [|[| |]]; try destruct (Z.even m); lia.
Qed.

(** Rounding a positive mantissa gives infinity or a finite float of the
    same sign whose exponent is not below the one given. *)
Lemma binary_round_aux_positive (sx : bool) (m e : Z) (l : location) :
  (0 < m)%Z -> (-1000 <= e)%Z ->
  binary_round_aux prec emax sx m e l = S754_infinity sx
  \/ exists m' e', binary_round_aux prec emax sx m e l = S754_finite sx m' e'
                   /\ (e <= e')%Z.
Proof.
  intros Hm He. unfold binary_round_aux.
  destruct (shr_fexp_positive l Hm He) as [P1 E1].
  destruct (shr_fexp prec emax m e l) as [mrs' e'] eqn:S1.
  cbn [fst snd] in P1, E1.
  pose proof (round_nearest_even_positive (loc_of_shr_record mrs') P1) as P2.
  assert (He' : (-1000 <= e')%Z) by lia.
  destruct (shr_fexp_positive loc_Exact P2 He') as [P3 E3].
  destruct (shr_fexp prec emax
              (round_nearest_even (shr_m mrs') (loc_of_shr_record mrs'))
              e' loc_Exact) as [mrs'' e''] eqn:S2.
  cbn [fst snd] in P3, E3.
  destruct (shr_m mrs'') as [|q|q]; try lia.
  destruct (Z.leb e'' (emax - prec)); [right | left; reflexivity].
  exists q, e''. split; [reflexivity | lia].
Qed.

Lemma binary_round_positive (sx : bool) (m : positive) :
  binary_round prec emax sx m 0 = S754_infinity sx
  \/ exists m' e', binary_round prec emax sx m 0 = S754_finite sx m' e'
                   /\ (-52 <= e')%Z.
Proof.
  unfold binary_round.
  assert (F : fexp prec emax (Zpos (digits2_pos m) + 0)
              = (Zpos (digits2_pos m) - 53)%Z).
  { unfold fexp, emin, prec, emax. lia. }
  rewrite F. unfold shl_align.
  destruct (Zpos (digits2_pos m) - 53 - 0)%Z as [|p|p] eqn:K.
  - destruct (@binary_round_aux_positive sx (Zpos m) 0 loc_Exact)
      as [->|(m' & e' & -> & L)]; try lia; [left; reflexivity|].
    right. exists m', e'. split; [reflexivity | lia].
  - destruct (@binary_round_aux_positive sx (Zpos m) 0 loc_Exact)
      as [->|(m' & e' & -> & L)]; try lia; [left; reflexivity|].
    right. exists m', e'. split; [reflexivity | lia].
  - destruct (@binary_round_aux_positive sx (Zpos (Pos.iter xO m p))
                (Zpos (digits2_pos m) - 53) loc_Exact)
      as [->|(m' & e' & -> & L)]; try lia; [left; reflexivity|].
    right. exists m', e'. split; [reflexivity | lia].
Qed.

Lemma lit_0_40_value : lit_0_40 = S754_finite false 7205759403792794 (-54).
Proof. vm_compute. reflexivity. Qed.

(** An integer within the range of floats is below 0.40 as a float
    exactly when it is at most 0. *)
Lemma float_of_int_below_0_40 (n : Z) (f : pyfloat) :
  float_of_int n = Some f ->
  float_lt f lit_0_40 = (n <=? 0)%Z.
Proof.
  unfold float_of_int, binary_normalize, float_lt, SFltb.
  rewrite lit_0_40_value.
  destruct n as [|p|p].
  - intros H; injection H as <-. reflexivity.
  - destruct (binary_round_positive false p) as [->|(m' & e' & -> & L)];
      [discriminate|].
    intros H; injection H as <-. cbn [SFcompare].
    destruct (Z.compare_spec e' (-54)); try lia. reflexivity.
  - destruct (binary_round_positive true p) as [->|(m' & e' & -> & L)];
      [discriminate|].
    intros H; injection H as <-. reflexivity.
Qed.

(** The gait rule on an integer. *)
Lemma gait_test_int (n : Z) (low : bool) :
  gait_test (PyInt n) = Some low -> low = (n <=? 0)%Z.
Proof.
  cbn [gait_test]. destruct (float_of_int n) as [f|] eqn:F; [|discriminate].
  intros H; injection H as <-. apply float_of_int_below_0_40, F.
Qed.

(** *** The integers [float()] converts *)

Lemma digits2_pos_size (p : positive) : digits2_pos p = Pos.size p.
Proof. induction p as [p IH|p IH|]; cbn; rewrite ?IH; reflexivity. Qed.

Lemma Zdigits2_log2 (m : Z) : (0 < m)%Z -> Zdigits2 m = (Z.log2 m + 1)%Z.
Proof.
  destruct m as [|p|p]; try lia. intros _. cbn [Zdigits2].
  destruct p as [p|p|]; cbn [digits2_pos Z.log2];
    rewrite ?digits2_pos_size; lia.
Qed.

Lemma Zdigits2_shl (m p : positive) :
  Zdigits2 (Zpos (Pos.iter xO m p)) = (Zdigits2 (Zpos m) + Zpos p)%Z.
Proof.
  induction p as [|p IH] using Pos.peano_ind.
  - cbn. lia.
  - rewrite Pos.iter_succ. cbn [Zdigits2 digits2_pos] in *. lia.
Qed.

Lemma Zdigits2_bound (m d : Z) :
  (0 < m)%Z -> (0 <= d)%Z -> (m < 2 ^ d)%Z -> (Zdigits2 m <= d)%Z.
Proof.
  intros Hm Hd Hlt. rewrite (Zdigits2_log2 Hm).
  assert (Z.log2 m < d)%Z; [|lia].
  apply Z.log2_lt_pow2; assumption.
Qed.

(** The exponent and the length of the mantissa after the shift. *)
Lemma shr_fexp_exact (m e : Z) (l : location) :
  (0 < m)%Z -> (-1000 <= e)%Z ->
  snd (shr_fexp prec emax m e l) = (e + Z.max 0 (Zdigits2 m - 53))%Z
  /\ Zdigits2 (shr_m (fst (shr_fexp prec emax m e l)))
     = Z.min (Zdigits2 m) 53.
Proof.
  intros Hm He. unfold shr_fexp, shr.
  pose proof (Zdigits2_of_pos Hm) as HD.
  assert (F : fexp prec emax (Zdigits2 m + e) = (Zdigits2 m + e - 53)%Z).
  { unfold fexp, emin, prec, emax. lia. }
  rewrite F.
  destruct (Zdigits2 m + e - 53 - e)%Z as [|p|p] eqn:K; cbn [fst snd].
  - rewrite shr_m_of_loc. lia.
  - rewrite Zdigits2_iter_shr_1, shr_m_of_loc. lia.
  - rewrite shr_m_of_loc. lia.
Qed.

Lemma Zdigits2_round (m : Z) (l : location) :
  (0 < m)%Z -> (Zdigits2 (round_nearest_even m l) <= Zdigits2 m + 1)%Z.
Proof.
  intros Hm.
  pose proof (round_nearest_even_positive l Hm) as Hr.
  rewrite (Zdigits2_log2 Hm), (Zdigits2_log2 Hr).
  assert (B : (round_nearest_even m l <= Z.succ m)%Z).
  { unfold round_nearest_even.
    destruct l as [|[| |]]; try destruct (Z.even m); lia. }
  pose proof (Z.log2_le_mono _ _ B) as M.
  pose proof (Z.log2_succ_le m) as S. lia.
Qed.

(** The exponent of a rounded mantissa is bounded by its length. *)
Lemma binary_round_aux_finite (sx : bool) (m e : Z) (l : location) :
  (0 < m)%Z -> (-1000 <= e)%Z ->
  (e + Z.max 0 (Zdigits2 m - 53) + 1 <= emax - prec)%Z ->
  binary_round_aux prec emax sx m e l <> S754_infinity sx.
Proof.
  intros Hm He Hb. unfold binary_round_aux.
  destruct (shr_fexp_positive l Hm He) as [P1 _].
  destruct (shr_fexp_exact l Hm He) as [E1 D1].
  destruct (shr_fexp prec emax m e l) as [mrs' e'] eqn:S1.
  cbn [fst snd] in P1, E1, D1.
  pose proof (round_nearest_even_positive (loc_of_shr_record mrs') P1) as P2.
  pose proof (Zdigits2_round (loc_of_shr_record mrs') P1) as D2.
  assert (He' : (-1000 <= e')%Z) by lia.
  destruct (shr_fexp_positive loc_Exact P2 He') as [P3 _].
  destruct (shr_fexp_exact loc_Exact P2 He') as [E3 _].
  destruct (shr_fexp prec emax
              (round_nearest_even (shr_m mrs') (loc_of_shr_record mrs'))
              e' loc_Exact) as [mrs'' e''] eqn:S2.
  cbn [fst snd] in P3, E3.
  destruct (shr_m mrs'') as [|q|q]; try lia.
  destruct (Z.leb_spec e'' (emax - prec)); [discriminate | lia].
Qed.

Lemma binary_round_finite (sx : bool) (m : positive) :
  (Zpos m < 2 ^ 1023)%Z ->
  binary_round prec emax sx m 0 <> S754_infinity sx.
Proof.
  intros Hlt. unfold binary_round.
  assert (HD : (Zdigits2 (Zpos m) <= 1023)%Z)
    by (apply Zdigits2_bound; lia).
  pose proof (Zdigits2_of_pos (m := Zpos m) eq_refl) as HD0.
  cbn [Zdigits2] in HD, HD0.
  assert (F : fexp prec emax (Zpos (digits2_pos m) + 0)
              = (Zpos (digits2_pos m) - 53)%Z).
  { unfold fexp, emin, prec, emax. lia. }
  rewrite F. unfold shl_align.
  destruct (Zpos (digits2_pos m) - 53 - 0)%Z as [|p|p] eqn:K.
  - apply binary_round_aux_finite; cbn [Zdigits2]; unfold emax, prec; lia.
  - apply binary_round_aux_finite; cbn [Zdigits2]; unfold emax, prec; lia.
  - apply binary_round_aux_finite; try lia.
    rewrite Zdigits2_shl. cbn [Zdigits2]. unfold emax, prec. lia.
Qed.

(** [float(n)] does not overflow for an integer below [2^1023] in
    absolute value. *)
Lemma float_of_int_in_range (n : Z) :
  (Z.abs n < 2 ^ 1023)%Z -> float_of_int n <> None.
Proof.
  intros H. unfold float_of_int, binary_normalize.
  destruct n as [|p|p]; [discriminate| |].
  - pose proof (@binary_round_finite false p H) as NI.
    destruct (binary_round_positive false p) as [E|(m' & e' & -> & _)];
      [contradiction | discriminate].
  - pose proof (@binary_round_finite true p H) as NI.
    destruct (binary_round_positive true p) as [E|(m' & e' & -> & _)];
      [contradiction | discriminate].
Qed.

(** ** The two paths of the evaluator *)

Lemma try_parse_json_pure (m : str) (w : World) :
  _try_parse_json m w = (fst (_try_parse_json m []), w).
Proof.
  unfold _try_parse_json.
  destruct (negb _); [reflexivity|].
  destruct (json_loads _); reflexivity.
Qed.

Lemma str_or_empty (s : str) : str_or s (u "") = s.
Proof. destruct s; reflexivity. Qed.

(** [_try_parse_json] in terms of the heuristic and the decoder: of the
    decoder's failures only [JSONDecodeError] becomes [None]. *)
Lemma try_parse_json_eq (m : str) (w : World) :
  _try_parse_json m w =
  (if bracketed (strip m)
   then match json_loads (strip m) with
        | Decoded v => Return v
        | JSONDecodeError => Return PyNone
        | IntTooLong n => Raise (ValueError n)
        | TooDeep b => Raise (RecursionError b)
        | OutOfFuel => Raise Unfinished
        end
   else Return PyNone, w).
Proof.
  unfold _try_parse_json, bracketed. rewrite str_or_empty.
  destruct (startswith (strip m) (u "{") && endswith (strip m) (u "}"));
    [|reflexivity].
  cbn [negb]. destruct (json_loads (strip m)); reflexivity.
Qed.

(** It returns [None] or a dict, or it raises the [ValueError] or the
    [RecursionError] of the decoder, and nothing else. *)
Lemma try_parse_json_cases (m : str) :
  plain_text m
  \/ (exists d, decodes_to m d)
  \/ (exists n, (int_max_str_digits < n)%Z /\ decoder_raises m (ValueError n))
  \/ (exists b, decoder_raises m (RecursionError b)).
Proof.
  unfold plain_text, decodes_to, decoder_raises. rewrite try_parse_json_eq.
  destruct (bracketed (strip m)) eqn:B; [|left; reflexivity].
  pose proof (json_loads_total (strip m)) as T.
  destruct (json_loads (strip m)) as [v| |n|b|] eqn:E.
  - apply andb_prop in B. destruct B as [B _].
    destruct (json_loads_object _ B E) as [d ->].
    right. left. exists d. reflexivity.
  - left. reflexivity.
  - right. right. left. exists n. split; [|reflexivity].
    exact (json_loads_too_long _ E).
  - right. right. right. exists b. reflexivity.
  - congruence.
Qed.

(** The three results exclude one another. *)
Lemma decodes_not_plain (m : str) (d : pydict) :
  decodes_to m d -> plain_text m -> False.
Proof. unfold decodes_to, plain_text. congruence. Qed.

Lemma decodes_not_raises (m : str) (d : pydict) (e : PyExn) :
  decodes_to m d -> decoder_raises m e -> False.
Proof. unfold decodes_to, decoder_raises. congruence. Qed.

Lemma plain_not_raises (m : str) (e : PyExn) :
  plain_text m -> decoder_raises m e -> False.
Proof. unfold plain_text, decoder_raises. congruence. Qed.

Lemma py_get_dict (d : pydict) (k : string) (w : World) :
  py_get (PyDict d) (u k) w = (Return (field d k), w).
Proof.
  unfold py_get, field. destruct (dict_lookup d (u k)); reflexivity.
Qed.

(** One rule: nothing when it does not hold; the alert printed and
    logged when it holds; [UnicodeEncodeError] from [print], before
    anything is written, when the alert holds a surrogate. *)
Lemma when_alert (c : bool) (a : str) (w : World) :
  when c (print a ;; logger_warning a) w
  = if c && has_surrogate a then (Raise (UnicodeEncodeError a), w)
    else (Return tt, w ++ (if c then alert_events a else [])).
Proof.
  unfold when, bind, print, logger_warning, emit, alert_events, ret, raise.
  destruct c; cbn [andb].
  - destruct (has_surrogate a); [reflexivity|].
    rewrite <- app_assoc. reflexivity.
  - rewrite app_nil_r. reflexivity.
Qed.

(** A rule followed by the rest of a run. *)
Lemma when_alert_then (c : bool) (a : str) (k : Py unit)
      (rest : Outcome unit * list str) :
  (forall w, k w = (fst rest, w ++ flat_map alert_events (snd rest))) ->
  forall w,
    (when c (print a ;; logger_warning a) ;; k) w
    = (fst (say c a rest),
       w ++ flat_map alert_events (snd (say c a rest))).
Proof.
  intros K w. unfold bind at 1. rewrite when_alert. unfold say.
  destruct c; cbn [andb].
  - destruct (has_surrogate a); cbn [fst snd flat_map].
    + rewrite app_nil_r. reflexivity.
    + rewrite K, <- app_assoc. reflexivity.
  - rewrite app_nil_r. apply K.
Qed.

(** The plain-text path: the message is logged, and the special alert is
    printed and logged when the message contains the special text. *)
Lemma process_message_plain (pr : char -> bool) (m : str) (w : World) :
  plain_text m ->
  process_message pr m w =
  (fst (plain_run m),
   w ++ processing_event m :: flat_map alert_events (snd (plain_run m))).
Proof.
  intros H. unfold process_message, bind at 1 2.
  unfold logger_info, emit at 1.
  rewrite try_parse_json_pure, H. cbn [fst is_not_None].
  rewrite when_alert. unfold plain_run, say.
  destruct (contains special m); cbn [andb];
    [destruct (has_surrogate (special_alert m))|];
    cbn [fst snd flat_map]; rewrite <- ?app_assoc; reflexivity.
Qed.

(** The structured path: the message is logged, the heart-rate rule
    runs, then the gait rule, whose [float()] may raise, then the step
    rule. *)
Lemma process_message_structured (pr : char -> bool) (m : str) (d : pydict)
      (w : World) :
  decodes_to m d ->
  process_message pr m w =
  (fst (structured_run pr d),
   w ++ processing_event m
     :: flat_map alert_events (snd (structured_run pr d))).
Proof.
  intros H.
  unfold process_message, bind at 1 2.
  unfold logger_info, emit at 1.
  rewrite try_parse_json_pure, H. cbn [fst is_not_None].
  unfold bind at 1. rewrite py_get_dict.
  unfold bind at 1. rewrite py_get_dict.
  unfold bind at 1. rewrite py_get_dict.
  unfold bind at 1. rewrite py_get_dict.
  unfold bind at 1. rewrite py_get_dict.
  unfold structured_run.
  set (hr := field d "hr"). set (gait := field d "gait_score").
  set (steps := field d "steps"). set (pid := field d "patient_id").
  set (ts := field d "ts").
  fold (hr_test hr). fold (steps_test steps).
  match goal with
  | |- _ = (_, w ++ ?p :: ?x) =>
    replace (w ++ p :: x) with ((w ++ [p]) ++ x)
      by (rewrite <- app_assoc; reflexivity)
  end.
  apply when_alert_then. clear w. intros w.
  assert (G : forall w0,
    (if isinstance_int_float gait
     then f <- py_float gait ;; ret (float_lt f lit_0_40)
     else ret false) w0
    = match gait_test gait with
      | Some low => (Return low, w0)
      | None => (Raise OverflowError, w0)
      end).
  { intros w0. destruct gait as [|b|n|f|s|l|dd]; cbn; try reflexivity.
    - destruct b; reflexivity.
    - unfold bind, py_float. destruct (float_of_int n); reflexivity. }
  unfold bind at 1. rewrite G.
  destruct (gait_test gait) as [low|];
    [|cbn [fst snd flat_map]; rewrite app_nil_r; reflexivity].
  apply when_alert_then. clear w. intros w.
  apply when_alert_then. clear w. intros w.
  cbn [fst snd flat_map ret]. unfold ret. rewrite app_nil_r. reflexivity.
Qed.

(** The decoder raises: the message is logged and the exception goes on
    to the caller. *)
Lemma process_message_undecoded (pr : char -> bool) (m : str) (e : PyExn)
      (w : World) :
  decoder_raises m e ->
  process_message pr m w = (Raise e, w ++ [processing_event m]).
Proof.
  intros H. unfold process_message, bind at 1 2.
  unfold logger_info, emit at 1.
  rewrite try_parse_json_pure, H. reflexivity.
Qed.

(** ** What a run prints *)

Lemma printed_app (a b : World) : printed (a ++ b) = printed a ++ printed b.
Proof.
  induction a as [|[t|l t] a IH]; simpl; [reflexivity | f_equal; exact IH | exact IH].
Qed.

Lemma alert_events_printed (l : list str) :
  printed (flat_map alert_events l) = l.
Proof. induction l as [|a l IH]; cbn; [|rewrite IH]; reflexivity. Qed.

Lemma alert_events_warned (l : list str) :
  warned (flat_map alert_events l) = l.
Proof. induction l as [|a l IH]; cbn; [|rewrite IH]; reflexivity. Qed.

(** Every run is the message logged, then alerts printed and logged one
    after the other, from whatever trace it starts. *)
Lemma process_message_shape (pr : char -> bool) (m : str) :
  exists r : Outcome unit * list str,
    forall w, process_message pr m w
              = (fst r, w ++ processing_event m
                          :: flat_map alert_events (snd r)).
Proof.
  destruct (try_parse_json_cases m) as [H|[[d H]|[(n & _ & H)|[b H]]]].
  - exists (plain_run m). intros w. apply process_message_plain, H.
  - exists (structured_run pr d). intros w.
    apply process_message_structured, H.
  - exists (Raise (ValueError n), []). intros w.
    apply process_message_undecoded, H.
  - exists (Raise (RecursionError b), []). intros w.
    apply process_message_undecoded, H.
Qed.

(** The emitted events do not depend on the trace the run starts from. *)
Lemma process_message_emits (pr : char -> bool) (m : str) (w : World) :
  process_message pr m w
  = (fst (run_message pr m), w ++ snd (run_message pr m)).
Proof.
  unfold run_message. destruct (process_message_shape pr m) as [r R].
  rewrite (R w), (R []). reflexivity.
Qed.

Lemma run_message_trace (pr : char -> bool) (m : str) :
  snd (run_message pr m)
  = processing_event m :: flat_map alert_events (alerts pr m).
Proof.
  unfold alerts, run_message. destruct (process_message_shape pr m) as [r R].
  rewrite (R []). cbn [snd app printed processing_event].
  rewrite alert_events_printed. reflexivity.
Qed.

(** Every alert goes to both channels: the warnings logged are the
    alerts printed. *)
Lemma warnings_are_the_alerts (pr : char -> bool) (m : str) :
  warned (snd (run_message pr m)) = alerts pr m.
Proof.
  rewrite run_message_trace. cbn [warned processing_event].
  apply alert_events_warned.
Qed.

Lemma run_plain (pr : char -> bool) (m : str) :
  plain_text m ->
  fst (run_message pr m) = fst (plain_run m)
  /\ alerts pr m = snd (plain_run m).
Proof.
  intros H. unfold alerts, run_message.
  rewrite (process_message_plain pr [] H).
  cbn [fst snd app printed processing_event].
  rewrite alert_events_printed. split; reflexivity.
Qed.

Lemma run_structured (pr : char -> bool) (m : str) (d : pydict) :
  decodes_to m d ->
  fst (run_message pr m) = fst (structured_run pr d)
  /\ alerts pr m = snd (structured_run pr d).
Proof.
  intros H. unfold alerts, run_message.
  rewrite (process_message_structured pr [] H).
  cbn [fst snd app printed processing_event].
  rewrite alert_events_printed. split; reflexivity.
Qed.

Lemma run_undecoded (pr : char -> bool) (m : str) (e : PyExn) :
  decoder_raises m e ->
  run_message pr m = (Raise e, [processing_event m])
  /\ alerts pr m = [].
Proof.
  intros H. unfold alerts, run_message.
  rewrite (process_message_undecoded pr [] H). split; reflexivity.
Qed.

Lemma has_surrogate_app (a b : str) :
  has_surrogate (a ++ b) = has_surrogate a || has_surrogate b.
Proof. apply existsb_app. Qed.

(** The special alert can be printed exactly when the message can. *)
Lemma special_alert_surrogate (m : str) :
  has_surrogate (special_alert m) = has_surrogate m.
Proof. unfold special_alert. rewrite !has_surrogate_app. reflexivity. Qed.

Lemma alerts_plain (pr : char -> bool) (m : str) :
  plain_text m ->
  alerts pr m = if contains special m && negb (has_surrogate m)
                then [special_alert m] else [].
Proof.
  intros H. rewrite (proj2 (run_plain pr H)). unfold plain_run, say.
  rewrite special_alert_surrogate.
  destruct (contains special m), (has_surrogate m); reflexivity.
Qed.

Ltac rules d pr :=
  unfold structured_run, say;
  destruct (hr_test (field d "hr"));
  [destruct (has_surrogate (tachycardia_alert pr (field d "patient_id")
                              (field d "hr") (field d "ts")))|];
  (destruct (gait_test (field d "gait_score")) as [[|]|];
   [destruct (has_surrogate (low_gait_alert pr (field d "patient_id")
                               (field d "gait_score") (field d "ts")))| |]);
  (destruct (steps_test (field d "steps"));
   [destruct (has_surrogate (step_surge_alert pr (field d "patient_id")
                               (field d "steps") (field d "ts")))|]);
  cbn [fst snd app].

(** A structured run that returns normally has evaluated the three rules
    and printed the alert of each one that holds, in the order of the
    source. *)
Lemma structured_run_returns (pr : char -> bool) (d : pydict) :
  fst (structured_run pr d) = Return tt ->
  exists low,
    gait_test (field d "gait_score") = Some low
    /\ snd (structured_run pr d)
       = (if hr_test (field d "hr")
          then [tachycardia_alert pr (field d "patient_id") (field d "hr")
                                  (field d "ts")]
          else [])
         ++ (if low
             then [low_gait_alert pr (field d "patient_id")
                                  (field d "gait_score") (field d "ts")]
             else [])
         ++ (if steps_test (field d "steps")
             then [step_surge_alert pr (field d "patient_id")
                                    (field d "steps") (field d "ts")]
             else []).
Proof.
  rules d pr; intros R; try discriminate; eexists; split; reflexivity.
Qed.

(** Whatever its outcome, a structured run prints at most one alert of
    each rule, in the order of the source, and only of rules that hold. *)
Lemma structured_run_alerts (pr : char -> bool) (d : pydict) :
  exists t l s,
    snd (structured_run pr d) = t ++ l ++ s
    /\ (t = []
        \/ t = [tachycardia_alert pr (field d "patient_id") (field d "hr")
                                  (field d "ts")]
           /\ hr_test (field d "hr") = true)
    /\ (l = []
        \/ l = [low_gait_alert pr (field d "patient_id")
                               (field d "gait_score") (field d "ts")]
           /\ gait_test (field d "gait_score") = Some true)
    /\ (s = []
        \/ s = [step_surge_alert pr (field d "patient_id") (field d "steps")
                                 (field d "ts")]
           /\ steps_test (field d "steps") = true
           /\ gait_test (field d "gait_score") <> None).
Proof.
  destruct (hr_test (field d "hr")) eqn:T;
    destruct (gait_test (field d "gait_score")) as [[|]|] eqn:G;
    destruct (steps_test (field d "steps")) eqn:S;
    unfold structured_run, say; rewrite ?T, ?G, ?S;
    destruct (has_surrogate (tachycardia_alert pr (field d "patient_id")
                               (field d "hr") (field d "ts")));
    destruct (has_surrogate (low_gait_alert pr (field d "patient_id")
                               (field d "gait_score") (field d "ts")));
    destruct (has_surrogate (step_surge_alert pr (field d "patient_id")
                               (field d "steps") (field d "ts")));
    cbn [fst snd];
    match goal with
    | |- exists t l s, [] = _ /\ _ => exists [], [], []
    | |- exists t l s, [?a] = _ /\ _ =>
      first [ exists [a], [], []; split; [reflexivity|];
              split; [right; split; reflexivity|]; split; left; reflexivity
            | exists [], [a], []; split; [reflexivity|];
              split; [left; reflexivity|];
              split; [right; split; reflexivity|]; left; reflexivity
            | exists [], [], [a]; split; [reflexivity|];
              split; [left; reflexivity|]; split; [left; reflexivity|];
              right; repeat split; try reflexivity; discriminate ]
    | |- exists t l s, [?a; ?b] = _ /\ _ =>
      first [ exists [a], [b], []; split; [reflexivity|];
              split; [right; split; reflexivity|];
              split; [right; split; reflexivity|]; left; reflexivity
            | exists [a], [], [b]; split; [reflexivity|];
              split; [right; split; reflexivity|];
              split; [left; reflexivity|];
              right; repeat split; try reflexivity; discriminate
            | exists [], [a], [b]; split; [reflexivity|];
              split; [left; reflexivity|];
              split; [right; split; reflexivity|];
              right; repeat split; try reflexivity; discriminate ]
    | |- exists t l s, [?a; ?b; ?c] = _ /\ _ =>
      exists [a], [b], [c]; split; [reflexivity|];
      split; [right; split; reflexivity|];
      split; [right; split; reflexivity|];
      right; repeat split; try reflexivity; discriminate
    end;
    repeat split; left; reflexivity.
Qed.

(** How a structured run ends: normally, with the [OverflowError] of
    [float(gait)], or with the [UnicodeEncodeError] of [print] on an alert
    that holds a surrogate. *)
Lemma structured_run_outcome (pr : char -> bool) (d : pydict) :
  fst (structured_run pr d) = Return tt
  \/ (fst (structured_run pr d) = Raise OverflowError
      /\ gait_test (field d "gait_score") = None)
  \/ (exists a, fst (structured_run pr d) = Raise (UnicodeEncodeError a)
                /\ has_surrogate a = true).
Proof.
  unfold structured_run, say.
  destruct (hr_test (field d "hr"));
    [destruct (has_surrogate (tachycardia_alert pr (field d "patient_id")
                                (field d "hr") (field d "ts"))) eqn:HT|];
    (destruct (gait_test (field d "gait_score")) as [[|]|];
     [destruct (has_surrogate (low_gait_alert pr (field d "patient_id")
                                 (field d "gait_score") (field d "ts")))
        eqn:HL| |]);
    (destruct (steps_test (field d "steps"));
     [destruct (has_surrogate (step_surge_alert pr (field d "patient_id")
                                 (field d "steps") (field d "ts")))
        eqn:HS|]);
    cbn [fst snd]; auto;
    right; right; eexists; split; try reflexivity; assumption.
Qed.

(** The kinds of alert exclude one another. *)
Lemma kinds_of_tachycardia pr pid hr ts :
  is_tachycardia (tachycardia_alert pr pid hr ts) = true
  /\ is_low_gait (tachycardia_alert pr pid hr ts) = false
  /\ is_step_surge (tachycardia_alert pr pid hr ts) = false
  /\ is_special (tachycardia_alert pr pid hr ts) = false.
Proof. repeat split; reflexivity. Qed.

Lemma kinds_of_low_gait pr pid g ts :
  is_tachycardia (low_gait_alert pr pid g ts) = false
  /\ is_low_gait (low_gait_alert pr pid g ts) = true
  /\ is_step_surge (low_gait_alert pr pid g ts) = false
  /\ is_special (low_gait_alert pr pid g ts) = false.
Proof. repeat split; reflexivity. Qed.

Lemma kinds_of_step_surge pr pid st ts :
  is_tachycardia (step_surge_alert pr pid st ts) = false
  /\ is_low_gait (step_surge_alert pr pid st ts) = false
  /\ is_step_surge (step_surge_alert pr pid st ts) = true
  /\ is_special (step_surge_alert pr pid st ts) = false.
Proof. repeat split; reflexivity. Qed.

(** Which rules trigger on a decoded message whose run returns normally:
    those whose condition holds. *)
Lemma triggered_returns (pr : char -> bool) (m : str) (d : pydict) :
  decodes_to m d ->
  fst (run_message pr m) = Return tt ->
  exists low,
    gait_test (field d "gait_score") = Some low
    /\ triggered is_tachycardia pr m = hr_test (field d "hr")
    /\ triggered is_low_gait pr m = low
    /\ triggered is_step_surge pr m = steps_test (field d "steps")
    /\ triggered is_special pr m = false.
Proof.
  intros H R. destruct (run_structured pr H) as [O A].
  rewrite O in R. destruct (structured_run_returns pr d R) as (low & G & E).
  exists low. split; [exact G|].
  unfold triggered. rewrite A, E.
  destruct (kinds_of_tachycardia pr (field d "patient_id") (field d "hr")
              (field d "ts")) as (T1 & T2 & T3 & T4).
  destruct (kinds_of_low_gait pr (field d "patient_id")
              (field d "gait_score") (field d "ts")) as (L1 & L2 & L3 & L4).
  destruct (kinds_of_step_surge pr (field d "patient_id") (field d "steps")
              (field d "ts")) as (S1 & S2 & S3 & S4).
  destruct (hr_test (field d "hr")); destruct low;
    destruct (steps_test (field d "steps"));
    cbn [app existsb];
    rewrite ?T1, ?T2, ?T3, ?T4, ?L1, ?L2, ?L3, ?L4, ?S1, ?S2, ?S3, ?S4;
    repeat split; reflexivity.
Qed.

(** Whatever the outcome, a rule that triggers on a decoded message is
    one whose condition holds, and the special alert is never given. *)
Lemma triggered_sound (pr : char -> bool) (m : str) (d : pydict) :
  decodes_to m d ->
  (triggered is_tachycardia pr m = true -> hr_test (field d "hr") = true)
  /\ (triggered is_low_gait pr m = true ->
      gait_test (field d "gait_score") = Some true)
  /\ (triggered is_step_surge pr m = true ->
      steps_test (field d "steps") = true
      /\ gait_test (field d "gait_score") <> None)
  /\ triggered is_special pr m = false.
Proof.
  intros H. destruct (run_structured pr H) as [_ A].
  unfold triggered. rewrite A.
  destruct (structured_run_alerts pr d) as (t & l & s & -> & Ht & Hl & Hs).
  destruct (kinds_of_tachycardia pr (field d "patient_id") (field d "hr")
              (field d "ts")) as (T1 & T2 & T3 & T4).
  destruct (kinds_of_low_gait pr (field d "patient_id")
              (field d "gait_score") (field d "ts")) as (L1 & L2 & L3 & L4).
  destruct (kinds_of_step_surge pr (field d "patient_id") (field d "steps")
              (field d "ts")) as (S1 & S2 & S3 & S4).
  destruct Ht as [->|[-> Ht]]; destruct Hl as [->|[-> Hl]];
    destruct Hs as [->|[-> [Hs Hg]]];
    cbn [app existsb];
    rewrite ?T1, ?T2, ?T3, ?T4, ?L1, ?L2, ?L3, ?L4, ?S1, ?S2, ?S3, ?S4;
    cbn [orb]; repeat split; try discriminate; auto.
Qed.

(** ** The threshold rules *)

Lemma hr_test_not_int (v : PyValue) :
  (forall n, v <> PyInt n) -> hr_test v = false.
Proof.
  intros H. destruct v as [|b|n|f|s|l|dd]; try reflexivity.
  - destruct b; reflexivity.
  - exfalso. apply (H n). reflexivity.
Qed.

Lemma steps_test_not_int (v : PyValue) :
  (forall n, v <> PyInt n) -> steps_test v = false.
Proof.
  intros H. destruct v as [|b|n|f|s|l|dd]; try reflexivity.
  - destruct b; reflexivity.
  - exfalso. apply (H n). reflexivity.
Qed.

Lemma not_true_false (b : bool) : (b = true -> False) -> b = false.
Proof. destruct b; [intros H; exfalso; apply H; reflexivity | reflexivity]. Qed.

(** C1, as amended: for a message that decodes as a JSON object, a value
    of [hr] or [steps] that is not an integer (a string, null, an array,
    an object, a real, a boolean) never triggers its rule; a [gait_score]
    that is neither a number nor a boolean never triggers, nor does the
    boolean true; [gait_score] accepts integers and reals alike, and the
    boolean false as well: when the evaluation returns normally, a real
    triggers exactly when it is below 0.40, an integer exactly when it is
    at most 0, and the boolean false triggers. *)
Theorem threshold_type_checks (pr : char -> bool) (message : str)
        (d : pydict) :
  decodes_to message d ->
  let hr := field d "hr" in
  let gait := field d "gait_score" in
  let steps := field d "steps" in
  ((forall n, hr <> PyInt n) -> triggered is_tachycardia pr message = false)
  /\ ((forall n, steps <> PyInt n) ->
      triggered is_step_surge pr message = false)
  /\ ((forall n, gait <> PyInt n) -> (forall f, gait <> PyFloat f) ->
      gait <> PyBool false ->
      triggered is_low_gait pr message = false)
  /\ (fst (run_message pr message) = Return tt ->
      (forall f, gait = PyFloat f ->
                 triggered is_low_gait pr message = float_lt f lit_0_40)
      /\ (forall n, gait = PyInt n ->
                    triggered is_low_gait pr message = (n <=? 0)%Z)
      /\ (gait = PyBool false -> triggered is_low_gait pr message = true)).
Proof.
  intros H hr gait steps.
  destruct (triggered_sound pr H) as (T & L & S & _).
  fold hr in T. fold gait in L, S. fold steps in S.
  split; [|split; [|split]].
  - intros Hn. apply not_true_false. intros E. apply T in E.
    rewrite (hr_test_not_int Hn) in E. discriminate.
  - intros Hn. apply not_true_false. intros E. apply S in E.
    destruct E as [E _]. rewrite (steps_test_not_int Hn) in E. discriminate.
  - intros Hi Hf Hb. apply not_true_false. intros E. apply L in E.
    destruct gait as [|b|n|f|s|l|dd]; try discriminate.
    + destruct b; [discriminate | apply Hb; reflexivity].
    + apply (Hi n). reflexivity.
    + apply (Hf f). reflexivity.
  - intros R.
    destruct (triggered_returns pr H R) as (low & G & _ & E & _).
    fold gait in G. rewrite E. clear E.
    split; [|split].
    + intros f F. rewrite F in G. cbn [gait_test] in G.
      injection G as <-. reflexivity.
    + intros n F. rewrite F in G. cbn [gait_test] in G.
      destruct (float_of_int n) as [f|] eqn:C; [|discriminate].
      injection G as <-. apply float_of_int_below_0_40, C.
    + intros F. rewrite F in G. cbn [gait_test] in G.
      injection G as <-. reflexivity.
Qed.

(** The heart-rate rule away from the failure of [print]: on a message
    that decodes as a JSON object whose [hr] is an integer above 120 the
    tachycardia alert, with its text filled in from the event, is the first
    alert printed and the only one of its kind, when its text can be
    encoded; when it cannot, the run ends there with [UnicodeEncodeError]
    and nothing printed. *)
Lemma tachycardia_rule (pr : char -> bool) (message : str) (d : pydict) :
  decodes_to message d ->
  isinstance_int (field d "hr") = true ->
  (120 < int_value (field d "hr"))%Z ->
  let T := u "ALERT Tachycardia: patient=" ++ fmt pr (field d "patient_id")
             ++ u " hr=" ++ fmt pr (field d "hr")
             ++ u " ts=" ++ fmt pr (field d "ts") in
  (has_surrogate T = false ->
   exists rest, alerts pr message = T :: rest
                /\ existsb is_tachycardia rest = false)
  /\ (has_surrogate T = true ->
      run_message pr message
      = (Raise (UnicodeEncodeError T), [processing_event message])).
Proof.
  intros H Hi Hv T.
  assert (HT : hr_test (field d "hr") = true).
  { unfold hr_test. rewrite Hi. apply Z.ltb_lt in Hv. rewrite Hv. reflexivity. }
  destruct (run_structured pr H) as [O A].
  pose proof (run_message_trace pr message) as Tr.
  change (tachycardia_alert pr (field d "patient_id") (field d "hr")
            (field d "ts")) with T in *.
  split; intros HS.
  - rewrite A. unfold structured_run, say. rewrite HT.
    change (tachycardia_alert pr (field d "patient_id") (field d "hr")
              (field d "ts")) with T.
    rewrite HS. cbn [snd]. eexists. split; [reflexivity|].
    destruct (kinds_of_low_gait pr (field d "patient_id")
                (field d "gait_score") (field d "ts")) as (L1 & _).
    destruct (kinds_of_step_surge pr (field d "patient_id") (field d "steps")
                (field d "ts")) as (S1 & _).
    destruct (gait_test (field d "gait_score")) as [[|]|];
      [destruct (has_surrogate (low_gait_alert pr (field d "patient_id")
                                  (field d "gait_score") (field d "ts")))| |];
      (destruct (steps_test (field d "steps"));
       [destruct (has_surrogate (step_surge_alert pr (field d "patient_id")
                                   (field d "steps") (field d "ts")))|]);
      cbn [fst snd existsb]; rewrite ?L1, ?S1; reflexivity.
  - rewrite (surjective_pairing (run_message pr message)), Tr, A, O.
    unfold structured_run, say. rewrite HT.
    change (tachycardia_alert pr (field d "patient_id") (field d "hr")
              (field d "ts")) with T.
    rewrite HS. reflexivity.
Qed.

(** The gait rule away from the failures of [float()] and [print]: when
    the run returns normally the alert is printed exactly when the float
    of [gait_score] is below 0.40. *)
Lemma low_gait_rule (pr : char -> bool) (message : str) (d : pydict) :
  decodes_to message d ->
  fst (run_message pr message) = Return tt ->
  exists low,
    gait_test (field d "gait_score") = Some low
    /\ triggered is_low_gait pr message = low
    /\ (low = true ->
        In (u "ALERT Low gait_score: patient="
              ++ fmt pr (field d "patient_id")
              ++ u " gait_score=" ++ fmt pr (field d "gait_score")
              ++ u " ts=" ++ fmt pr (field d "ts"))
           (alerts pr message)).
Proof.
  intros H R.
  destruct (triggered_returns pr H R) as (low & G & _ & L & _).
  exists low. split; [exact G|]. split; [exact L|].
  intros ->. destruct (run_structured pr H) as [O A].
  rewrite O in R. destruct (structured_run_returns pr d R) as (low & G' & E).
  rewrite G in G'. injection G' as <-. rewrite A, E.
  apply in_or_app. right. left. reflexivity.
Qed.

(** The three rules away from the failures of [float()] and [print]:
    when the run returns normally, each rule whose condition holds has
    printed its alert, in the order of the source. *)
Lemma rules_are_independent (pr : char -> bool) (message : str) (d : pydict) :
  decodes_to message d ->
  fst (run_message pr message) = Return tt ->
  exists low,
    gait_test (field d "gait_score") = Some low
    /\ alerts pr message
       = (if hr_test (field d "hr")
          then [tachycardia_alert pr (field d "patient_id") (field d "hr")
                                  (field d "ts")]
          else [])
         ++ (if low
             then [low_gait_alert pr (field d "patient_id")
                                  (field d "gait_score") (field d "ts")]
             else [])
         ++ (if steps_test (field d "steps")
             then [step_surge_alert pr (field d "patient_id")
                                    (field d "steps") (field d "ts")]
             else []).
Proof.
  intros H R. destruct (run_structured pr H) as [O A].
  rewrite O in R. rewrite A. apply structured_run_returns, R.
Qed.

(** ** Format detection and the plain-text path *)

Lemma unbracketed_is_plain_text (m : str) :
  bracketed (strip m) = false -> plain_text m.
Proof.
  intros B. unfold plain_text. rewrite try_parse_json_eq, B. reflexivity.
Qed.

(** Bracket-shaped text on which the decoder raises [JSONDecodeError] is
    handled as plain text. *)
Lemma malformed_json_is_plain_text (m : str) :
  bracketed (strip m) = true ->
  json_loads (strip m) = JSONDecodeError ->
  plain_text m.
Proof.
  intros B E. unfold plain_text. rewrite try_parse_json_eq, B, E. reflexivity.
Qed.

(** Format detection: the decoder is consulted exactly when the trimmed
    text starts with an opening brace and ends with a closing brace; any
    other text takes the plain-text path, and so does a text of that shape
    on which the decoder raises [JSONDecodeError]; a text of that shape
    that decodes gives a dict, so the structured path is taken; the other
    two exceptions of the decoder are not caught. *)
Lemma format_detection (message : str) :
  let s := strip message in
  (bracketed s = false -> plain_text message)
  /\ (bracketed s = true -> json_loads s = JSONDecodeError ->
      plain_text message)
  /\ (forall v, bracketed s = true -> json_loads s = Decoded v ->
      exists d, v = PyDict d /\ decodes_to message d)
  /\ (forall n, bracketed s = true -> json_loads s = IntTooLong n ->
      decoder_raises message (ValueError n))
  /\ (forall b, bracketed s = true -> json_loads s = TooDeep b ->
      decoder_raises message (RecursionError b)).
Proof.
  intros s. split; [apply unbracketed_is_plain_text|].
  split; [apply malformed_json_is_plain_text|].
  unfold decodes_to, decoder_raises. rewrite try_parse_json_eq. fold s.
  repeat split.
  - intros v B E.
    pose proof B as B'. apply andb_prop in B'. destruct B' as [B' _].
    destruct (json_loads_object _ B' E) as [d ->].
    exists d. split; [reflexivity|]. rewrite B, E. reflexivity.
  - intros n B E. rewrite B, E. reflexivity.
  - intros b B E. rewrite B, E. reflexivity.
Qed.

(** The special rule away from the failure of [print]: on the plain-text
    path a message that contains the special text and can be encoded gives
    exactly the special alert, a message without the special text gives no
    alert; a message that decodes as a JSON object never gives the special
    alert. *)
Lemma special_message_rule (pr : char -> bool) (message : str) :
  (plain_text message -> contains special message = true ->
   has_surrogate message = false ->
   run_message pr message
   = (Return tt,
      processing_event message
      :: alert_events (u "ALERT: The special message was found!"
                         ++ [c_lf] ++ message)))
  /\ (plain_text message -> contains special message = true ->
      has_surrogate message = true ->
      run_message pr message
      = (Raise (UnicodeEncodeError (special_alert message)),
         [processing_event message]))
  /\ (plain_text message -> contains special message = false ->
      run_message pr message = (Return tt, [processing_event message]))
  /\ (forall d, decodes_to message d ->
      triggered is_special pr message = false).
Proof.
  split; [|split; [|split]].
  - intros H C S. unfold run_message. rewrite (process_message_plain pr [] H).
    unfold plain_run, say. rewrite C, special_alert_surrogate, S. reflexivity.
  - intros H C S. unfold run_message. rewrite (process_message_plain pr [] H).
    unfold plain_run, say. rewrite C, special_alert_surrogate, S. reflexivity.
  - intros H C. unfold run_message. rewrite (process_message_plain pr [] H).
    unfold plain_run, say. rewrite C. reflexivity.
  - intros d H. apply (triggered_sound pr H).
Qed.

(** ** No state between runs *)

(** C8: what a run emits and how it ends depend on the message alone, not
    on the trace before it, so two runs on the same message emit the same
    events; run twice in a row, the evaluator emits them twice (the second
    run does not happen when the first one raises). *)
Theorem evaluator_is_stateless (pr : char -> bool) (message : str)
        (w1 w2 : World) :
  let outcome := fst (run_message pr message) in
  let out := snd (run_message pr message) in
  process_message pr message w1 = (outcome, w1 ++ out)
  /\ process_message pr message w2 = (outcome, w2 ++ out)
  /\ process_twice pr message w1
     = match outcome with
       | Return _ => (outcome, w1 ++ out ++ out)
       | Raise e => (Raise e, w1 ++ out)
       end
  /\ printed (snd (process_twice pr (u "I just loved a movie! It was funny.") []))
     = [special_alert (u "I just loved a movie! It was funny.");
        special_alert (u "I just loved a movie! It was funny.")].
Proof.
  intros outcome out.
  split; [apply process_message_emits|].
  split; [apply process_message_emits|].
  split; [|vm_compute; reflexivity].
  unfold process_twice, bind.
  rewrite (process_message_emits pr message w1). fold outcome out.
  destruct outcome as [[]|e] eqn:E; [|reflexivity].
  rewrite (process_message_emits pr message (w1 ++ out)).
  fold outcome out. rewrite E, <- app_assoc. reflexivity.
Qed.

(** * Further properties of the evaluator *)

Lemma logged_at_app (lvl : Level) (a b : World) :
  logged_at lvl (a ++ b) = logged_at lvl a ++ logged_at lvl b.
Proof.
  induction a as [|[t|l t] a IH]; cbn [app logged_at]; [reflexivity|exact IH|].
  destruct lvl, l; cbn [app]; rewrite IH; reflexivity.
Qed.

Lemma alert_events_logged (lvl : Level) (l : list str) :
  logged_at lvl (flat_map alert_events l)
  = match lvl with WARNING => l | _ => [] end.
Proof.
  induction l as [|a l IH]; [destruct lvl; reflexivity|].
  destruct lvl; cbn in *; rewrite IH; reflexivity.
Qed.


(** X1: the trace of a run is the message logged once at INFO, then, for
    each alert printed and in the same order, the alert on standard
    output followed at once by the same text logged at WARNING; nothing
    else is written. *)
Theorem run_trace_shape (pr : char -> bool) (message : str) :
  snd (run_message pr message)
  = processing_event message :: flat_map alert_events (alerts pr message).
Proof. apply run_message_trace. Qed.

(** X2: a message gives at most three alerts.  On the plain-text path
    they are the special alert alone, or nothing.  On the structured path
    they are at most one of each rule, each with the text of its rule
    filled in from the object, the tachycardia alert first, the low-gait
    alert second, the step-surge alert last, and never the special alert.
    When the decoder raises there is none. *)
Theorem alerts_bounded_and_ordered (pr : char -> bool) (message : str) :
  List.length (alerts pr message) <= 3
  /\ (plain_text message ->
      alerts pr message = [] \/ alerts pr message = [special_alert message])
  /\ (forall d, decodes_to message d ->
      triggered is_special pr message = false
      /\ exists t l s,
          alerts pr message = t ++ l ++ s
          /\ (t = []
              \/ t = [tachycardia_alert pr (field d "patient_id")
                                        (field d "hr") (field d "ts")])
          /\ (l = []
              \/ l = [low_gait_alert pr (field d "patient_id")
                                     (field d "gait_score") (field d "ts")])
          /\ (s = []
              \/ s = [step_surge_alert pr (field d "patient_id")
                                       (field d "steps") (field d "ts")]))
  /\ (forall e, decoder_raises message e -> alerts pr message = []).
Proof.
  assert (P : plain_text message ->
              alerts pr message = []
              \/ alerts pr message = [special_alert message]).
  { intros H. rewrite (alerts_plain pr H).
    destruct (contains special message && negb (has_surrogate message));
      auto. }
  assert (S : forall d, decodes_to message d ->
              exists t l s,
                alerts pr message = t ++ l ++ s
                /\ (t = []
                    \/ t = [tachycardia_alert pr (field d "patient_id")
                                              (field d "hr") (field d "ts")])
                /\ (l = []
                    \/ l = [low_gait_alert pr (field d "patient_id")
                                           (field d "gait_score")
                                           (field d "ts")])
                /\ (s = []
                    \/ s = [step_surge_alert pr (field d "patient_id")
                                             (field d "steps")
                                             (field d "ts")])).
  { intros d H. rewrite (proj2 (run_structured pr H)).
    destruct (structured_run_alerts pr d) as (t & l & s & E & Ht & Hl & Hs).
    exists t, l, s. split; [exact E|].
    split; [destruct Ht as [Ht|[Ht _]]; auto|].
    split; [destruct Hl as [Hl|[Hl _]]; auto|].
    destruct Hs as [Hs|[Hs _]]; auto. }
  split; [|split; [exact P|split]].
  - destruct (try_parse_json_cases message)
      as [H|[[d H]|[(n & _ & H)|[b H]]]].
    + destruct (P H) as [-> | ->]; cbn [List.length]; lia.
    + destruct (S d H) as (t & l & s & -> & Ht & Hl & Hs).
      destruct Ht as [-> | ->]; destruct Hl as [-> | ->];
        destruct Hs as [-> | ->]; cbn [app List.length]; lia.
    + rewrite (proj2 (run_undecoded pr H)). cbn [List.length]. lia.
    + rewrite (proj2 (run_undecoded pr H)). cbn [List.length]. lia.
  - intros d H. split; [apply (triggered_sound pr H) | apply S, H].
  - intros e H. apply (run_undecoded pr H).
Qed.

Lemma hr_test_spec (v : PyValue) :
  hr_test v = true <-> exists n, v = PyInt n /\ (120 < n)%Z.
Proof.
  split.
  - destruct v as [|b|n|f|s|l|dd]; try discriminate.
    + destruct b; discriminate.
    + unfold hr_test. cbn. intros H. exists n. split; [reflexivity|].
      apply Z.ltb_lt. exact H.
  - intros (n & -> & H). unfold hr_test. cbn. apply Z.ltb_lt. exact H.
Qed.

Lemma steps_test_spec (v : PyValue) :
  steps_test v = true <-> exists n, v = PyInt n /\ (12 < n)%Z.
Proof.
  split.
  - destruct v as [|b|n|f|s|l|dd]; try discriminate.
    + destruct b; discriminate.
    + unfold steps_test. cbn. intros H. exists n. split; [reflexivity|].
      apply Z.ltb_lt. exact H.
  - intros (n & -> & H). unfold steps_test. cbn. apply Z.ltb_lt. exact H.
Qed.

Lemma gait_test_raises (v : PyValue) :
  gait_test v = None <-> exists n, v = PyInt n /\ float_of_int n = None.
Proof.
  split.
  - destruct v as [|b|n|f|s|l|dd]; try discriminate. cbn [gait_test].
    destruct (float_of_int n) eqn:F; [discriminate|]. eauto.
  - intros (n & -> & F). cbn [gait_test]. rewrite F. reflexivity.
Qed.

(** How the heart-rate rule ends on a decoded message: it is the first
    step that can fail. *)
Lemma triggered_tachycardia (pr : char -> bool) (m : str) (d : pydict) :
  decodes_to m d ->
  triggered is_tachycardia pr m
  = hr_test (field d "hr")
    && negb (has_surrogate (tachycardia_alert pr (field d "patient_id")
                              (field d "hr") (field d "ts"))).
Proof.
  intros H. unfold triggered. rewrite (proj2 (run_structured pr H)).
  destruct (kinds_of_tachycardia pr (field d "patient_id") (field d "hr")
              (field d "ts")) as (T1 & _).
  destruct (kinds_of_low_gait pr (field d "patient_id")
              (field d "gait_score") (field d "ts")) as (L1 & _).
  destruct (kinds_of_step_surge pr (field d "patient_id") (field d "steps")
              (field d "ts")) as (S1 & _).
  rules d pr; cbn [existsb andb negb]; rewrite ?T1, ?L1, ?S1; reflexivity.
Qed.

(** X3: on a message that decodes as an object, the tachycardia rule
    triggers exactly when [hr] is an integer above 120 and the text of the
    alert can be encoded for standard output: 120 itself, a smaller
    integer, a boolean, a real or any other value does not trigger, and a
    surrogate in the text makes [print] raise instead. *)
Theorem tachycardia_boundary (pr : char -> bool) (message : str)
        (d : pydict) :
  decodes_to message d ->
  (triggered is_tachycardia pr message = true
   <-> (exists n, field d "hr" = PyInt n /\ (120 < n)%Z)
       /\ has_surrogate (tachycardia_alert pr (field d "patient_id")
                           (field d "hr") (field d "ts")) = false).
Proof.
  intros H. rewrite (triggered_tachycardia pr H), andb_true_iff,
    negb_true_iff, hr_test_spec. reflexivity.
Qed.

(** X4: on a message that decodes as an object, the step rule triggers
    only when [steps] is an integer above 12 and the gait rule before it
    did not raise, that is, [gait_score] is not an integer that [float()]
    cannot convert; and when the run returns normally it triggers exactly
    when [steps] is an integer above 12. *)
Theorem step_surge_boundary (pr : char -> bool) (message : str)
        (d : pydict) :
  decodes_to message d ->
  (triggered is_step_surge pr message = true ->
   (exists n, field d "steps" = PyInt n /\ (12 < n)%Z)
   /\ (forall g, field d "gait_score" = PyInt g -> float_of_int g <> None))
  /\ (fst (run_message pr message) = Return tt ->
      (triggered is_step_surge pr message = true
       <-> exists n, field d "steps" = PyInt n /\ (12 < n)%Z)).
Proof.
  intros H. split.
  - intros T. apply (triggered_sound pr H) in T. destruct T as [T G].
    split; [apply steps_test_spec, T|].
    intros g E F. apply G. apply gait_test_raises. eauto.
  - intros R. destruct (triggered_returns pr H R) as (low & _ & _ & _ & S & _).
    rewrite S. apply steps_test_spec.
Qed.

(** X5: the values of [gait_score] that are reals but not finite non-zero
    numbers: a NaN never triggers the gait rule and neither does plus
    infinity; when the run returns normally, minus infinity triggers it,
    and so does a zero of either sign. *)
Theorem gait_rule_on_special_floats (pr : char -> bool) (message : str)
        (d : pydict) :
  decodes_to message d ->
  (field d "gait_score" = PyFloat S754_nan ->
   triggered is_low_gait pr message = false)
  /\ (field d "gait_score" = PyFloat (S754_infinity false) ->
      triggered is_low_gait pr message = false)
  /\ (fst (run_message pr message) = Return tt ->
      (field d "gait_score" = PyFloat (S754_infinity true) ->
       triggered is_low_gait pr message = true)
      /\ (forall s, field d "gait_score" = PyFloat (S754_zero s) ->
          triggered is_low_gait pr message = true)).
Proof.
  intros H. destruct (triggered_sound pr H) as (_ & L & _).
  split; [|split].
  - intros E. apply not_true_false. intros T. apply L in T.
    rewrite E in T. discriminate.
  - intros E. apply not_true_false. intros T. apply L in T.
    rewrite E in T. discriminate.
  - intros R. destruct (triggered_returns pr H R) as (low & G & _ & T & _).
    rewrite T. split.
    + intros E. rewrite E in G. injection G as <-. reflexivity.
    + intros s E. rewrite E in G. injection G as <-. reflexivity.
Qed.

(** ** Which integers make the evaluator raise *)

(** The exponent of a rounded positive mantissa, when the result is
    finite, lies between the shifted exponent and the largest one. *)
Lemma binary_round_aux_exponent (sx : bool) (m e : Z) (l : location) :
  (0 < m)%Z -> (-1000 <= e)%Z ->
  binary_round_aux prec emax sx m e l = S754_infinity sx
  \/ exists m' e', binary_round_aux prec emax sx m e l = S754_finite sx m' e'
                   /\ (e + Z.max 0 (Zdigits2 m - 53) <= e' <= emax - prec)%Z.
Proof.
  intros Hm He. unfold binary_round_aux.
  destruct (shr_fexp_positive l Hm He) as [P1 _].
  destruct (shr_fexp_exact l Hm He) as [E1 _].
  destruct (shr_fexp prec emax m e l) as [mrs' e'] eqn:S1.
  cbn [fst snd] in P1, E1.
  pose proof (round_nearest_even_positive (loc_of_shr_record mrs') P1) as P2.
  assert (He' : (-1000 <= e')%Z) by lia.
  destruct (shr_fexp_positive loc_Exact P2 He') as [P3 E3].
  destruct (shr_fexp prec emax
              (round_nearest_even (shr_m mrs') (loc_of_shr_record mrs'))
              e' loc_Exact) as [mrs'' e''] eqn:S2.
  cbn [fst snd] in P3, E3.
  destruct (shr_m mrs'') as [|q|q]; try lia.
  destruct (Z.leb_spec e'' (emax - prec)); [right | left; reflexivity].
  exists q, e''. split; [reflexivity | lia].
Qed.

(** [float(n)] overflows for every integer of absolute value [2^1024] or
    more. *)
Lemma float_of_int_overflow (n : Z) :
  (2 ^ 1024 <= Z.abs n)%Z -> float_of_int n = None.
Proof.
  intros H. unfold float_of_int, binary_normalize.
  assert (G : forall sx p, (2 ^ 1024 <= Zpos p)%Z ->
                           binary_round prec emax sx p 0 = S754_infinity sx).
  { intros sx p Hp. unfold binary_round.
    assert (HD : (1025 <= Zpos (digits2_pos p))%Z).
    { change (Zpos (digits2_pos p)) with (Zdigits2 (Zpos p)).
      rewrite Zdigits2_log2 by lia.
      assert (1024 <= Z.log2 (Zpos p))%Z; [|lia].
      apply Z.log2_le_pow2; lia. }
    assert (F : fexp prec emax (Zpos (digits2_pos p) + 0)
                = (Zpos (digits2_pos p) - 53)%Z).
    { unfold fexp, emin, prec, emax. lia. }
    rewrite F. unfold shl_align.
    destruct (Zpos (digits2_pos p) - 53 - 0)%Z as [|q|q] eqn:K; try lia.
    destruct (@binary_round_aux_exponent sx (Zpos p) 0 loc_Exact)
      as [E|(m' & e' & _ & L)]; try lia; [exact E|].
    exfalso. cbn [Zdigits2] in L. unfold emax, prec in L. lia. }
  destruct n as [|p|p].
  - exfalso. cbn in H. lia.
  - rewrite (G false p H). reflexivity.
  - rewrite (G true p H). reflexivity.
Qed.

(** X6: the ways a run of the evaluator ends.  It returns normally, or
    it raises one of four exceptions: the [OverflowError] of
    [float(gait)], on a message that decodes as an object whose
    [gait_score] is an integer of absolute value [2^1023] or more; the
    [UnicodeEncodeError] of [print], on an alert that holds a surrogate;
    the [ValueError] of the decoder, on an integer literal of more than
    4300 digits; the [RecursionError] of the decoder.  The last two are
    raised before any rule runs. *)
Theorem evaluator_outcomes (pr : char -> bool) (message : str) :
  fst (run_message pr message) = Return tt
  \/ (fst (run_message pr message) = Raise OverflowError
      /\ exists d n, decodes_to message d
                     /\ field d "gait_score" = PyInt n
                     /\ (2 ^ 1023 <= Z.abs n)%Z)
  \/ (exists a, fst (run_message pr message) = Raise (UnicodeEncodeError a)
                /\ has_surrogate a = true)
  \/ (exists n, run_message pr message
                = (Raise (ValueError n), [processing_event message])
                /\ (4300 < n)%Z)
  \/ (exists b, run_message pr message
                = (Raise (RecursionError b), [processing_event message])).
Proof.
  destruct (try_parse_json_cases message)
    as [H|[[d H]|[(n & L & H)|[b H]]]].
  - rewrite (proj1 (run_plain pr H)). unfold plain_run, say.
    destruct (contains special message); [|left; reflexivity].
    destruct (has_surrogate (special_alert message)) eqn:S;
      [|left; reflexivity].
    right. right. left. eexists. split; [reflexivity | exact S].
  - rewrite (proj1 (run_structured pr H)).
    destruct (structured_run_outcome pr d) as [R|[[R G]|(a & R & S)]].
    + left. exact R.
    + right. left. split; [exact R|].
      apply gait_test_raises in G. destruct G as (n & F & C).
      exists d, n. split; [exact H|]. split; [exact F|].
      destruct (Z.lt_ge_cases (Z.abs n) (2 ^ 1023)) as [B|B]; [|exact B].
      exfalso. exact (@float_of_int_in_range n B C).
    + right. right. left. exists a. split; assumption.
  - right. right. right. left. exists n.
    split; [apply (run_undecoded pr H) | exact L].
  - right. right. right. right. exists b. apply (run_undecoded pr H).
Qed.

(** X7: on a message that decodes as an object whose [gait_score] is an
    integer of absolute value [2^1024] or more, the evaluator raises: the
    [OverflowError] of [float(gait)], unless the heart-rate rule holds and
    its alert cannot be encoded, in which case [print] has raised before.
    The only alert it can have printed is the tachycardia alert: neither
    the gait rule nor the step rule gives an alert. *)
Theorem evaluator_raises_above_bound (pr : char -> bool) (message : str)
        (d : pydict) (n : Z) :
  decodes_to message d ->
  field d "gait_score" = PyInt n ->
  (2 ^ 1024 <= Z.abs n)%Z ->
  let T := tachycardia_alert pr (field d "patient_id") (field d "hr")
                             (field d "ts") in
  fst (run_message pr message)
  = (if hr_test (field d "hr") && has_surrogate T
     then Raise (UnicodeEncodeError T) else Raise OverflowError)
  /\ alerts pr message
     = (if hr_test (field d "hr") && negb (has_surrogate T) then [T] else [])
  /\ triggered is_low_gait pr message = false
  /\ triggered is_step_surge pr message = false.
Proof.
  intros H F B T.
  assert (G : gait_test (field d "gait_score") = None).
  { rewrite F. cbn [gait_test]. rewrite (float_of_int_overflow _ B).
    reflexivity. }
  destruct (triggered_sound pr H) as (_ & L & S & _).
  destruct (run_structured pr H) as [O A]. rewrite O, A.
  unfold structured_run, say. rewrite G. fold T.
  split; [|split; [|split]].
  - destruct (hr_test (field d "hr")), (has_surrogate T); reflexivity.
  - destruct (hr_test (field d "hr")), (has_surrogate T); reflexivity.
  - apply not_true_false. intros E. apply L in E. congruence.
  - apply not_true_false. intros E. apply S in E. destruct E. congruence.
Qed.

(** ** Trimming and the special text *)

Lemma lstrip_spaces (a x : str) :
  forallb isspace a = true -> lstrip (a ++ x) = lstrip x.
Proof.
  induction a as [|c a IH]; cbn [forallb app lstrip]; [reflexivity|].
  intros H. apply andb_prop in H. destruct H as [Hc Ha].
  rewrite Hc. apply IH, Ha.
Qed.

Lemma lstrip_all_spaces (a : str) : forallb isspace a = true -> lstrip a = [].
Proof.
  intros H. rewrite <- (app_nil_r a). rewrite (lstrip_spaces a [] H).
  reflexivity.
Qed.

Lemma forallb_rev {A} (f : A -> bool) (l : list A) :
  forallb f (rev l) = forallb f l.
Proof.
  induction l as [|x l IH]; [reflexivity|].
  cbn [rev forallb]. rewrite forallb_app, IH. cbn [forallb].
  rewrite andb_true_r. apply andb_comm.
Qed.

Lemma rstrip_spaces (x b : str) :
  forallb isspace b = true -> rstrip (x ++ b) = rstrip x.
Proof.
  intros H. unfold rstrip. rewrite rev_app_distr, lstrip_spaces;
    [reflexivity|]. rewrite forallb_rev. exact H.
Qed.

(** Whitespace around a text is trimmed away whole. *)
Lemma strip_padded (a m b : str) :
  forallb isspace a = true -> forallb isspace b = true ->
  strip (a ++ m ++ b) = strip m.
Proof.
  intros Ha Hb. unfold strip. rewrite (lstrip_spaces a _ Ha).
  induction m as [|c m IH].
  - cbn [app]. rewrite (lstrip_all_spaces b Hb). reflexivity.
  - cbn [app lstrip]. destruct (isspace c); [exact IH|].
    apply (rstrip_spaces (c :: m) b Hb).
Qed.

(** X8: whitespace around a message, of any of the kinds [strip()]
    removes, does not change what [_try_parse_json] returns; so a message
    that decodes as an object gives the same alerts with or without it. *)
Theorem padding_is_ignored (pr : char -> bool) (a message b : str)
        (w : World) :
  forallb isspace a = true ->
  forallb isspace b = true ->
  _try_parse_json (a ++ message ++ b) w = _try_parse_json message w
  /\ (forall d, decodes_to message d ->
                alerts pr (a ++ message ++ b) = alerts pr message).
Proof.
  intros Ha Hb.
  assert (E : forall w0, _try_parse_json (a ++ message ++ b) w0
                         = _try_parse_json message w0).
  { intros w0. rewrite !try_parse_json_eq, (strip_padded a message b Ha Hb).
    reflexivity. }
  split; [apply E|].
  intros d H.
  assert (H' : decodes_to (a ++ message ++ b) d).
  { unfold decodes_to. rewrite E. exact H. }
  rewrite (proj2 (run_structured pr H)), (proj2 (run_structured pr H')).
  reflexivity.
Qed.

(** X9: a message of whitespace only, the empty message among them, is
    logged and gives no alert and no error. *)
Theorem blank_message_is_silent (pr : char -> bool) (message : str) :
  forallb isspace message = true ->
  run_message pr message = (Return tt, [processing_event message]).
Proof.
  intros H. unfold run_message.
  assert (S : strip message = []).
  { unfold strip. rewrite (lstrip_all_spaces message H). reflexivity. }
  assert (P : plain_text message).
  { apply unbracketed_is_plain_text. rewrite S. reflexivity. }
  rewrite (process_message_plain pr [] P).
  assert (C : contains special message = false).
  { clear S P. induction message as [|c m IH]; [reflexivity|].
    cbn [forallb] in H. apply andb_prop in H. destruct H as [Hc Hm].
    cbn [contains]. rewrite (IH Hm), orb_false_r.
    change special with (73%N :: tl special). cbn [startswith].
    destruct (char_eqb 73%N c) eqn:E; [|reflexivity].
    apply N.eqb_eq in E. subst c. discriminate. }
  unfold plain_run, say. rewrite C. reflexivity.
Qed.

Lemma startswith_prefix (p : str) : forall s,
  startswith s p = true <-> exists b, s = p ++ b.
Proof.
  induction p as [|x p IH]; intros s.
  - split; [intros _; exists s; reflexivity | destruct s; reflexivity].
  - destruct s as [|y s]; cbn [startswith].
    + split; [discriminate | intros (b & E); discriminate].
    + split.
      * intros H. apply andb_prop in H. destruct H as [Hx Hp].
        apply N.eqb_eq in Hx. apply IH in Hp. destruct Hp as (b & ->).
        exists b. subst. reflexivity.
      * intros (b & E). injection E as <- ->.
        unfold char_eqb. rewrite N.eqb_refl. apply IH. eauto.
Qed.

(** [needle in hay] is true exactly when [hay] has [needle] somewhere
    inside. *)
Lemma contains_substring (needle : str) : forall hay,
  contains needle hay = true <-> exists a b, hay = a ++ needle ++ b.
Proof.
  induction hay as [|c hay IH]; cbn [contains].
  - rewrite orb_false_r, startswith_prefix. split.
    + intros (b & E). exists [], b. exact E.
    + intros (a & b & E). destruct a as [|x a]; [exists b; exact E|].
      discriminate.
  - split.
    + intros H. apply orb_prop in H. destruct H as [H|H].
      * apply startswith_prefix in H. destruct H as (b & E).
        exists [], b. exact E.
      * apply IH in H. destruct H as (a & b & ->).
        exists (c :: a), b. reflexivity.
    + intros (a & b & E). apply orb_true_iff.
      destruct a as [|x a].
      * left. apply startswith_prefix. exists b. exact E.
      * right. apply IH. injection E as _ ->. eauto.
Qed.

(** X10: on the plain-text path the special alert is given exactly when
    the message is some text, then "I just loved a movie! It was funny.",
    then some text, the comparison being exact, character by character,
    and the message can be encoded for standard output; it is then the
    only alert. *)
Theorem special_alert_iff_substring (pr : char -> bool) (message : str) :
  plain_text message ->
  (In (special_alert message) (alerts pr message)
   <-> (exists a b, message = a ++ special ++ b)
       /\ has_surrogate message = false)
  /\ (alerts pr message = [] \/ alerts pr message = [special_alert message]).
Proof.
  intros H. rewrite (alerts_plain pr H), <- contains_substring.
  destruct (contains special message), (has_surrogate message);
    cbn [andb negb].
  - split; [split|left; reflexivity].
    + intros [].
    + intros [_ G]. discriminate.
  - split; [split|right; reflexivity].
    + intros _. split; reflexivity.
    + intros _. left. reflexivity.
  - split; [split|left; reflexivity].
    + intros [].
    + intros [G _]. discriminate.
  - split; [split|left; reflexivity].
    + intros [].
    + intros [G _]. discriminate.
Qed.

(** X11: the alerts of a message that decodes as an object depend on the
    five fields [hr], [gait_score], [steps], [patient_id] and [ts] alone:
    two messages whose objects agree on them give the same alerts,
    whatever else the objects hold and however the texts are laid out. *)
Theorem alerts_depend_on_five_fields (pr : char -> bool) (m1 m2 : str)
        (d1 d2 : pydict) :
  decodes_to m1 d1 ->
  decodes_to m2 d2 ->
  field d1 "hr" = field d2 "hr" ->
  field d1 "gait_score" = field d2 "gait_score" ->
  field d1 "steps" = field d2 "steps" ->
  field d1 "patient_id" = field d2 "patient_id" ->
  field d1 "ts" = field d2 "ts" ->
  alerts pr m1 = alerts pr m2
  /\ fst (run_message pr m1) = fst (run_message pr m2).
Proof.
  intros H1 H2 E1 E2 E3 E4 E5.
  destruct (run_structured pr H1) as [O1 A1].
  destruct (run_structured pr H2) as [O2 A2].
  rewrite O1, O2, A1, A2. unfold structured_run.
  rewrite E1, E2, E3, E4, E5. split; reflexivity.
Qed.

(** ** The decoded object as a finite map *)

Lemma str_eqb_spec (a : str) : forall b, str_eqb a b = true <-> a = b.
Proof.
  induction a as [|x a IH]; intros [|y b]; cbn [str_eqb];
    try (split; [discriminate | intros E; discriminate]);
    [split; reflexivity|].
  unfold char_eqb. rewrite andb_true_iff, N.eqb_eq, IH.
  split; [intros [-> ->]; reflexivity | intros E; injection E; auto].
Qed.

Lemma dict_set_keys_in (d : pydict) (k : str) (v : PyValue) (x : str) :
  In x (List.map fst (dict_set d k v)) -> In x (List.map fst d) \/ x = k.
Proof.
  induction d as [|[k' v'] d IH]; cbn [dict_set List.map fst In].
  - intros [<-|[]]. right. reflexivity.
  - destruct (str_eqb k' k); cbn [List.map fst In].
    + intros [E|I]; auto.
    + intros [E|I]; auto. destruct (IH I); auto.
Qed.

(** Assigning to a key keeps the keys distinct. *)
Lemma dict_set_nodup (d : pydict) (k : str) (v : PyValue) :
  NoDup (List.map fst d) -> NoDup (List.map fst (dict_set d k v)).
Proof.
  induction d as [|[k' v'] d IH]; cbn [dict_set List.map fst]; intros N.
  - constructor; [intros [] | constructor].
  - inversion N as [|k0 ks Hk Hks]; subst.
    destruct (str_eqb k' k) eqn:E; cbn [List.map fst].
    + constructor; assumption.
    + constructor; [|apply IH, Hks].
      intros I. apply dict_set_keys_in in I. destruct I as [I| ->];
        [contradiction|].
      assert (T : str_eqb k k = true) by (apply str_eqb_spec; reflexivity).
      congruence.
Qed.

(** After an assignment the key holds the new value. *)
Lemma dict_lookup_set (d : pydict) (k : str) (v : PyValue) :
  dict_lookup (dict_set d k v) k = Some v.
Proof.
  assert (T : str_eqb k k = true) by (apply str_eqb_spec; reflexivity).
  induction d as [|[k' v'] d IH]; cbn [dict_set dict_lookup].
  - rewrite T. reflexivity.
  - destruct (str_eqb k' k) eqn:E; cbn [dict_lookup]; rewrite E;
      [reflexivity | exact IH].
Qed.

(** With distinct keys, a lookup finds exactly the pairs of the dict. *)
Lemma dict_lookup_in (d : pydict) (k : str) (v : PyValue) :
  NoDup (List.map fst d) ->
  (dict_lookup d k = Some v <-> In (k, v) d).
Proof.
  induction d as [|[k' v'] d IH]; cbn [dict_lookup List.map fst In];
    intros N.
  - split; [discriminate | intros []].
  - inversion N as [|k0 ks Hk Hks]; subst.
    destruct (str_eqb k' k) eqn:E.
    + apply str_eqb_spec in E. subst k'. split.
      * intros H; injection H as <-. left. reflexivity.
      * intros [H|H]; [injection H as <-; reflexivity|].
        exfalso. apply Hk. apply (in_map fst) in H. exact H.
    + rewrite (IH Hks). split; [auto|].
      intros [H|H]; [|exact H].
      injection H as -> ->.
      assert (T : str_eqb k k = true) by (apply str_eqb_spec; reflexivity).
      congruence.
Qed.

Lemma parse_members_nodup (fuel : nat) : forall depth acc s v r,
  NoDup (List.map fst acc) ->
  parse_members fuel depth acc s = Decoded (v, r) ->
  exists d, v = PyDict d /\ NoDup (List.map fst d).
Proof.
  induction fuel as [|fuel IH]; intros depth acc s v r N H; [discriminate|].
  cbn [parse_members] in H.
  destruct s as [|c s]; [discriminate|].
  destruct (N.eqb c c_dquote); [|discriminate].
  destruct (scanstring s []) as [[key r1]|]; [|discriminate].
  destruct (skip_ws r1) as [|c1 r2]; [discriminate|].
  destruct (N.eqb c1 c_colon); [|discriminate].
  destruct (scan_once fuel depth (skip_ws r2)) as [[v3 r3]| | | |];
    try discriminate.
  destruct (skip_ws r3) as [|c2 r4]; [discriminate|].
  destruct (N.eqb c2 c_rbrace).
  { injection H as <- <-. eexists. split; [reflexivity|].
    apply dict_set_nodup, N. }
  destruct (N.eqb c2 c_comma); [|discriminate].
  eapply IH; [|eassumption]. apply dict_set_nodup, N.
Qed.

Lemma json_loads_object_nodup (s : str) (d : pydict) :
  startswith s (u "{") = true ->
  json_loads s = Decoded (PyDict d) ->
  NoDup (List.map fst d).
Proof.
  intros Hs H. destruct s as [|c s]; [discriminate|].
  assert (Hc : c = c_lbrace).
  { change (u "{") with [c_lbrace] in Hs. cbn [startswith] in Hs.
    destruct (char_eqb c_lbrace c) eqn:E; [|discriminate].
    symmetry. apply N.eqb_eq. exact E. }
  subst c. unfold json_loads in H.
  change (skip_ws (c_lbrace :: s)) with (c_lbrace :: s) in H.
  destruct (scan_once (2 * List.length (c_lbrace :: s) + 1) depth_budget
              (c_lbrace :: s))
    as [[v0 r]| | | |] eqn:E; try discriminate.
  destruct (skip_ws r); [|discriminate].
  injection H as ->.
  replace (2 * List.length (c_lbrace :: s) + 1)
    with (S (2 * List.length (c_lbrace :: s))) in E by lia.
  cbn [scan_once] in E.
  change (N.eqb c_lbrace c_dquote) with false in E.
  change (N.eqb c_lbrace c_lbrace) with true in E.
  cbv iota in E.
  destruct depth_budget as [|depth]; [discriminate|].
  destruct (skip_ws s) as [|c' r']; [discriminate|].
  destruct (N.eqb c' c_rbrace).
  - injection E as <- <-. constructor.
  - apply parse_members_nodup in E; [|constructor].
    destruct E as (d' & E & N). injection E as ->. exact N.
Qed.

(** X12: the object a message decodes to has each key once, so that
    [evt.get(k)] finds exactly the pairs of the object: when the text
    repeats a key, one pair is kept for it. *)
Theorem decoded_object_is_a_map (message : str) (d : pydict) :
  decodes_to message d ->
  NoDup (List.map fst d)
  /\ (forall k v, dict_lookup d k = Some v <-> In (k, v) d).
Proof.
  intros H.
  assert (N : NoDup (List.map fst d)).
  { unfold decodes_to in H. rewrite try_parse_json_eq in H.
    destruct (bracketed (strip message)) eqn:B; [|discriminate].
    destruct (json_loads (strip message)) as [v| | | |] eqn:E;
      try discriminate.
    injection H as ->. apply andb_prop in B. destruct B as [B _].
    exact (json_loads_object_nodup _ B E). }
  split; [exact N|]. intros k v. apply dict_lookup_in, N.
Qed.

(** ** Nesting beyond the recursion limit *)

Lemma scan_nested_arrays : forall depth fuel n rest,
  depth < n -> 2 * depth + 1 <= fuel ->
  scan_once fuel depth (repeat c_lbracket n ++ rest) = TooDeep false.
Proof.
  induction depth as [|depth IH]; intros fuel n rest Hn Hf.
  - destruct fuel as [|fuel]; [lia|]. destruct n as [|n]; [lia|].
    reflexivity.
  - destruct fuel as [|[|fuel]]; try lia.
    destruct n as [|[|n]]; try lia.
    cbn [repeat app scan_once].
    change (N.eqb c_lbracket c_dquote) with false.
    change (N.eqb c_lbracket c_lbrace) with false.
    change (N.eqb c_lbracket c_lbracket) with true.
    cbv iota.
    change (skip_ws (c_lbracket :: repeat c_lbracket n ++ rest))
      with (c_lbracket :: repeat c_lbracket n ++ rest).
    change (N.eqb c_lbracket c_rbracket) with false. cbv iota.
    cbn [parse_elems].
    change (c_lbracket :: repeat c_lbracket n ++ rest)
      with (repeat c_lbracket (S n) ++ rest).
    rewrite IH by lia. reflexivity.
Qed.

Lemma scan_nested_object (depth fuel n : nat) (rest : str) :
  depth <= n -> 2 * n + 3 <= fuel ->
  scan_once fuel depth
            (json_text "{'a': " ++ repeat c_lbracket n ++ rest)
  = TooDeep (Nat.eqb depth 0).
Proof.
  intros Hn Hf. destruct fuel as [|[|fuel]]; try lia.
  change (json_text "{'a': ")
    with [c_lbrace; c_dquote; 97%N; c_dquote; c_colon; c_space].
  cbn [app scan_once].
  change (N.eqb c_lbrace c_dquote) with false.
  change (N.eqb c_lbrace c_lbrace) with true.
  cbv iota.
  destruct depth as [|depth]; [reflexivity|].
  change (skip_ws (c_dquote :: 97%N :: c_dquote :: c_colon :: c_space
                     :: repeat c_lbracket n ++ rest))
    with (c_dquote :: 97%N :: c_dquote :: c_colon :: c_space
            :: repeat c_lbracket n ++ rest).
  change (N.eqb c_dquote c_rbrace) with false. cbv iota.
  cbn [parse_members].
  change (N.eqb c_dquote c_dquote) with true. cbv iota.
  change (scanstring (97%N :: c_dquote :: c_colon :: c_space
                        :: repeat c_lbracket n ++ rest) [])
    with (Some ([97%N], c_colon :: c_space :: repeat c_lbracket n ++ rest)).
  cbv iota beta.
  change (skip_ws (c_colon :: c_space :: repeat c_lbracket n ++ rest))
    with (c_colon :: c_space :: repeat c_lbracket n ++ rest).
  cbv iota.
  change (N.eqb c_colon c_colon) with true. cbv iota.
  change (skip_ws (c_space :: repeat c_lbracket n ++ rest))
    with (skip_ws (repeat c_lbracket n ++ rest)).
  destruct n as [|n]; [lia|].
  change (skip_ws (repeat c_lbracket (S n) ++ rest))
    with (repeat c_lbracket (S n) ++ rest).
  rewrite scan_nested_arrays by lia. reflexivity.
Qed.

Lemma startswith_nil (s : str) : startswith s [] = true.
Proof. destruct s; reflexivity. Qed.

Lemma strip_tight (c c' : char) (mid : str) :
  isspace c = false -> isspace c' = false ->
  strip (c :: mid ++ [c']) = c :: mid ++ [c'].
Proof.
  intros Hc Hc'. unfold strip. cbn [lstrip]. rewrite Hc.
  unfold rstrip. change (c :: mid ++ [c']) with ((c :: mid) ++ [c']).
  rewrite rev_app_distr. cbn [rev app lstrip]. rewrite Hc'.
  change (c' :: rev mid ++ [c]) with (rev [c'] ++ rev (c :: mid)).
  rewrite <- rev_app_distr. apply rev_involutive.
Qed.

(** X17: an object that holds arrays nested as deep as the recursion
    limit leaves room for, or deeper, has one container too many: the
    decoder raises [RecursionError], which [_try_parse_json] does not
    catch, and the evaluator ends with it after logging the message, with
    no alert. *)
Theorem deep_nesting_raises (pr : char -> bool) (n : nat) :
  depth_budget <= n ->
  run_message pr (nested_arrays_message n)
  = (Raise (RecursionError (Nat.eqb depth_budget 0)),
     [processing_event (nested_arrays_message n)])
  /\ alerts pr (nested_arrays_message n) = [].
Proof.
  intros Hn. apply run_undecoded.
  unfold decoder_raises. rewrite try_parse_json_eq.
  assert (M : nested_arrays_message n
              = c_lbrace
                  :: ([c_dquote; 97%N; c_dquote; c_colon; c_space]
                        ++ repeat c_lbracket n ++ repeat c_rbracket n)
                  ++ [c_rbrace]).
  { unfold nested_arrays_message.
    change (json_text "{'a': ")
      with (c_lbrace :: [c_dquote; 97%N; c_dquote; c_colon; c_space]).
    change (u "}") with [c_rbrace].
    cbn [app]. rewrite <- !app_assoc. reflexivity. }
  assert (S : strip (nested_arrays_message n) = nested_arrays_message n).
  { rewrite M. apply strip_tight; reflexivity. }
  rewrite S.
  assert (B : bracketed (nested_arrays_message n) = true).
  { rewrite M. unfold bracketed, endswith.
    match goal with
    | |- context [rev (c_lbrace :: ?x ++ [c_rbrace])] =>
      change (c_lbrace :: x ++ [c_rbrace]) with ((c_lbrace :: x) ++ [c_rbrace])
    end.
    rewrite rev_app_distr. cbn [rev app].
    change (u "{") with [c_lbrace]. change (rev (u "}")) with [c_rbrace].
    cbn [startswith]. rewrite !startswith_nil. reflexivity. }
  rewrite B.
  assert (J : json_loads (nested_arrays_message n)
              = TooDeep (Nat.eqb depth_budget 0)).
  { unfold json_loads.
    assert (W : skip_ws (nested_arrays_message n) = nested_arrays_message n)
      by (rewrite M; reflexivity).
    rewrite W. unfold nested_arrays_message at 2.
    rewrite scan_nested_object; [reflexivity | exact Hn |].
    unfold nested_arrays_message.
    rewrite !length_app, !repeat_length.
    change (List.length (json_text "{'a': ")) with 6. lia. }
  rewrite J. reflexivity.
Qed.

(** ** Missing fields *)

(** Missing fields away from the failures of [float()] and [print]: for
    a message that decodes as a JSON object, every alert is printed with
    the text "None" in place of a [patient_id] or a [ts] that the object
    does not have: an alert is one of the three texts so filled in, and
    when the run returns normally the alert of each rule that holds is
    among them. *)
Lemma missing_fields_render_as_None (pr : char -> bool) (message : str)
      (d : pydict) :
  decodes_to message d ->
  let pid_text :=
    match dict_lookup d (u "patient_id") with
    | Some v => fmt pr v
    | None => u "None"
    end in
  let ts_text :=
    match dict_lookup d (u "ts") with
    | Some v => fmt pr v
    | None => u "None"
    end in
  let T := u "ALERT Tachycardia: patient=" ++ pid_text
             ++ u " hr=" ++ fmt pr (field d "hr") ++ u " ts=" ++ ts_text in
  let L := u "ALERT Low gait_score: patient=" ++ pid_text
             ++ u " gait_score=" ++ fmt pr (field d "gait_score")
             ++ u " ts=" ++ ts_text in
  let S := u "ALERT Step surge: patient=" ++ pid_text
             ++ u " steps=" ++ fmt pr (field d "steps")
             ++ u " ts=" ++ ts_text in
  Forall (fun a => a = T \/ a = L \/ a = S) (alerts pr message)
  /\ (fst (run_message pr message) = Return tt ->
      (hr_test (field d "hr") = true -> In T (alerts pr message))
      /\ (gait_test (field d "gait_score") = Some true ->
          In L (alerts pr message))
      /\ (steps_test (field d "steps") = true -> In S (alerts pr message))).
Proof.
  intros H pid_text ts_text T L S.
  assert (EP : fmt pr (field d "patient_id") = pid_text).
  { unfold pid_text, field. destruct (dict_lookup d (u "patient_id"));
      reflexivity. }
  assert (ET : fmt pr (field d "ts") = ts_text).
  { unfold ts_text, field. destruct (dict_lookup d (u "ts")); reflexivity. }
  assert (AT : tachycardia_alert pr (field d "patient_id") (field d "hr")
                                 (field d "ts") = T).
  { unfold tachycardia_alert. rewrite EP, ET. reflexivity. }
  assert (AL : low_gait_alert pr (field d "patient_id")
                              (field d "gait_score") (field d "ts") = L).
  { unfold low_gait_alert. rewrite EP, ET. reflexivity. }
  assert (AS : step_surge_alert pr (field d "patient_id") (field d "steps")
                                (field d "ts") = S).
  { unfold step_surge_alert. rewrite EP, ET. reflexivity. }
  destruct (run_structured pr H) as [O A]. rewrite O, A.
  split.
  - destruct (structured_run_alerts pr d) as (t & l & s & -> & Ht & Hl & Hs).
    rewrite AT in Ht. rewrite AL in Hl. rewrite AS in Hs.
    apply Forall_app. split; [|apply Forall_app; split].
    + destruct Ht as [->|[-> _]]; [apply Forall_nil|].
      apply Forall_cons; [auto | apply Forall_nil].
    + destruct Hl as [->|[-> _]]; [apply Forall_nil|].
      apply Forall_cons; [auto | apply Forall_nil].
    + destruct Hs as [->|[-> _]]; [apply Forall_nil|].
      apply Forall_cons; [auto | apply Forall_nil].
  - intros R. destruct (structured_run_returns pr d R) as (low & G & E).
    rewrite E, AT, AL, AS. split; [|split].
    + intros ->. left. reflexivity.
    + intros G'. rewrite G in G'. injection G' as ->.
      apply in_or_app. right. left. reflexivity.
    + intros ->. apply in_or_app. right. apply in_or_app. right.
      left. reflexivity.
Qed.

(** ** The getters *)

Lemma getenv_unset (env : Env) (key default : str) :
  ~ In key (List.map fst env) -> getenv env key default = default.
Proof.
  induction env as [|[k v] env IH]; cbn [getenv List.map fst In];
    [reflexivity|].
  intros N. destruct (str_eqb k key) eqn:E.
  - apply str_eqb_spec in E. exfalso. apply N. left. exact E.
  - apply IH. intros I. apply N. right. exact I.
Qed.

Lemma getenv_set (pre post : Env) (key v default : str) :
  ~ In key (List.map fst pre) ->
  getenv (pre ++ (key, v) :: post) key default = v.
Proof.
  induction pre as [|[k x] pre IH]; cbn [getenv app List.map fst In];
    intros N.
  - assert (T : str_eqb key key = true) by (apply str_eqb_spec; reflexivity).
    rewrite T. reflexivity.
  - destruct (str_eqb k key) eqn:E.
    + apply str_eqb_spec in E. exfalso. apply N. left. exact E.
    + apply IH. intros I. apply N. right. exact I.
Qed.

(** X13: each getter returns the value of its own variable when the
    environment has it, the empty value included, and its default
    ("unknown_topic", "kabore-group") only when the variable is not set; it
    logs the value it returns at INFO and does nothing else. *)
Theorem getters_read_the_environment (env : Env) (w : World) :
  (forall pre post v,
      env = pre ++ (u "KAFKA_TOPIC", v) :: post ->
      ~ In (u "KAFKA_TOPIC") (List.map fst pre) ->
      get_kafka_topic env w
      = (Return v, w ++ [Logged INFO (u "Kafka topic: " ++ v)]))
  /\ (~ In (u "KAFKA_TOPIC") (List.map fst env) ->
      get_kafka_topic env w
      = (Return (u "unknown_topic"),
         w ++ [Logged INFO (u "Kafka topic: unknown_topic")]))
  /\ (forall pre post v,
         env = pre ++ (u "KAFKA_CONSUMER_GROUP_ID_JSON", v) :: post ->
         ~ In (u "KAFKA_CONSUMER_GROUP_ID_JSON") (List.map fst pre) ->
         get_kafka_consumer_group_id env w
         = (Return v, w ++ [Logged INFO (u "Kafka consumer group id: " ++ v)]))
  /\ (~ In (u "KAFKA_CONSUMER_GROUP_ID_JSON") (List.map fst env) ->
      get_kafka_consumer_group_id env w
      = (Return (u "kabore-group"),
         w ++ [Logged INFO (u "Kafka consumer group id: kabore-group")])).
Proof.
  unfold get_kafka_topic, get_kafka_consumer_group_id, bind, logger_info,
    emit, ret.
  repeat split.
  - intros pre post v -> N. rewrite getenv_set by exact N. reflexivity.
  - intros N. rewrite getenv_unset by exact N. reflexivity.
  - intros pre post v -> N. rewrite getenv_set by exact N. reflexivity.
  - intros N. rewrite getenv_unset by exact N. reflexivity.
Qed.

(** ** The consumer loop *)

Lemma handle_record_emits (pr : char -> bool) (r : ConsumerRecord)
      (w : World) :
  handle_record pr r w
  = (fst (run_message pr (value r)), w ++ record_events pr r).
Proof.
  unfold handle_record, record_events, received_event, bind at 1.
  unfold logger_debug, emit.
  rewrite process_message_emits, <- app_assoc. reflexivity.
Qed.

(** The loop over records that all return normally runs to the end of the
    stream. *)
Lemma poll_healthy (pr : char -> bool) (last : LoopExit) :
  forall rs w,
    Forall (healthy pr) rs ->
    poll pr rs last w = (Return last, w ++ flat_map (record_events pr) rs).
Proof.
  induction rs as [|r rs IH]; intros w H; cbn [poll flat_map].
  - rewrite app_nil_r. reflexivity.
  - inversion H as [|r' rs' Hr Hrs]; subst.
    rewrite handle_record_emits. unfold healthy in Hr. rewrite Hr.
    rewrite (IH _ Hrs), <- app_assoc. reflexivity.
Qed.

(** The loop stops at the first record on which the evaluator raises. *)
Lemma poll_poison (pr : char -> bool) (last : LoopExit) (bad : ConsumerRecord)
      (rest : list ConsumerRecord) (e : PyExn) :
  fst (run_message pr (value bad)) = Raise e ->
  forall good w,
    Forall (healthy pr) good ->
    poll pr (good ++ bad :: rest) last w
    = (Return (ExceptionRaised (exn_text e)),
       w ++ flat_map (record_events pr) (good ++ [bad])).
Proof.
  intros Hb. induction good as [|r rs IH]; intros w H; cbn [poll app flat_map].
  - rewrite handle_record_emits, Hb, app_nil_r. reflexivity.
  - inversion H as [|r' rs' Hr Hrs]; subst.
    rewrite handle_record_emits. unfold healthy in Hr. rewrite Hr.
    rewrite (IH _ Hrs), <- app_assoc. reflexivity.
Qed.

(** The loop never raises and only adds to the trace. *)
Lemma poll_returns (pr : char -> bool) (last : LoopExit) :
  forall rs w, exists exit out,
    poll pr rs last w = (Return exit, w ++ out).
Proof.
  induction rs as [|r rs IH]; intros w; cbn [poll].
  - exists last, []. rewrite app_nil_r. reflexivity.
  - rewrite handle_record_emits.
    destruct (fst (run_message pr (value r))) as [[]|e].
    + destruct (IH (w ++ record_events pr r)) as (exit & out & ->).
      exists exit, (record_events pr r ++ out).
      rewrite <- app_assoc. reflexivity.
    + exists (ExceptionRaised (exn_text e)), (record_events pr r).
      reflexivity.
Qed.

(** [main] around its loop: the five records of the start, the loop, the
    record of the handler, the close and the two last records. *)
Lemma main_eq (pr : char -> bool) (create : str -> str -> Consumer)
      (env : Env) (w : World) :
  let topic := topic_of env in
  let group_id := group_of env in
  let consumer := create topic group_id in
  let w1 :=
    w ++ [Logged INFO (u "START consumer.");
          Logged INFO (u "Kafka topic: " ++ topic);
          Logged INFO (u "Kafka consumer group id: " ++ group_id);
          Logged INFO (u "Consumer: topic='" ++ topic ++ u "', group='"
                         ++ group_id ++ u "'");
          Logged INFO (u "Polling messages from topic '" ++ topic
                         ++ u "'...")] in
  forall exit w2,
    poll pr (records consumer) (stream_end consumer) w1 = (Return exit, w2) ->
    main pr create env w
    = (Return (close consumer),
       w2 ++ match exit with
             | Exhausted => []
             | KeyboardInterrupt =>
               [Logged WARNING (u "Consumer interrupted by user.")]
             | ExceptionRaised text =>
               [Logged ERROR (u "Error while consuming messages: " ++ text)]
             end
          ++ [Logged INFO (u "Kafka consumer for topic '" ++ topic
                             ++ u "' closed.");
              Logged INFO (u "END consumer for topic '" ++ topic
                             ++ u "' and group '" ++ group_id ++ u "'.")]).
Proof.
  intros topic group_id consumer w1 exit w2 P.
  unfold main, get_kafka_topic, get_kafka_consumer_group_id.
  fold (topic_of env) (group_of env). fold topic group_id.
  unfold bind, logger_info, logger_warning, logger_error, emit, ret.
  fold consumer.
  replace (((((w ++ [Logged INFO (u "START consumer.")])
               ++ [Logged INFO (u "Kafka topic: " ++ topic)])
              ++ [Logged INFO (u "Kafka consumer group id: " ++ group_id)])
             ++ [Logged INFO (u "Consumer: topic='" ++ topic ++ u "', group='"
                                ++ group_id ++ u "'")])
            ++ [Logged INFO (u "Polling messages from topic '" ++ topic
                               ++ u "'...")])
    with w1 by (unfold w1; rewrite <- !app_assoc; reflexivity).
  rewrite P.
  destruct exit as [| |text]; rewrite <- ?app_assoc; reflexivity.
Qed.

(** What the records of a loop leave in the trace, channel by channel. *)
Lemma record_events_observed (pr : char -> bool) (rs : list ConsumerRecord) :
  printed (flat_map (record_events pr) rs)
  = flat_map (fun r => alerts pr (value r)) rs
  /\ logged_at DEBUG (flat_map (record_events pr) rs)
     = List.map (fun r => u "Received offset " ++ int_to_str (offset r)
                            ++ u ": " ++ value r) rs
  /\ logged_at WARNING (flat_map (record_events pr) rs)
     = flat_map (fun r => alerts pr (value r)) rs
  /\ logged_at ERROR (flat_map (record_events pr) rs) = [].
Proof.
  induction rs as [|r rs (IP & ID & IW & IE)]; [repeat split; reflexivity|].
  cbn [flat_map List.map]. unfold record_events at 1 3 5 7.
  rewrite run_message_trace.
  cbn [app printed logged_at received_event processing_event].
  rewrite !printed_app, !logged_at_app, alert_events_printed,
    !alert_events_logged, IP, ID, IW, IE.
  repeat split; reflexivity.
Qed.

(** X14: [main] returns normally whatever the stream delivers and however
    it ends, an evaluator that raises included, and it leaves the consumer
    it created for the topic and the group of the environment closed
    exactly once; it only adds to the trace, and the last thing it records
    is the END line. *)
Theorem main_always_closes (pr : char -> bool)
        (create : str -> str -> Consumer) (env : Env) (w : World) :
  exists out,
    main pr create env w
    = (Return (close (create (topic_of env) (group_of env))),
       w ++ out
         ++ [Logged INFO (u "END consumer for topic '" ++ topic_of env
                            ++ u "' and group '" ++ group_of env ++ u "'.")])
    /\ close_calls (close (create (topic_of env) (group_of env)))
       = S (close_calls (create (topic_of env) (group_of env))).
Proof.
  pose proof (main_eq pr create env w) as M. cbv zeta in M.
  match type of M with
  | forall exit w2, poll _ ?rs ?last (w ++ ?start) = _ -> _ =>
    destruct (poll_returns pr last rs (w ++ start)) as (exit & out & P);
      specialize (M _ _ P);
      match type of M with
      | _ = (_, _ ++ ?handler ++ [?closed; ?ending]) =>
        exists (start ++ out ++ handler ++ [closed])
      end
  end.
  split; [|reflexivity].
  rewrite M. f_equal. rewrite <- !app_assoc. reflexivity.
Qed.

(** X15: when the evaluator returns normally on every record of the
    stream, [main] handles them all, in order: the alerts it prints are
    those of the first message, then those of the second, and so on; each
    delivery is logged at DEBUG with its offset and value; the warnings
    are the alerts, followed by "Consumer interrupted by user." when the
    stream ends with a [KeyboardInterrupt]; and an error is logged only
    when the consumer itself raises, with the text of its exception. *)
Theorem main_on_healthy_stream (pr : char -> bool)
        (create : str -> str -> Consumer) (env : Env) :
  let consumer := create (topic_of env) (group_of env) in
  Forall (healthy pr) (records consumer) ->
  let trace := snd (main pr create env []) in
  printed trace = flat_map (fun r => alerts pr (value r)) (records consumer)
  /\ logged_at DEBUG trace
     = List.map (fun r => u "Received offset " ++ int_to_str (offset r)
                            ++ u ": " ++ value r) (records consumer)
  /\ logged_at WARNING trace
     = flat_map (fun r => alerts pr (value r)) (records consumer)
       ++ match stream_end consumer with
          | KeyboardInterrupt => [u "Consumer interrupted by user."]
          | _ => []
          end
  /\ logged_at ERROR trace
     = match stream_end consumer with
       | ExceptionRaised text =>
         [u "Error while consuming messages: " ++ text]
       | _ => []
       end.
Proof.
  intros consumer H trace.
  pose proof (main_eq pr create env []) as M. cbv zeta in M.
  fold consumer in M. unfold trace.
  erewrite M by (apply poll_healthy; exact H).
  cbn [snd].
  destruct (record_events_observed pr (records consumer))
    as (EP & ED & EW & EE).
  rewrite !printed_app, !logged_at_app, EP, ED, EW, EE.
  destruct (stream_end consumer) as [| |text];
    cbn [app printed logged_at]; rewrite ?app_nil_r;
    repeat split; reflexivity.
Qed.

(** X16: [main] stops at the first record on which the evaluator raises,
    whatever the exception: the records before it are handled in order,
    its own alerts up to the exception are printed, the error is logged
    once as "Error while consuming messages: " followed by the text of the
    exception, and the records after it are never received: they leave no
    trace, whatever they hold. *)
Theorem main_stops_at_first_error (pr : char -> bool)
        (create : str -> str -> Consumer) (env : Env)
        (good : list ConsumerRecord) (bad : ConsumerRecord)
        (rest : list ConsumerRecord) (e : PyExn) :
  let consumer := create (topic_of env) (group_of env) in
  records consumer = good ++ bad :: rest ->
  Forall (healthy pr) good ->
  fst (run_message pr (value bad)) = Raise e ->
  let trace := snd (main pr create env []) in
  printed trace
  = flat_map (fun r => alerts pr (value r)) good ++ alerts pr (value bad)
  /\ logged_at DEBUG trace
     = List.map (fun r => u "Received offset " ++ int_to_str (offset r)
                            ++ u ": " ++ value r) (good ++ [bad])
  /\ logged_at WARNING trace = printed trace
  /\ logged_at ERROR trace
     = [u "Error while consuming messages: " ++ exn_text e].
Proof.
  intros consumer R G E trace.
  pose proof (main_eq pr create env []) as M. cbv zeta in M.
  fold consumer in M. rewrite R in M.
  unfold trace.
  erewrite M by (apply poll_poison; [exact E | exact G]).
  cbn [snd].
  destruct (record_events_observed pr (good ++ [bad]))
    as (EP & ED & EW & EE).
  rewrite !printed_app, !logged_at_app, EP, ED, EW, EE.
  rewrite flat_map_app. cbn [flat_map app printed logged_at].
  rewrite !app_nil_r. repeat split; reflexivity.
Qed.

(** The texts of the exceptions, as [main] logs them. *)
Lemma exn_text_examples :
  exn_text OverflowError = u "int too large to convert to float"
  /\ exn_text (ValueError 4301)
     = u "Exceeds the limit (4300 digits) for integer string conversion: value has 4301 digits; use sys.set_int_max_str_digits() to increase the limit"
  /\ exn_text (RecursionError false)
     = u "maximum recursion depth exceeded while decoding a JSON array from a unicode string"
  /\ exn_text (RecursionError true)
     = u "maximum recursion depth exceeded while decoding a JSON object from a unicode string"
  /\ exn_text (UnicodeEncodeError (c_surrogate :: u "ab"))
     = u "'utf-8' codec can't encode character '\ud800' in position 0: surrogates not allowed"
  /\ exn_text (UnicodeEncodeError
                 (u "ab" ++ [c_surrogate; 57343%N; 56320%N] ++ u "c"))
     = u "'utf-8' codec can't encode characters in position 2-4: surrogates not allowed".
Proof. repeat split; vm_compute; reflexivity. Qed.

(** * Particular messages *)

Section Particular_messages.

(** The statements of this part run the evaluator on particular JSON
    objects, which needs the recursion limit to leave room for one
    container.  Once the section is closed each of them carries this
    assumption as a premise; the statements above hold whatever the budget
    is. *)
Hypothesis depth_budget_positive : 0 < depth_budget.

Lemma depth_budget_succ : exists room, depth_budget = S room.
Proof.
  destruct depth_budget as [|room]; [|exists room; reflexivity].
  exfalso. exact (Nat.lt_irrefl 0 depth_budget_positive).
Qed.

(** Evaluation of a run on a particular message that holds one JSON
    object. *)
Ltac compute_run :=
  let room := fresh "room" in
  let E := fresh "E" in
  destruct depth_budget_succ as [room E];
  cbv delta [decodes_to plain_text decoder_raises alerts triggered
             run_message process_twice process_message _try_parse_json
             json_loads];
  rewrite E; vm_compute.

(** ** The threshold rules *)

Lemma tachycardia_example (pr : char -> bool) :
  alerts pr (json_text "{'hr': 150, 'patient_id': 'p1', 'ts': 't1'}")
  = [u "ALERT Tachycardia: patient=p1 hr=150 ts=t1"].
Proof. compute_run. reflexivity. Qed.

(** C2, at an input where the code departs from it: [hr] is 150, an
    integer above 120, and [patient_id] is a lone surrogate, written in
    the JSON text as an escape; [print] cannot encode the alert and raises
    [UnicodeEncodeError]: no alert is printed or logged, and the error
    goes on to the caller. *)
Theorem tachycardia_alert_unencodable (pr : char -> bool) :
  decodes_to surrogate_patient_message
             [(u "hr", PyInt 150); (u "patient_id", PyStr [c_surrogate])]
  /\ isinstance_int (PyInt 150) = true
  /\ (120 < int_value (PyInt 150))%Z
  /\ run_message pr surrogate_patient_message
     = (Raise (UnicodeEncodeError
                 (u "ALERT Tachycardia: patient=" ++ [c_surrogate]
                    ++ u " hr=150 ts=None")),
        [processing_event surrogate_patient_message])
  /\ alerts pr surrogate_patient_message = []
  /\ exn_text (UnicodeEncodeError
                 (u "ALERT Tachycardia: patient=" ++ [c_surrogate]
                    ++ u " hr=150 ts=None"))
     = u "'utf-8' codec can't encode character '\ud800' in position 27: surrogates not allowed".
Proof.
  split; [compute_run; reflexivity|].
  split; [reflexivity|]. split; [reflexivity|].
  split; [compute_run; reflexivity|].
  split; [compute_run; reflexivity|].
  vm_compute. reflexivity.
Qed.

Lemma low_gait_examples (pr : char -> bool) :
  alerts pr (json_text "{'gait_score': 0.2, 'patient_id': 'p2', 'ts': 't2'}")
  = [u "ALERT Low gait_score: patient=p2 gait_score=0.2 ts=t2"]
  /\ alerts pr (json_text "{'gait_score': 0.40, 'patient_id': 'p2'}") = []
  /\ alerts pr (json_text "{'gait_score': 0.39999999999999999999}") = []
  /\ alerts pr (json_text "{'gait_score': 1}") = []
  /\ alerts pr (json_text "{'gait_score': 0}")
     = [u "ALERT Low gait_score: patient=None gait_score=0 ts=None"].
Proof. compute_run. repeat split; reflexivity. Qed.

(** C3, at an input where the code departs from it: [gait_score] is the
    integer minus 10 to the 400, numeric and below 0.40; [float()]
    raises [OverflowError] and no alert is printed. *)
Theorem low_gait_rule_overflow (pr : char -> bool) :
  decodes_to huge_negative_gait_message
             [(u "gait_score", PyInt (- 10 ^ 400));
              (u "patient_id", PyStr (u "p2")); (u "ts", PyStr (u "t2"))]
  /\ isinstance_int_float (PyInt (- 10 ^ 400)) = true
  /\ run_message pr huge_negative_gait_message
     = (Raise OverflowError, [processing_event huge_negative_gait_message])
  /\ alerts pr huge_negative_gait_message = [].
Proof. compute_run. repeat split; reflexivity. Qed.

Lemma several_alerts_examples (pr : char -> bool) :
  alerts pr (json_text "{'steps': 20, 'hr': 130, 'patient_id': 'p3', 'ts': 't3'}")
  = [u "ALERT Tachycardia: patient=p3 hr=130 ts=t3";
     u "ALERT Step surge: patient=p3 steps=20 ts=t3"]
  /\ alerts pr (json_text "{'steps': 13, 'hr': 121, 'gait_score': 0.39}")
     = [u "ALERT Tachycardia: patient=None hr=121 ts=None";
        u "ALERT Low gait_score: patient=None gait_score=0.39 ts=None";
        u "ALERT Step surge: patient=None steps=13 ts=None"]
  /\ alerts pr (json_text "{'steps': 12, 'hr': 120, 'gait_score': 0.4}") = []
  /\ alerts pr (json_text "{}") = [].
Proof. compute_run. repeat split; reflexivity. Qed.

(** C4, at an input where the code departs from it: [steps] is 20, an
    integer above 12, and [gait_score] is the integer 10 to the 400; the
    gait rule raises [OverflowError] before the step rule runs, and the
    step-surge alert is not printed. *)
Theorem step_rule_cut_short (pr : char -> bool) :
  decodes_to huge_gait_with_steps_message
             [(u "steps", PyInt 20); (u "gait_score", PyInt (10 ^ 400));
              (u "patient_id", PyStr (u "p3")); (u "ts", PyStr (u "t3"))]
  /\ steps_test (PyInt 20) = true
  /\ fst (run_message pr huge_gait_with_steps_message) = Raise OverflowError
  /\ alerts pr huge_gait_with_steps_message = [].
Proof. compute_run. repeat split; reflexivity. Qed.

(** ** Format detection and the plain-text path *)

Lemma format_examples (pr : char -> bool) :
  decodes_to (json_text "  {'hr': 150}  ") [(u "hr", PyInt 150)]
  /\ plain_text (json_text "{'hr': 150,}")
  /\ plain_text (json_text " [1, 2, 'I just loved a movie!'] ")
  /\ run_message pr (json_text "{'hr': 150,}")
     = (Return tt, [processing_event (json_text "{'hr': 150,}")]).
Proof. compute_run. repeat split; reflexivity. Qed.

(** C5, at an input where the code departs from it: the text has the
    shape of an object and holds an integer literal of 4301 digits; the
    decoder fails on it with [ValueError], which is not the
    [json.JSONDecodeError] that [_try_parse_json] catches: the message is
    not treated as plain text, the error goes on to the caller. *)
Theorem decoder_error_escapes (pr : char -> bool) :
  bracketed (strip long_int_message) = true
  /\ json_loads (strip long_int_message) = IntTooLong 4301
  /\ _try_parse_json long_int_message [] = (Raise (ValueError 4301), [])
  /\ run_message pr long_int_message
     = (Raise (ValueError 4301), [processing_event long_int_message])
  /\ exn_text (ValueError 4301)
     = u "Exceeds the limit (4300 digits) for integer string conversion: value has 4301 digits; use sys.set_int_max_str_digits() to increase the limit".
Proof.
  assert (B : bracketed (strip long_int_message) = true)
    by (vm_compute; reflexivity).
  assert (J : json_loads (strip long_int_message) = IntTooLong 4301)
    by (compute_run; reflexivity).
  assert (D : decoder_raises long_int_message (ValueError 4301))
    by (apply format_detection; assumption).
  split; [exact B|]. split; [exact J|]. split; [exact D|].
  split; [apply (run_undecoded pr D) | vm_compute; reflexivity].
Qed.

Lemma special_examples (pr : char -> bool) :
  alerts pr (u "I just loved a movie! It was funny.")
  = [u "ALERT: The special message was found!" ++ [c_lf]
       ++ u "I just loved a movie! It was funny."]
  /\ alerts pr (json_text "{'hr': 150}}") = []
  /\ alerts pr (json_text "{'hr': 150} I just loved a movie! It was funny.")
     = [u "ALERT: The special message was found!" ++ [c_lf]
          ++ json_text "{'hr': 150} I just loved a movie! It was funny."]
  /\ alerts pr (json_text "{'hr': 150, 'note': 'I just loved a movie! It was funny.'}")
     = [u "ALERT Tachycardia: patient=None hr=150 ts=None"].
Proof. compute_run. repeat split; reflexivity. Qed.

(** C6, at inputs where the code departs from it.  The first text holds
    the special text and does not decode: it is an opening brace, an
    integer literal of 4301 digits and then words that are no JSON; the
    decoder raises [ValueError] at the literal, [_try_parse_json] does not
    catch it, and the special rule is never reached.  The second is plain
    text that holds the special text after a lone surrogate: the special
    rule holds, [print] cannot encode the alert and raises
    [UnicodeEncodeError].  Neither prints the special alert. *)
Theorem special_alert_cut_short (pr : char -> bool) :
  contains special long_int_special_message = true
  /\ json_loads (strip long_int_special_message) = IntTooLong 4301
  /\ run_message pr long_int_special_message
     = (Raise (ValueError 4301),
        [processing_event long_int_special_message])
  /\ alerts pr long_int_special_message = []
  /\ contains special surrogate_special_message = true
  /\ plain_text surrogate_special_message
  /\ run_message pr surrogate_special_message
     = (Raise (UnicodeEncodeError (special_alert surrogate_special_message)),
        [processing_event surrogate_special_message])
  /\ alerts pr surrogate_special_message = [].
Proof.
  assert (B : bracketed (strip long_int_special_message) = true)
    by (vm_compute; reflexivity).
  assert (J : json_loads (strip long_int_special_message) = IntTooLong 4301)
    by (compute_run; reflexivity).
  assert (D : decoder_raises long_int_special_message (ValueError 4301))
    by (apply format_detection; assumption).
  split; [vm_compute; reflexivity|]. split; [exact J|].
  split; [apply (run_undecoded pr D)|].
  split; [apply (run_undecoded pr D)|].
  vm_compute. repeat split; reflexivity.
Qed.

(** ** Errors *)

(** C7, at an input where the code departs from it: the message decodes
    as an object whose [gait_score] is the integer 10 to the 400; the
    tachycardia alert is printed and logged, then [float(gait)] raises
    [OverflowError], which nothing in the evaluator catches. *)
Theorem evaluator_raises_overflow (pr : char -> bool) :
  decodes_to huge_gait_message
             [(u "hr", PyInt 150); (u "gait_score", PyInt (10 ^ 400))]
  /\ float_of_int (10 ^ 400) = None
  /\ run_message pr huge_gait_message
     = (Raise OverflowError,
        processing_event huge_gait_message
        :: alert_events (u "ALERT Tachycardia: patient=None hr=150 ts=None")).
Proof. compute_run. repeat split; reflexivity. Qed.

(** ** Booleans and missing fields *)

(** C9: the boolean false passes [isinstance(gait, (int, float))],
    [float(False)] is 0.0, 0.0 is below 0.40, and the input
    [{"gait_score": false}] prints the low-gait-score alert; so does every
    message that decodes as an object whose [gait_score] is false, when
    its run returns normally. *)
Theorem gait_score_false_triggers (pr : char -> bool) :
  isinstance_int_float (PyBool false) = true
  /\ (forall w, py_float (PyBool false) w = (Return (S754_zero false), w))
  /\ float_lt (S754_zero false) lit_0_40 = true
  /\ alerts pr (json_text "{'gait_score': false}")
     = [u "ALERT Low gait_score: patient=None gait_score=False ts=None"]
  /\ (forall message d,
         decodes_to message d ->
         field d "gait_score" = PyBool false ->
         fst (run_message pr message) = Return tt ->
         triggered is_low_gait pr message = true).
Proof.
  split; [reflexivity|]. split; [reflexivity|]. split; [reflexivity|].
  split; [compute_run; reflexivity|].
  intros message d H F R.
  destruct (triggered_returns pr H R) as (low & G & _ & L & _).
  rewrite F in G. injection G as <-. exact L.
Qed.

Lemma missing_fields_examples (pr : char -> bool) :
  alerts pr (json_text "{'hr': 150}")
  = [u "ALERT Tachycardia: patient=None hr=150 ts=None"]
  /\ alerts pr (json_text "{'steps': 99, 'ts': 'noon'}")
     = [u "ALERT Step surge: patient=None steps=99 ts=noon"]
  /\ alerts pr (json_text "{'gait_score': 0.1, 'patient_id': null}")
     = [u "ALERT Low gait_score: patient=None gait_score=0.1 ts=None"].
Proof. compute_run. repeat split; reflexivity. Qed.

(** C10, at an input where the code departs from it: [hr] is 150, so the
    heart-rate rule holds, [patient_id] is absent and [ts] is a lone
    surrogate, written in the JSON text as an escape; the text of the
    alert has "None" for the patient, but [print] cannot encode it and
    raises [UnicodeEncodeError]: the alert is not emitted. *)
Theorem alert_without_patient_unencodable (pr : char -> bool) :
  decodes_to surrogate_ts_message
             [(u "hr", PyInt 150); (u "ts", PyStr [c_surrogate])]
  /\ dict_lookup [(u "hr", PyInt 150); (u "ts", PyStr [c_surrogate])]
                 (u "patient_id") = None
  /\ hr_test (PyInt 150) = true
  /\ run_message pr surrogate_ts_message
     = (Raise (UnicodeEncodeError
                 (u "ALERT Tachycardia: patient=None hr=150 ts="
                    ++ [c_surrogate])),
        [processing_event surrogate_ts_message])
  /\ alerts pr surrogate_ts_message = [].
Proof. compute_run. repeat split; reflexivity. Qed.

End Particular_messages.

End Interpreter.

(** * The statements at particular inputs *)

(** The statements above applied to particular messages, under the budget
    of the script. *)

Lemma threshold_type_checks_witness :
  let m := json_text "{'hr': true, 'steps': 13.5, 'gait_score': 0}" in
  triggered script_depth_budget is_tachycardia ascii_only m = false
  /\ triggered script_depth_budget is_step_surge ascii_only m = false
  /\ triggered script_depth_budget is_low_gait ascii_only m = true.
Proof.
  intros m.
  assert (H : decodes_to script_depth_budget m
                [(u "hr", PyBool true);
                 (u "steps", PyFloat (float_of_decimal false 135 (-1)));
                 (u "gait_score", PyInt 0)])
    by (vm_compute; reflexivity).
  destruct (@threshold_type_checks script_depth_budget ascii_only m _ H)
    as (A & B & _ & E).
  split; [|split].
  - apply A. intros n. discriminate.
  - apply B. intros n. discriminate.
  - apply (proj1 (proj2 (E ltac:(vm_compute; reflexivity))) 0%Z).
    reflexivity.
Defined.

(** C1, as stated, fails: a boolean [gait_score] of false passes the
    type check of the gait rule and triggers it. *)
Lemma boolean_false_gait_score_triggers :
  decodes_to script_depth_budget
             (json_text "{'gait_score': false, 'patient_id': 'p9', 'ts': 't9'}")
             [(u "gait_score", PyBool false); (u "patient_id", PyStr (u "p9"));
              (u "ts", PyStr (u "t9"))]
  /\ alerts script_depth_budget ascii_only
       (json_text "{'gait_score': false, 'patient_id': 'p9', 'ts': 't9'}")
     = [u "ALERT Low gait_score: patient=p9 gait_score=False ts=t9"].
Proof. split; vm_compute; reflexivity. Qed.

Lemma tachycardia_alert_unencodable_witness :
  0 < script_depth_budget
  /\ alerts script_depth_budget ascii_only surrogate_patient_message = [].
Proof.
  assert (P : 0 < script_depth_budget) by (unfold script_depth_budget; lia).
  split; [exact P|].
  destruct (@tachycardia_alert_unencodable script_depth_budget P ascii_only)
    as (_ & _ & _ & _ & A & _).
  exact A.
Defined.

Lemma low_gait_rule_overflow_witness :
  0 < script_depth_budget
  /\ alerts script_depth_budget ascii_only huge_negative_gait_message = [].
Proof.
  assert (P : 0 < script_depth_budget) by (unfold script_depth_budget; lia).
  split; [exact P|].
  destruct (@low_gait_rule_overflow script_depth_budget P ascii_only)
    as (_ & _ & _ & A).
  exact A.
Defined.

Lemma step_rule_cut_short_witness :
  0 < script_depth_budget
  /\ alerts script_depth_budget ascii_only huge_gait_with_steps_message = [].
Proof.
  assert (P : 0 < script_depth_budget) by (unfold script_depth_budget; lia).
  split; [exact P|].
  destruct (@step_rule_cut_short script_depth_budget P ascii_only)
    as (_ & _ & _ & A).
  exact A.
Defined.

Lemma decoder_error_escapes_witness :
  0 < script_depth_budget
  /\ _try_parse_json script_depth_budget long_int_message []
     = (Raise (ValueError 4301), []).
Proof.
  assert (P : 0 < script_depth_budget) by (unfold script_depth_budget; lia).
  split; [exact P|].
  destruct (@decoder_error_escapes script_depth_budget P ascii_only)
    as (_ & _ & A & _).
  exact A.
Defined.

Lemma special_alert_cut_short_witness :
  0 < script_depth_budget
  /\ alerts script_depth_budget ascii_only long_int_special_message = []
  /\ alerts script_depth_budget ascii_only surrogate_special_message = [].
Proof.
  assert (P : 0 < script_depth_budget) by (unfold script_depth_budget; lia).
  split; [exact P|].
  destruct (@special_alert_cut_short script_depth_budget P ascii_only)
    as (_ & _ & _ & A & _ & _ & _ & B).
  split; [exact A | exact B].
Defined.

Lemma evaluator_raises_overflow_witness :
  0 < script_depth_budget
  /\ fst (run_message script_depth_budget ascii_only huge_gait_message)
     = Raise OverflowError.
Proof.
  assert (P : 0 < script_depth_budget) by (unfold script_depth_budget; lia).
  split; [exact P|].
  destruct (@evaluator_raises_overflow script_depth_budget P ascii_only)
    as (_ & _ & A).
  rewrite A. reflexivity.
Defined.

Lemma gait_score_false_triggers_witness :
  0 < script_depth_budget
  /\ triggered script_depth_budget is_low_gait ascii_only
               (json_text "{'hr': 80, 'gait_score': false, 'steps': 3}")
     = true.
Proof.
  assert (P : 0 < script_depth_budget) by (unfold script_depth_budget; lia).
  split; [exact P|].
  apply (proj2 (proj2 (proj2 (proj2
           (@gait_score_false_triggers script_depth_budget P ascii_only)))))
    with (d := [(u "hr", PyInt 80); (u "gait_score", PyBool false);
                (u "steps", PyInt 3)]);
    vm_compute; reflexivity.
Defined.

Lemma alert_without_patient_unencodable_witness :
  0 < script_depth_budget
  /\ alerts script_depth_budget ascii_only surrogate_ts_message = [].
Proof.
  assert (P : 0 < script_depth_budget) by (unfold script_depth_budget; lia).
  split; [exact P|].
  destruct (@alert_without_patient_unencodable script_depth_budget P
              ascii_only) as (_ & _ & _ & _ & A).
  exact A.
Defined.

Lemma tachycardia_boundary_witness :
  triggered script_depth_budget is_tachycardia ascii_only
            (json_text "{'hr': 121}") = true
  /\ triggered script_depth_budget is_tachycardia ascii_only
               (json_text "{'hr': 121, 'ts': '\ud800'}") <> true.
Proof.
  split.
  - apply (@tachycardia_boundary script_depth_budget ascii_only
             (json_text "{'hr': 121}") [(u "hr", PyInt 121)]);
      [vm_compute; reflexivity|].
    split; [|vm_compute; reflexivity].
    exists 121%Z. split; reflexivity.
  - intros T.
    apply (@tachycardia_boundary script_depth_budget ascii_only
             (json_text "{'hr': 121, 'ts': '\ud800'}")
             [(u "hr", PyInt 121); (u "ts", PyStr [c_surrogate])]) in T;
      [|vm_compute; reflexivity].
    destruct T as [_ S]. vm_compute in S. discriminate.
Defined.

Lemma step_surge_boundary_witness :
  triggered script_depth_budget is_step_surge ascii_only
            (json_text "{'steps': 13, 'gait_score': 7}") = true.
Proof.
  assert (H : decodes_to script_depth_budget
                (json_text "{'steps': 13, 'gait_score': 7}")
                [(u "steps", PyInt 13); (u "gait_score", PyInt 7)])
    by (vm_compute; reflexivity).
  apply (proj2 (@step_surge_boundary script_depth_budget ascii_only _ _ H)).
  - vm_compute. reflexivity.
  - exists 13%Z. split; reflexivity.
Defined.

Lemma gait_rule_on_special_floats_witness :
  triggered script_depth_budget is_low_gait ascii_only
            (json_text "{'gait_score': NaN}") = false
  /\ triggered script_depth_budget is_low_gait ascii_only
               (json_text "{'gait_score': -Infinity}") = true.
Proof.
  assert (H1 : decodes_to script_depth_budget
                 (json_text "{'gait_score': NaN}")
                 [(u "gait_score", PyFloat S754_nan)])
    by (vm_compute; reflexivity).
  assert (H2 : decodes_to script_depth_budget
                 (json_text "{'gait_score': -Infinity}")
                 [(u "gait_score", PyFloat (S754_infinity true))])
    by (vm_compute; reflexivity).
  split.
  - exact (proj1 (@gait_rule_on_special_floats script_depth_budget
                    ascii_only _ _ H1) eq_refl).
  - apply (proj2 (proj2 (@gait_rule_on_special_floats script_depth_budget
                           ascii_only _ _ H2))).
    + vm_compute. reflexivity.
    + reflexivity.
Defined.

Lemma evaluator_raises_above_bound_witness :
  fst (run_message script_depth_budget ascii_only huge_gait_message)
  = Raise OverflowError
  /\ alerts script_depth_budget ascii_only huge_gait_message
     = [u "ALERT Tachycardia: patient=None hr=150 ts=None"].
Proof.
  assert (H : decodes_to script_depth_budget huge_gait_message
                         [(u "hr", PyInt 150);
                          (u "gait_score", PyInt (10 ^ 400))])
    by (vm_compute; reflexivity).
  assert (B : (2 ^ 1024 <= Z.abs (10 ^ 400))%Z) by (vm_compute; discriminate).
  destruct (@evaluator_raises_above_bound script_depth_budget ascii_only
              _ _ _ H eq_refl B) as (R & A & _).
  split; [rewrite R | rewrite A]; vm_compute; reflexivity.
Defined.

Lemma padding_is_ignored_witness :
  alerts script_depth_budget ascii_only
         ([c_lf; 160%N] ++ json_text "{'hr': 150}" ++ [c_tab; 8232%N])
  = alerts script_depth_budget ascii_only (json_text "{'hr': 150}").
Proof.
  apply (proj2 (@padding_is_ignored script_depth_budget ascii_only
                  [c_lf; 160%N] (json_text "{'hr': 150}") [c_tab; 8232%N] []
                  eq_refl eq_refl))
    with (d := [(u "hr", PyInt 150)]).
  vm_compute. reflexivity.
Defined.

Lemma blank_message_is_silent_witness :
  run_message script_depth_budget ascii_only [c_space; c_lf]
  = (Return tt, [processing_event [c_space; c_lf]]).
Proof. apply blank_message_is_silent. reflexivity. Defined.

Lemma special_alert_iff_substring_witness :
  In (special_alert (u "So: I just loved a movie! It was funny. Bye"))
     (alerts script_depth_budget ascii_only
             (u "So: I just loved a movie! It was funny. Bye")).
Proof.
  apply (proj1 (@special_alert_iff_substring script_depth_budget ascii_only
                  (u "So: I just loved a movie! It was funny. Bye")
                  ltac:(vm_compute; reflexivity))).
  split; [|vm_compute; reflexivity].
  exists (u "So: "), (u " Bye"). reflexivity.
Defined.

Lemma alerts_depend_on_five_fields_witness :
  alerts script_depth_budget ascii_only
         (json_text "{'hr': 130, 'ward': [1, 2], 'steps': 20}")
  = alerts script_depth_budget ascii_only
           (json_text "{ 'steps' : 20 , 'hr' : 130 }").
Proof.
  assert (H1 : decodes_to script_depth_budget
                 (json_text "{'hr': 130, 'ward': [1, 2], 'steps': 20}")
                 [(u "hr", PyInt 130);
                  (u "ward", PyList [PyInt 1; PyInt 2]);
                  (u "steps", PyInt 20)])
    by (vm_compute; reflexivity).
  assert (H2 : decodes_to script_depth_budget
                 (json_text "{ 'steps' : 20 , 'hr' : 130 }")
                 [(u "steps", PyInt 20); (u "hr", PyInt 130)])
    by (vm_compute; reflexivity).
  exact (proj1 (@alerts_depend_on_five_fields script_depth_budget ascii_only
                  _ _ _ _ H1 H2 eq_refl eq_refl eq_refl eq_refl eq_refl)).
Defined.

Lemma decoded_object_is_a_map_witness :
  NoDup (List.map fst [(u "hr", PyInt 150); (u "ts", PyInt 2)])
  /\ dict_lookup [(u "hr", PyInt 150); (u "ts", PyInt 2)] (u "hr")
     = Some (PyInt 150).
Proof.
  assert (H : decodes_to script_depth_budget
                (json_text "{'hr': 90, 'ts': 1, 'ts': 2, 'hr': 150}")
                [(u "hr", PyInt 150); (u "ts", PyInt 2)])
    by (vm_compute; reflexivity).
  destruct (@decoded_object_is_a_map script_depth_budget _ _ H) as [N L].
  split; [exact N|]. apply L. left. reflexivity.
Defined.

Lemma getters_read_the_environment_witness :
  get_kafka_topic [(u "KAFKA_CONSUMER_GROUP_ID_JSON", u "g1");
                   (u "KAFKA_TOPIC", [])] []
  = (Return [], [Logged INFO (u "Kafka topic: ")])
  /\ get_kafka_consumer_group_id [(u "KAFKA_TOPIC", u "vitals")] []
     = (Return (u "kabore-group"),
        [Logged INFO (u "Kafka consumer group id: kabore-group")]).
Proof.
  split.
  - apply (proj1 (getters_read_the_environment
                    [(u "KAFKA_CONSUMER_GROUP_ID_JSON", u "g1");
                     (u "KAFKA_TOPIC", [])] [])
             [(u "KAFKA_CONSUMER_GROUP_ID_JSON", u "g1")] [] []);
      [reflexivity|].
    intros [E|[]]. vm_compute in E. discriminate.
  - apply (proj2 (proj2 (proj2 (getters_read_the_environment
                                  [(u "KAFKA_TOPIC", u "vitals")] [])))).
    intros [E|[]]. vm_compute in E. discriminate.
Defined.

Lemma main_on_healthy_stream_witness :
  printed (snd (main script_depth_budget ascii_only
                  (fun _ _ =>
                     consumer_of
                       (records_from 7 [json_text "{'hr': 150}";
                                        u "hello";
                                        json_text "{'steps': 20}"])
                       KeyboardInterrupt)
                  [] []))
  = [u "ALERT Tachycardia: patient=None hr=150 ts=None";
     u "ALERT Step surge: patient=None steps=20 ts=None"].
Proof.
  apply (@main_on_healthy_stream script_depth_budget ascii_only
           (fun _ _ =>
              consumer_of
                (records_from 7 [json_text "{'hr': 150}";
                                 u "hello";
                                 json_text "{'steps': 20}"])
                KeyboardInterrupt) []).
  repeat constructor; vm_compute; reflexivity.
Defined.

Lemma main_stops_at_first_error_witness :
  logged_at ERROR
    (snd (main script_depth_budget ascii_only
            (fun _ _ =>
               consumer_of
                 (records_from 0 [json_text "{'steps': 20}";
                                  surrogate_patient_message;
                                  json_text "{'hr': 200}"])
                 Exhausted)
            [] []))
  = [u "Error while consuming messages: 'utf-8' codec can't encode character '\ud800' in position 27: surrogates not allowed"].
Proof.
  apply (@main_stops_at_first_error script_depth_budget ascii_only
           (fun _ _ =>
              consumer_of
                (records_from 0 [json_text "{'steps': 20}";
                                 surrogate_patient_message;
                                 json_text "{'hr': 200}"])
                Exhausted) []
           [{| offset := 0; value := json_text "{'steps': 20}" |}]
           {| offset := 1; value := surrogate_patient_message |}
           [{| offset := 2; value := json_text "{'hr': 200}" |}]
           (UnicodeEncodeError
              (u "ALERT Tachycardia: patient=" ++ [c_surrogate]
                 ++ u " hr=150 ts=None"))).
  - reflexivity.
  - repeat constructor; vm_compute; reflexivity.
  - vm_compute. reflexivity.
Defined.

Lemma deep_nesting_raises_witness :
  run_message script_depth_budget ascii_only (nested_arrays_message 992)
  = (Raise (RecursionError false),
     [processing_event (nested_arrays_message 992)]).
Proof.
  apply (@deep_nesting_raises script_depth_budget ascii_only 992).
  unfold script_depth_budget. lia.
Defined.

(** One array fewer and the message is within the budget: it decodes, and
    the evaluator returns with no alert. *)
Lemma nesting_within_budget :
  run_message script_depth_budget ascii_only (nested_arrays_message 991)
  = (Return tt, [processing_event (nested_arrays_message 991)]).
Proof. vm_compute. reflexivity. Qed.
